(** * scim-mediator: a shallow embedding of the synchronisation engine

    The development follows the Go packages of the repository:
    - [pkg/models]      the record types (UserRecord, JobTask, SCIMPatchOp, ...);
    - [pkg/store]       the file-backed mirror and the audit log;
    - [pkg/smartsuite]  the client and its retrying transport;
    - [cmd]             the process-batch, refresh and cleanup-users commands.

    Everything outside the repository (the network, the clock, the random
    source, the cancellation signal, the file system's faults, the order in
    which Go ranges over a map, encoding/json's decoders) is gathered in an
    environment record [Env]; the commands run in a state monad over [World],
    which holds the files of the data directory and a trace of what the
    program did to the outside. *)

From Stdlib Require Import ZArith Ascii String List Lia.
From stdpp Require Import gmap strings list fin_maps pretty.

Set Default Proof Using "Type".
#[local] Set Warnings "-register-all".
#[local] Open Scope Z_scope.

(** ** Strings *)

(** The double-quote character, used by the SCIM filter syntax. *)
Definition dquote : string := String (ascii_of_nat 34) EmptyString.

(** [fmt.Sprintf("%d", n)] *)
Definition fmt_d (n : Z) : string := pretty n.

(** ** pkg/models *)

(** Instants and durations are counted in nanoseconds, as Go's [time] does. *)
Abbreviation Time := Z.
Abbreviation Duration := Z.
Definition Millisecond : Duration := 1000000.
Definition Second : Duration := 1000000000.
Definition Hour : Duration := 3600 * Second.

(** A value held in a Go [interface{}] after JSON decoding. *)
Inductive GoValue :=
| VNil
| VBool (b : bool)
| VNumber (literal : string)
| VString (s : string)
| VSlice (l : list GoValue)
| VMap (m : gmap string GoValue).

Record SCIMName := {
  Formatted : string;
  FamilyName : string;
  GivenName : string }.

(** Field names carry a short prefix where two structs of the source share a
    field name: [u_] UserRecord, [g_] GroupRecord, [a_] AuditEvent,
    [t_] JobTask, [su_] SCIMUser, [sg_] SCIMGroup, [p_] SCIMPatchOp. *)
Record UserRecord := {
  u_SCIMID : string;
  u_Email : string;
  u_Status : string;
  u_Name : SCIMName;
  u_Title : string;
  u_Organization : string;
  u_DeactivationTimestamp : option Time }.

Record GroupRecord := { g_SCIMID : string }.

Record AuditEvent := {
  a_Timestamp : Time;
  a_UseCase : string;
  a_Target : string;
  a_Status : string;
  a_Details : string }.

Record JobTask := {
  t_Type : string;
  t_Target : string;
  t_Data : GoValue;
  t_Status : string }.

Record SCIMEmail := {
  e_Value : string;
  e_Type : string;
  e_Primary : bool }.

Record SCIMUser := {
  su_ID : string;
  su_Schemas : list string;
  su_UserName : string;
  su_Name : SCIMName;
  su_Emails : list SCIMEmail;
  su_Active : bool;
  su_Title : string;
  su_Organization : string (* EnterpriseData.Organization *) }.

Record SCIMGroup := {
  sg_ID : string;
  sg_DisplayName : string }.

(** [p_Value = None] is the nil interface. *)
Record SCIMPatchOp := {
  p_Op : string;
  p_Path : string;
  p_Value : option GoValue }.

Record ListResponse := {
  TotalResults : Z;
  ItemsPerPage : Z;
  StartIndex : Z;
  Resources : list GoValue }.

(** [json.Marshal] of a [SCIMPatchOp], as a JSON object: [op] is always
    written, [path] is dropped when empty and [value] when it is the nil
    interface (the [omitempty] tags of the struct). *)
Definition marshal_SCIMPatchOp (op : SCIMPatchOp) : gmap string GoValue :=
  let o1 : gmap string GoValue := {[ "op" := VString (p_Op op) ]} in
  let o2 := if decide (p_Path op = "") then o1
            else <["path" := VString (p_Path op)]> o1 in
  match p_Value op with
  | None => o2
  | Some v => <["value" := v]> o2
  end.

(** ** Errors *)

Inductive CtxErr := Canceled | DeadlineExceeded.

Inductive Error :=
| ErrCtx (c : CtxErr)
| ErrHTTP (msg : string)
| ErrStatus (code : Z)
| ErrReadBody (msg : string)
| ErrNonRetryable (code : Z) (body : string)
| ErrExhausted (attempts : Z) (last : option Error)
| ErrNewRequest (msg : string)
| ErrUnmarshal (what : string)
| ErrUserNotFound (target : string)
| ErrUpdateData
| ErrNoOperations (target : string)
| ErrGroupData
| ErrGroupNotFound (group : string)
| ErrInvalidOpType (opType : string)
| ErrUnknownTask (type : string)
| ErrClientConfig
| ErrMkdir (dir msg : string)
| ErrReadFile (what msg : string)
| ErrWriteFile (what msg : string)
| ErrRename (msg : string).

(** The [Error()] string of each error value. *)
Fixpoint Error_msg (e : Error) : string :=
  match e with
  | ErrCtx Canceled => "context canceled"
  | ErrCtx DeadlineExceeded => "context deadline exceeded"
  | ErrHTTP msg => msg
  | ErrStatus code => "API returned status " +:+ fmt_d code
  | ErrReadBody msg => "failed to read response body: " +:+ msg
  | ErrNonRetryable code body =>
      "api request failed with non-retryable status " +:+ fmt_d code +:+ ": " +:+ body
  | ErrExhausted n last =>
      "request failed after " +:+ fmt_d n +:+ " attempts: " +:+
      match last with Some e' => Error_msg e' | None => "%!w(<nil>)" end
  | ErrNewRequest msg => msg
  | ErrUnmarshal what => "error unmarshaling " +:+ what
  | ErrUserNotFound target => "user '" +:+ target +:+ "' not found in local store"
  | ErrUpdateData => "task data for update must be a map of attributes"
  | ErrNoOperations target => "no update operations provided for user '" +:+ target +:+ "'"
  | ErrGroupData => "task data for group membership must be the group name (string)"
  | ErrGroupNotFound group => "group '" +:+ group +:+ "' not found in local store"
  | ErrInvalidOpType opType => "internal error: invalid opType '" +:+ opType +:+ "'"
  | ErrUnknownTask type => "unknown task type: '" +:+ type +:+ "'"
  | ErrClientConfig => "BaseURL and APIKey must be provided"
  | ErrMkdir dir msg => "could not create data directory " +:+ dir +:+ ": " +:+ msg
  | ErrReadFile what msg => "failed to read " +:+ what +:+ ": " +:+ msg
  | ErrWriteFile what msg => "failed to write " +:+ what +:+ ": " +:+ msg
  | ErrRename msg => msg
  end.

(** ** The outside world *)

Record Request := {
  Method : string;
  URL : string;
  Header : gmap string string;
  Body : option GoValue }.

(** What one call of [HTTPClient.Do] followed by reading the body yields. *)
Inductive Outcome :=
| NetErr (msg : string)                 (* Do returned an error *)
| Resp (status : Z) (body : string)     (* a response, body read in full *)
| RespBadBody (status : Z) (msg : string). (* a response whose body cannot be read *)

(** A file of the data directory, by what reading and decoding it gives. *)
Inductive File (A : Type) :=
| Missing
| Corrupt (msg : string)
| Holds (a : A).
Arguments Missing {A}.
Arguments Corrupt {A} msg.
Arguments Holds {A} a.

Record Env := {
  (* net/http: the outcome of the n-th call of HTTPClient.Do *)
  http_do : nat → Request → Outcome;
  (* http.NewRequestWithContext: the error, if any, for a method and URL *)
  new_request_err : string → string → option string;
  (* context: the value of ctx.Err() at its n-th poll *)
  ctx_err : nat → option CtxErr;
  (* math/rand: the n-th draw *)
  rand_draw : nat → Z;
  (* time: the n-th reading of the clock; Time.Format for a layout *)
  clock : nat → Time;
  time_Format : string → Time → string;
  (* os: the error, if any, of the n-th mutating file-system call *)
  fs_fault : nat → option string;
  (* the order in which the n-th range statement visits a map *)
  range_order : nat → ∀ V, gmap string V → list (string * V);
  range_order_perm : ∀ n V (m : gmap string V), range_order n V m ≡ₚ map_to_list m;
  (* encoding/json *)
  unmarshal_ListResponse : string → option ListResponse;
  decode_SCIMUser : GoValue → option SCIMUser;
  decode_SCIMGroup : GoValue → option SCIMGroup;
  (* path/filepath *)
  filepath_Join : string → string → string;
  (* viper configuration and command-line flags *)
  cfg_api_url : string;
  cfg_api_key : string;
  cfg_data_dir : string;
  flag_from_file : File (list JobTask) }.

Record World := {
  (* the data directory *)
  users_json : File (gmap string UserRecord);
  groups_json : File (gmap string GroupRecord);
  job_queue_json : File (list JobTask);
  archived : gmap string (File (list JobTask));
  audit_log : list AuditEvent;
  (* trace: every attempt put on the wire with its outcome, every sleep *)
  wire : list (Request * Outcome);
  slept : list Duration;
  (* cursors into the environment *)
  polls : nat;
  draws : nat;
  ticks : nat;
  fs_ops : nat;
  ranges : nat }.

Definition set_users_json (v : File (gmap string UserRecord)) (w : World) : World :=
  {| users_json := v; groups_json := groups_json w; job_queue_json := job_queue_json w;
     archived := archived w; audit_log := audit_log w; wire := wire w; slept := slept w;
     polls := polls w; draws := draws w; ticks := ticks w; fs_ops := fs_ops w;
     ranges := ranges w |}.

Definition set_groups_json (v : File (gmap string GroupRecord)) (w : World) : World :=
  {| users_json := users_json w; groups_json := v; job_queue_json := job_queue_json w;
     archived := archived w; audit_log := audit_log w; wire := wire w; slept := slept w;
     polls := polls w; draws := draws w; ticks := ticks w; fs_ops := fs_ops w;
     ranges := ranges w |}.

Definition set_job_queue_json (v : File (list JobTask)) (w : World) : World :=
  {| users_json := users_json w; groups_json := groups_json w; job_queue_json := v;
     archived := archived w; audit_log := audit_log w; wire := wire w; slept := slept w;
     polls := polls w; draws := draws w; ticks := ticks w; fs_ops := fs_ops w;
     ranges := ranges w |}.

Definition set_archived (v : gmap string (File (list JobTask))) (w : World) : World :=
  {| users_json := users_json w; groups_json := groups_json w;
     job_queue_json := job_queue_json w;
     archived := v; audit_log := audit_log w; wire := wire w; slept := slept w;
     polls := polls w; draws := draws w; ticks := ticks w; fs_ops := fs_ops w;
     ranges := ranges w |}.

Definition set_audit_log (v : list AuditEvent) (w : World) : World :=
  {| users_json := users_json w; groups_json := groups_json w;
     job_queue_json := job_queue_json w;
     archived := archived w; audit_log := v; wire := wire w; slept := slept w;
     polls := polls w; draws := draws w; ticks := ticks w; fs_ops := fs_ops w;
     ranges := ranges w |}.

Definition set_wire (v : list (Request * Outcome)) (w : World) : World :=
  {| users_json := users_json w; groups_json := groups_json w;
     job_queue_json := job_queue_json w;
     archived := archived w; audit_log := audit_log w; wire := v; slept := slept w;
     polls := polls w; draws := draws w; ticks := ticks w; fs_ops := fs_ops w;
     ranges := ranges w |}.

Definition set_slept (v : list Duration) (w : World) : World :=
  {| users_json := users_json w; groups_json := groups_json w;
     job_queue_json := job_queue_json w;
     archived := archived w; audit_log := audit_log w; wire := wire w; slept := v;
     polls := polls w; draws := draws w; ticks := ticks w; fs_ops := fs_ops w;
     ranges := ranges w |}.

Definition set_polls (v : nat) (w : World) : World :=
  {| users_json := users_json w; groups_json := groups_json w;
     job_queue_json := job_queue_json w;
     archived := archived w; audit_log := audit_log w; wire := wire w; slept := slept w;
     polls := v; draws := draws w; ticks := ticks w; fs_ops := fs_ops w;
     ranges := ranges w |}.

Definition set_draws (v : nat) (w : World) : World :=
  {| users_json := users_json w; groups_json := groups_json w;
     job_queue_json := job_queue_json w;
     archived := archived w; audit_log := audit_log w; wire := wire w; slept := slept w;
     polls := polls w; draws := v; ticks := ticks w; fs_ops := fs_ops w;
     ranges := ranges w |}.

Definition set_ticks (v : nat) (w : World) : World :=
  {| users_json := users_json w; groups_json := groups_json w;
     job_queue_json := job_queue_json w;
     archived := archived w; audit_log := audit_log w; wire := wire w; slept := slept w;
     polls := polls w; draws := draws w; ticks := v; fs_ops := fs_ops w;
     ranges := ranges w |}.

Definition set_fs_ops (v : nat) (w : World) : World :=
  {| users_json := users_json w; groups_json := groups_json w;
     job_queue_json := job_queue_json w;
     archived := archived w; audit_log := audit_log w; wire := wire w; slept := slept w;
     polls := polls w; draws := draws w; ticks := ticks w; fs_ops := v;
     ranges := ranges w |}.

Definition set_ranges (v : nat) (w : World) : World :=
  {| users_json := users_json w; groups_json := groups_json w;
     job_queue_json := job_queue_json w;
     archived := archived w; audit_log := audit_log w; wire := wire w; slept := slept w;
     polls := polls w; draws := draws w; ticks := ticks w; fs_ops := fs_ops w;
     ranges := v |}.

(** ** The command monad *)

(** A Go call either returns a value, returns a non-nil [error], ends the
    process ([os.Exit] or a run-time panic), or - for the one unbounded loop
    of the client - is cut off by the fuel of the model. *)
Inductive Res (A : Type) :=
| Ok (a : A)
| Err (e : Error)
| Exit (code : Z)
| Panic (msg : string)
| OutOfFuel.
Arguments Ok {A} a.
Arguments Err {A} e.
Arguments Exit {A} code.
Arguments Panic {A} msg.
Arguments OutOfFuel {A}.

Definition M (A : Type) : Type := World → Res A * World.

#[global] Instance M_ret : MRet M := λ A a w, (Ok a, w).
#[global] Instance M_bind : MBind M := λ A B f m w,
  match m w with
  | (Ok a, w') => f a w'
  | (Err e, w') => (Err e, w')
  | (Exit c, w') => (Exit c, w')
  | (Panic s, w') => (Panic s, w')
  | (OutOfFuel, w') => (OutOfFuel, w')
  end.

Definition fail {A} (e : Error) : M A := λ w, (Err e, w).
Definition os_Exit {A} (code : Z) : M A := λ w, (Exit code, w).
Definition panic {A} (msg : string) : M A := λ w, (Panic msg, w).
Definition out_of_fuel {A} : M A := λ w, (OutOfFuel, w).
Definition modify (f : World → World) : M unit := λ w, (Ok tt, f w).

(** [err := f(...)] followed by a test of [err]: the error becomes a value. *)
Definition try {A} (m : M A) : M (Error + A) := λ w,
  match m w with
  | (Ok a, w') => (Ok (inr a), w')
  | (Err e, w') => (Ok (inl e), w')
  | (Exit c, w') => (Exit c, w')
  | (Panic s, w') => (Panic s, w')
  | (OutOfFuel, w') => (OutOfFuel, w')
  end.

(** [if err != nil { slog.Error(...); os.Exit(1) }] *)
Definition or_exit {A} (m : M A) : M A := λ w,
  match m w with
  | (Err _, w') => (Exit 1, w')
  | r => r
  end.

Section Program.
Context (env : Env).

(** ** Calls into the environment *)

(** [ctx.Err()] *)
Definition ctx_Err : M (option CtxErr) := λ w,
  (Ok (ctx_err env (polls w)), set_polls (S (polls w)) w).

(** [time.Now()] *)
Definition time_Now : M Time := λ w,
  (Ok (clock env (ticks w)), set_ticks (S (ticks w)) w).

(** [time.Sleep(d)] *)
Definition time_Sleep (d : Duration) : M unit :=
  modify (λ w, set_slept (slept w ++ [d]) w).

(** [rand.Intn(n)], for a positive [n] *)
Definition rand_Intn (n : Z) : M Z := λ w,
  (Ok (rand_draw env (draws w) `mod` n), set_draws (S (draws w)) w).

(** [c.HTTPClient.Do(req)], the response body included *)
Definition HTTPClient_Do (req : Request) : M Outcome := λ w,
  let o := http_do env (length (wire w)) req in
  (Ok o, set_wire (wire w ++ [(req, o)]) w).

(** The next mutating file-system call: [None] when it goes through. *)
Definition fs_call : M (option string) := λ w,
  (Ok (fs_fault env (fs_ops w)), set_fs_ops (S (fs_ops w)) w).

(** [for k, v := range m]: the pairs of [m] in the order of this visit. *)
Definition range_map {V} (m : gmap string V) : M (list (string * V)) := λ w,
  (Ok (range_order env (ranges w) V m), set_ranges (S (ranges w)) w).

(** ** pkg/store *)

(** [NewStore]: [os.MkdirAll] of the data directory. *)
Definition NewStore (dataDir : string) : M unit :=
  f ← fs_call;
  match f with
  | Some msg => fail (ErrMkdir dataDir msg)
  | None => mret tt
  end.

Definition LoadUsers : M (gmap string UserRecord) := λ w,
  match users_json w with
  | Missing => (Ok ∅, w)
  | Corrupt msg => (Err (ErrReadFile "users file" msg), w)
  | Holds users => (Ok users, w)
  end.

Definition SaveUsers (users : gmap string UserRecord) : M unit :=
  f ← fs_call;
  match f with
  | Some msg => fail (ErrWriteFile "users file" msg)
  | None => modify (set_users_json (Holds users))
  end.

Definition LoadGroups : M (gmap string GroupRecord) := λ w,
  match groups_json w with
  | Missing => (Ok ∅, w)
  | Corrupt msg => (Err (ErrReadFile "groups file" msg), w)
  | Holds groups => (Ok groups, w)
  end.

Definition SaveGroups (groups : gmap string GroupRecord) : M unit :=
  f ← fs_call;
  match f with
  | Some msg => fail (ErrWriteFile "groups file" msg)
  | None => modify (set_groups_json (Holds groups))
  end.

Definition AppendToAuditLog (event : AuditEvent) : M unit :=
  f ← fs_call;
  match f with
  | Some msg => fail (ErrWriteFile "audit log" msg)
  | None => modify (λ w, set_audit_log (audit_log w ++ [event]) w)
  end.

(** ** cmd: logAndAudit *)

(** [fmt.Sprintf("%v", args)] for a slice whose elements are already printed *)
Fixpoint join_space (l : list string) : string :=
  match l with
  | [] => ""
  | [x] => x
  | x :: l' => x +:+ " " +:+ join_space l'
  end.

Definition fmt_v_slice (args : list string) : string :=
  "[" +:+ join_space args +:+ "]".

(** Console output through [slog] is not part of the model; level "fatal"
    ends the process before the audit event is written. *)
Definition logAndAudit (useCase target level details : string) (args : list string)
  : M unit :=
  (if decide (level = "fatal") then os_Exit 1 else mret tt) ;;
  now ← time_Now;
  let event := {| a_Timestamp := now;
                  a_UseCase := useCase;
                  a_Target := target;
                  a_Status := level;
                  a_Details := details +:+ " (" +:+ fmt_v_slice args +:+ ")" |} in
  _ ← try (AppendToAuditLog event);
  mret tt.

(** ** pkg/smartsuite: the client *)

Record Client := {
  BaseURL : string;
  APIKey : string }.

Definition NewClient (baseURL apiKey : string) : M Client :=
  if decide (baseURL = "" ∨ apiKey = "") then fail ErrClientConfig
  else mret {| BaseURL := baseURL; APIKey := apiKey |}.

(** [http.NewRequestWithContext] *)
Definition NewRequest (method url : string) (body : option GoValue) : M Request :=
  match new_request_err env method url with
  | Some msg => fail (ErrNewRequest msg)
  | None => mret {| Method := method; URL := url; Header := ∅; Body := body |}
  end.

Definition maxRetries : nat := 4.
Definition baseBackoff : Duration := 1 * Second.

(** [float64(baseBackoff) * math.Pow(2, float64(attempt))], exact for the
    attempts the loop can reach *)
Definition backoff (attempt : nat) : Duration := baseBackoff * 2 ^ Z.of_nat attempt.

Definition StatusTooManyRequests : Z := 429.
Definition StatusNoContent : Z := 204.

Definition retryable_status (status : Z) : bool :=
  bool_decide (status = StatusTooManyRequests) || bool_decide (500 ≤ status).

(** The request each attempt puts on the wire: a clone with the three headers set. *)
Definition cloneReq (c : Client) (req : Request) : Request :=
  {| Method := Method req;
     URL := URL req;
     Header := <["Accept" := "application/scim+json"]>
               (<["Content-Type" := "application/scim+json"]>
               (<["Authorization" := "Bearer " +:+ APIKey c]> (Header req)));
     Body := Body req |}.

(** The loop of [doRequestWithRetry], entered with [attempt] and with
    [remaining = maxRetries - attempt] iterations left. *)
Fixpoint retry_loop (remaining attempt : nat) (c : Client) (lastErr : option Error)
    (req : Request) : M string :=
  match remaining with
  | O => fail (ErrExhausted (Z.of_nat maxRetries) lastErr)
  | S remaining' =>
    cerr ← ctx_Err;
    match cerr with
    | Some e => fail (ErrCtx e)
    | None =>
      o ← HTTPClient_Do (cloneReq c req);
      let back_off (status : Z) : M string :=
        jitter ← rand_Intn 1000;
        time_Sleep (backoff attempt + jitter * Millisecond) ;;
        retry_loop remaining' (S attempt) c (Some (ErrStatus status)) req in
      match o with
      | NetErr msg =>
          time_Sleep (500 * Millisecond) ;;
          retry_loop remaining' (S attempt) c (Some (ErrHTTP msg)) req
      | RespBadBody status msg =>
          if retryable_status status then back_off status
          else fail (ErrReadBody msg)
      | Resp status body =>
          if retryable_status status then back_off status
          else if bool_decide (status = StatusNoContent) then mret ""
          else if bool_decide (status < 200 ∨ 300 ≤ status)
               then fail (ErrNonRetryable status body)
          else mret body
      end
    end
  end.

Definition doRequestWithRetry (c : Client) (req : Request) : M string :=
  retry_loop maxRetries 0 c None req.

(** The PATCH envelope [{schemas, Operations}] as a JSON value. *)
Definition patch_payload (operations : list SCIMPatchOp) : GoValue :=
  VMap (<["schemas" := VSlice [VString "urn:ietf:params:scim:api:messages:2.0:PatchOp"]]>
       (<["Operations" := VSlice (map (λ op, VMap (marshal_SCIMPatchOp op)) operations)]> ∅)).

Definition PatchUser (c : Client) (scimID : string) (operations : list SCIMPatchOp)
  : M unit :=
  req ← NewRequest "PATCH" (BaseURL c +:+ "/Users/" +:+ scimID)
                   (Some (patch_payload operations));
  _ ← doRequestWithRetry c req;
  mret tt.

Definition PatchGroup (c : Client) (scimID : string) (operations : list SCIMPatchOp)
  : M unit :=
  req ← NewRequest "PATCH" (BaseURL c +:+ "/Groups/" +:+ scimID)
                   (Some (patch_payload operations));
  _ ← doRequestWithRetry c req;
  mret tt.

Definition DeleteUser (c : Client) (scimID : string) : M unit :=
  req ← NewRequest "DELETE" (BaseURL c +:+ "/Users/" +:+ scimID) None;
  _ ← doRequestWithRetry c req;
  mret tt.

(** The query string [url.Values.Encode] builds, keys sorted. *)
Definition page_url (c : Client) (collection : string) (startIndex itemsPerPage : Z)
  : string :=
  BaseURL c +:+ "/" +:+ collection +:+ "?count=" +:+ fmt_d itemsPerPage
  +:+ "&startIndex=" +:+ fmt_d startIndex.

(** The pagination loop of [GetUsers]. The source loops until the server
    reports an empty page or enough results; [fuel] bounds the pages. *)
Fixpoint GetUsers_loop (fuel : nat) (c : Client) (allUsers : list SCIMUser)
    (startIndex : Z) : M (list SCIMUser) :=
  match fuel with
  | O => out_of_fuel
  | S fuel' =>
    req ← NewRequest "GET" (page_url c "Users" startIndex 100) None;
    body ← doRequestWithRetry c req;
    match unmarshal_ListResponse env body with
    | None => fail (ErrUnmarshal "user list response")
    | Some listResponse =>
      if decide (length (Resources listResponse) = 0%nat) then mret allUsers
      else
        let allUsers' := allUsers ++ omap (decode_SCIMUser env) (Resources listResponse) in
        if bool_decide (TotalResults listResponse ≤ Z.of_nat (length allUsers'))
        then mret allUsers'
        else GetUsers_loop fuel' c allUsers'
               (startIndex + Z.of_nat (length (Resources listResponse)))
    end
  end.

Definition GetUsers (fuel : nat) (c : Client) : M (list SCIMUser) :=
  GetUsers_loop fuel c [] 1.

Fixpoint GetGroups_loop (fuel : nat) (c : Client) (allGroups : list SCIMGroup)
    (startIndex : Z) : M (list SCIMGroup) :=
  match fuel with
  | O => out_of_fuel
  | S fuel' =>
    req ← NewRequest "GET" (page_url c "Groups" startIndex 100) None;
    body ← doRequestWithRetry c req;
    match unmarshal_ListResponse env body with
    | None => fail (ErrUnmarshal "group list response")
    | Some listResponse =>
      if decide (length (Resources listResponse) = 0%nat) then mret allGroups
      else
        let allGroups' := allGroups ++ omap (decode_SCIMGroup env) (Resources listResponse) in
        if bool_decide (TotalResults listResponse ≤ Z.of_nat (length allGroups'))
        then mret allGroups'
        else GetGroups_loop fuel' c allGroups'
               (startIndex + Z.of_nat (length (Resources listResponse)))
    end
  end.

Definition GetGroups (fuel : nat) (c : Client) : M (list SCIMGroup) :=
  GetGroups_loop fuel c [] 1.

(** ** cmd/processBatch.go *)

(** A Go [interface{}] field set from a decoded value: JSON null is the nil
    interface. *)
Definition iface (v : GoValue) : option GoValue :=
  match v with
  | VNil => None
  | _ => Some v
  end.

Definition err_of {A} (r : Error + A) : option Error :=
  match r with
  | inl err => Some err
  | inr _ => None
  end.

(** [record.Title = title] *)
Definition set_Title (title : string) (record : UserRecord) : UserRecord :=
  {| u_SCIMID := u_SCIMID record; u_Email := u_Email record;
     u_Status := u_Status record; u_Name := u_Name record;
     u_Title := title; u_Organization := u_Organization record;
     u_DeactivationTimestamp := u_DeactivationTimestamp record |}.

(** [record.DeactivationTimestamp = &now; record.Status = "inactive"] *)
Definition set_deactivated (now : Time) (record : UserRecord) : UserRecord :=
  {| u_SCIMID := u_SCIMID record; u_Email := u_Email record;
     u_Status := "inactive"; u_Name := u_Name record;
     u_Title := u_Title record; u_Organization := u_Organization record;
     u_DeactivationTimestamp := Some now |}.

(** The body of the second loop of [handleUpdateTask]: the [switch key]. *)
Definition update_field (acc : UserRecord * string) (kv : string * GoValue)
  : UserRecord * string :=
  let '(record, newUserName) := acc in
  if decide (kv.1 = "title") then
    match kv.2 with
    | VString title => (set_Title title record, newUserName)
    | _ => acc
    end
  else if decide (kv.1 = "userName") then
    match kv.2 with
    | VString un => (record, un)
    | _ => acc
    end
  else acc.

(** The handlers share the caller's [userStore] map and may have written to
    it when they return an error; they hand back the map with the error. *)
Definition handleUpdateTask (c : Client) (userStore : gmap string UserRecord)
    (task : JobTask) : M (gmap string UserRecord * option Error) :=
  match userStore !! t_Target task with
  | None => mret (userStore, Some (ErrUserNotFound (t_Target task)))
  | Some record =>
    match t_Data task with
    | VMap dataMap =>
      kvs ← range_map dataMap;
      let operations :=
        map (λ kv : string * GoValue,
               {| p_Op := "replace"; p_Path := kv.1; p_Value := iface kv.2 |}) kvs in
      if decide (length operations = 0%nat)
      then mret (userStore, Some (ErrNoOperations (t_Target task)))
      else
        r ← try (PatchUser c (u_SCIMID record) operations);
        match r with
        | inl err => mret (userStore, Some err)
        | inr _ =>
          kvs' ← range_map dataMap;
          let '(record', newUserName) := fold_left update_field kvs' (record, "") in
          let userStore' :=
            if decide (newUserName ≠ "" ∧ newUserName ≠ t_Target task)
            then <[newUserName := record']> (delete (t_Target task) userStore)
            else <[t_Target task := record']> userStore in
          r' ← try (SaveUsers userStore');
          mret (userStore', err_of r')
        end
    | _ => mret (userStore, Some ErrUpdateData)
    end
  end.

Definition handleDeactivateTask (c : Client) (userStore : gmap string UserRecord)
    (task : JobTask) : M (gmap string UserRecord * option Error) :=
  match userStore !! t_Target task with
  | None => mret (userStore, Some (ErrUserNotFound (t_Target task)))
  | Some record =>
    let operations :=
      [ {| p_Op := "replace"; p_Path := "active"; p_Value := Some (VBool false) |} ] in
    r ← try (PatchUser c (u_SCIMID record) operations);
    match r with
    | inl err => mret (userStore, Some err)
    | inr _ =>
      now ← time_Now;
      let record' := set_deactivated now record in
      let userStore' := <[t_Target task := record']> userStore in
      r' ← try (SaveUsers userStore');
      mret (userStore', err_of r')
    end
  end.

Definition handleGroupMembershipTask (c : Client) (userStore : gmap string UserRecord)
    (groupStore : gmap string GroupRecord) (task : JobTask) (opType : string)
  : M (option Error) :=
  match userStore !! t_Target task with
  | None => mret (Some (ErrUserNotFound (t_Target task)))
  | Some user =>
    match t_Data task with
    | VString groupName =>
      match groupStore !! groupName with
      | None => mret (Some (ErrGroupNotFound groupName))
      | Some group =>
        if decide (opType = "add") then
          let op := {| p_Op := "add"; p_Path := "members";
                       p_Value := Some (VSlice [VMap {[ "value" := VString (u_SCIMID user) ]}]) |} in
          r ← try (PatchGroup c (g_SCIMID group) [op]); mret (err_of r)
        else if decide (opType = "remove") then
          let op := {| p_Op := "remove";
                       p_Path := "members[value eq " +:+ dquote +:+ u_SCIMID user
                                 +:+ dquote +:+ "]";
                       p_Value := None |} in
          r ← try (PatchGroup c (g_SCIMID group) [op]); mret (err_of r)
        else mret (Some (ErrInvalidOpType opType))
      end
    | _ => mret (Some ErrGroupData)
    end
  end.

(** [saveQueue]: a failed write is only logged. *)
Definition saveQueue (queue : list JobTask) : M unit :=
  f ← fs_call;
  match f with
  | Some _ => mret tt
  | None => modify (set_job_queue_json (Holds queue))
  end.

Definition set_Status (status : string) (task : JobTask) : JobTask :=
  {| t_Type := t_Type task; t_Target := t_Target task; t_Data := t_Data task;
     t_Status := status |}.

(** The variables the task loop of the command updates. *)
Record BatchState := {
  jobQueue : list JobTask;
  userStore : gmap string UserRecord;
  tasksProcessed : Z;
  hasChanges : bool }.

(** The [switch task.Type] of the loop. *)
Definition dispatch (c : Client) (groupStore : gmap string GroupRecord)
    (users : gmap string UserRecord) (task : JobTask)
  : M (gmap string UserRecord * option Error) :=
  if decide (t_Type task = "update") then handleUpdateTask c users task
  else if decide (t_Type task = "deactivate") then handleDeactivateTask c users task
  else if decide (t_Type task = "add-to-group") then
    taskErr ← handleGroupMembershipTask c users groupStore task "add";
    mret (users, taskErr)
  else if decide (t_Type task = "remove-from-group") then
    taskErr ← handleGroupMembershipTask c users groupStore task "remove";
    mret (users, taskErr)
  else mret (users, Some (ErrUnknownTask (t_Type task))).

(** One pending task: dispatch, set the status, audit, save every fifth. *)
Definition process_task (c : Client) (groupStore : gmap string GroupRecord)
    (i : nat) (task : JobTask) (st : BatchState) : M BatchState :=
  '(users', taskErr) ← dispatch c groupStore (userStore st) task;
  let task' := set_Status (match taskErr with
                           | Some _ => "failed"
                           | None => "completed"
                           end) task in
  match taskErr with
  | Some err =>
      logAndAudit "ProcessBatch" (t_Target task) "error" "Task failed"
                  ["error"; Error_msg err]
  | None =>
      logAndAudit "ProcessBatch" (t_Target task) "info"
                  ("Task '" +:+ t_Type task +:+ "' completed successfully.") []
  end ;;
  let st' := {| jobQueue := <[i := task']> (jobQueue st);
                userStore := users';
                tasksProcessed := tasksProcessed st + 1;
                hasChanges := true |} in
  (if bool_decide (tasksProcessed st' `mod` 5 = 0)
   then saveQueue (jobQueue st') else mret tt) ;;
  mret st'.

(** [for i := range jobQueue], entered at index [i] with [remaining]
    iterations left. The flag of the result tells whether the command
    returned from inside the loop on the shutdown signal. *)
Fixpoint process_loop (remaining i : nat) (c : Client)
    (groupStore : gmap string GroupRecord) (st : BatchState) : M (bool * BatchState) :=
  match remaining with
  | O => mret (false, st)
  | S remaining' =>
    cerr ← ctx_Err;
    match cerr with
    | Some _ => saveQueue (jobQueue st) ;; mret (true, st)
    | None =>
      match jobQueue st !! i with
      | None => panic "index out of range"
      | Some task =>
        if decide (t_Status task ≠ "pending")
        then process_loop remaining' (S i) c groupStore st
        else
          st' ← process_task c groupStore i task st;
          process_loop remaining' (S i) c groupStore st'
      end
    end
  end.

(** The "Prepare Job Queue" block. *)
Definition prepare_queue : M (list JobTask) := λ w,
  match job_queue_json w with
  | Missing =>
      match flag_from_file env with
      | Holds sourceData => (Ok (map (set_Status "pending") sourceData), w)
      | _ => (Exit 1, w)
      end
  | Corrupt _ => (Exit 1, w)
  | Holds queueData => (Ok queueData, w)
  end.

Definition data_dir : string :=
  if decide (cfg_data_dir env = "") then "./data" else cfg_data_dir env.

Definition jobQueueFile : string := filepath_Join env data_dir "job_queue.json".

(** [os.Rename(jobQueueFile, completedFileName)] *)
Definition os_Rename_queue (completedFileName : string) : M unit :=
  f ← fs_call;
  match f with
  | Some msg => fail (ErrRename msg)
  | None => λ w,
      match job_queue_json w with
      | Missing => (Err (ErrRename "no such file or directory"), w)
      | content =>
          (Ok tt, set_archived (<[completedFileName := content]> (archived w))
                    (set_job_queue_json Missing w))
      end
  end.

Definition allCompleted (queue : list JobTask) : bool :=
  forallb (λ task, bool_decide (t_Status task = "completed")) queue.

(** The "Archive Job Queue on Success" block. *)
Definition archive_queue (queue : list JobTask) : M unit :=
  if allCompleted queue && bool_decide (0 < length queue)%nat then
    now ← time_Now;
    let timestamp := time_Format env "20060102-150405" now in
    let completedFileName := jobQueueFile +:+ ".completed_" +:+ timestamp in
    _ ← try (os_Rename_queue completedFileName);
    mret tt
  else mret tt.

(** The command up to the end of the task loop and the save that follows
    it; the flag tells whether it returned on the shutdown signal. *)
Definition processBatchCmd_tasks : M (bool * BatchState) :=
  queue ← prepare_queue;
  client ← or_exit (NewClient (cfg_api_url env) (cfg_api_key env));
  or_exit (NewStore data_dir) ;;
  users ← or_exit LoadUsers;
  groupStore ← or_exit LoadGroups;
  '(stopped, st) ← process_loop (length queue) 0 client groupStore
                      {| jobQueue := queue; userStore := users;
                         tasksProcessed := 0; hasChanges := false |};
  if stopped : bool then mret (true, st)
  else
    (if hasChanges st then saveQueue (jobQueue st) else mret tt) ;;
    mret (false, st).

Definition processBatchCmd_Run : M unit :=
  '(stopped, st) ← processBatchCmd_tasks;
  if stopped : bool then mret tt
  else archive_queue (jobQueue st).

(** ** cmd: refresh *)

(** [for _, x := range l { f(x) }] *)
Fixpoint for_each {A} (f : A → M unit) (l : list A) : M unit :=
  match l with
  | [] => mret tt
  | x :: l' => f x ;; for_each f l'
  end.

(** The loop of [reconcileUsers] that fills [newState]; [None] is the
    run-time panic of [u.Emails[0]] on a user without e-mail address. *)
Fixpoint build_user_state (scimUsers : list SCIMUser)
    (newState : gmap string UserRecord) : option (gmap string UserRecord) :=
  match scimUsers with
  | [] => Some newState
  | u :: rest =>
    if decide (su_UserName u = "") then build_user_state rest newState
    else
      match su_Emails u with
      | [] => None
      | email :: _ =>
        let status := if su_Active u then "active" else "inactive" in
        build_user_state rest
          (<[su_UserName u :=
               {| u_SCIMID := su_ID u;
                  u_Email := e_Value email;
                  u_Status := status;
                  u_Name := su_Name u;
                  u_Title := su_Title u;
                  u_Organization := su_Organization u;
                  u_DeactivationTimestamp := None |}]> newState)
      end
  end.

#[global] Instance SCIMName_eq_dec : EqDecision SCIMName.
Proof. solve_decision. Defined.

(** Body of [for eppn, newUser := range newState]. *)
Definition diff_new_user (oldState : gmap string UserRecord)
    (kv : string * UserRecord) : M unit :=
  let '(eppn, newUser) := kv in
  match oldState !! eppn with
  | None =>
      logAndAudit "Refresh: Delta Found" eppn "info"
        "User created in SmartSuite directly." ["scim_id"; u_SCIMID newUser]
  | Some oldUser =>
      (if decide (u_Status oldUser ≠ u_Status newUser) then
         logAndAudit "Refresh: Delta Found" eppn "info"
           "User status changed outside of mediator."
           ["from_status"; u_Status oldUser; "to_status"; u_Status newUser]
       else mret tt) ;;
      (if decide (u_Title oldUser ≠ u_Title newUser) then
         logAndAudit "Refresh: Delta Found" eppn "info"
           "User title changed outside of mediator."
           ["from_title"; u_Title oldUser; "to_title"; u_Title newUser]
       else mret tt) ;;
      (if decide (u_Name oldUser ≠ u_Name newUser) then
         logAndAudit "Refresh: Delta Found" eppn "info"
           "User name changed outside of mediator." []
       else mret tt)
  end.

(** Body of [for eppn, oldUser := range oldState]. *)
Definition diff_old_user (newState : gmap string UserRecord)
    (kv : string * UserRecord) : M unit :=
  let '(eppn, oldUser) := kv in
  match newState !! eppn with
  | None =>
      logAndAudit "Refresh: Delta Found" eppn "info"
        "User deleted in SmartSuite directly." ["scim_id"; u_SCIMID oldUser]
  | Some _ => mret tt
  end.

Definition reconcileUsers (fuel : nat) (c : Client) : M unit :=
  oldState ← LoadUsers;
  scimUsers ← GetUsers fuel c;
  match build_user_state scimUsers ∅ with
  | None => panic "index out of range [0] with length 0"
  | Some newState =>
    kvs ← range_map newState;
    for_each (diff_new_user oldState) kvs ;;
    kvs' ← range_map oldState;
    for_each (diff_old_user newState) kvs' ;;
    SaveUsers newState
  end.

Fixpoint build_group_state (scimGroups : list SCIMGroup)
    (newState : gmap string GroupRecord) : gmap string GroupRecord :=
  match scimGroups with
  | [] => newState
  | g :: rest =>
    if decide (sg_DisplayName g = "") then build_group_state rest newState
    else build_group_state rest
           (<[sg_DisplayName g := {| g_SCIMID := sg_ID g |}]> newState)
  end.

Definition diff_new_group (oldState : gmap string GroupRecord)
    (kv : string * GroupRecord) : M unit :=
  let '(name, newGroup) := kv in
  match oldState !! name with
  | None =>
      logAndAudit "Refresh: Delta Found" name "info"
        "Group created in SmartSuite directly." ["scim_id"; g_SCIMID newGroup]
  | Some _ => mret tt
  end.

Definition diff_old_group (newState : gmap string GroupRecord)
    (kv : string * GroupRecord) : M unit :=
  let '(name, oldGroup) := kv in
  match newState !! name with
  | None =>
      logAndAudit "Refresh: Delta Found" name "info"
        "Group deleted in SmartSuite directly." ["scim_id"; g_SCIMID oldGroup]
  | Some _ => mret tt
  end.

Definition reconcileGroups (fuel : nat) (c : Client) : M unit :=
  oldState ← LoadGroups;
  scimGroups ← GetGroups fuel c;
  let newState := build_group_state scimGroups ∅ in
  kvs ← range_map newState;
  for_each (diff_new_group oldState) kvs ;;
  kvs' ← range_map oldState;
  for_each (diff_old_group newState) kvs' ;;
  SaveGroups newState.

(** What the command does with the error of a reconcile step: return on a
    context error, exit with status 1 on any other. *)
Definition halt_on (err : Error) : M unit :=
  match err with
  | ErrCtx _ => mret tt
  | _ => os_Exit 1
  end.

Definition refreshCmd_Run (fuel : nat) : M unit :=
  client ← or_exit (NewClient (cfg_api_url env) (cfg_api_key env));
  or_exit (NewStore data_dir) ;;
  r ← try (reconcileUsers fuel client);
  match r with
  | inl err => halt_on err
  | inr _ =>
    r' ← try (reconcileGroups fuel client);
    match r' with
    | inl err => halt_on err
    | inr _ => mret tt
    end
  end.

(** ** cmd: cleanup-users *)

Definition gracePeriod : Duration := -7 * 24 * Hour.

(** [record.DeactivationTimestamp != nil &&
     record.DeactivationTimestamp.Before(cutoffTime)] *)
Definition past_grace (cutoffTime : Time) (record : UserRecord) : bool :=
  match u_DeactivationTimestamp record with
  | Some t => bool_decide (t < cutoffTime)
  | None => false
  end.

Definition collect_step (cutoffTime : Time) (usersToDelete : gmap string string)
    (kv : string * UserRecord) : gmap string string :=
  if past_grace cutoffTime kv.2 then <[kv.1 := u_SCIMID kv.2]> usersToDelete
  else usersToDelete.

(** [for eppn, scimID := range usersToDelete], on the pairs still to visit. *)
Fixpoint cleanup_loop (c : Client) (todo : list (string * string))
    (users : gmap string UserRecord) (failedDeletions : list string)
  : M (gmap string UserRecord * list string) :=
  match todo with
  | [] => mret (users, failedDeletions)
  | (eppn, scimID) :: rest =>
    cerr ← ctx_Err;
    match cerr with
    | Some _ => mret (users, failedDeletions)
    | None =>
      logAndAudit "CleanupUser" eppn "info" "Attempting to delete user."
                  ["scim_id"; scimID] ;;
      r ← try (DeleteUser c scimID);
      match r with
      | inl err =>
          logAndAudit "CleanupUser" eppn "error" "Failed to delete user via API"
                      ["error"; Error_msg err] ;;
          cleanup_loop c rest users (failedDeletions ++ [eppn])
      | inr _ =>
          let users' := delete eppn users in
          logAndAudit "CleanupUser" eppn "info" "Successfully deleted user." [] ;;
          cleanup_loop c rest users' failedDeletions
      end
    end
  end.

Definition cleanupUsersCmd_Run : M unit :=
  client ← or_exit (NewClient (cfg_api_url env) (cfg_api_key env));
  or_exit (NewStore data_dir) ;;
  users ← or_exit LoadUsers;
  now ← time_Now;
  let cutoffTime := now + gracePeriod in
  kvs ← range_map users;
  let usersToDelete := fold_left (collect_step cutoffTime) kvs ∅ in
  if decide (size usersToDelete = 0%nat) then mret tt
  else
    todo ← range_map usersToDelete;
    '(users', failedDeletions) ← cleanup_loop client todo users [];
    or_exit (SaveUsers users') ;;
    mret tt.

End Program.

(** ** Vocabulary of the statements *)

(** The error an attempt leaves in [lastErr] when it is retried. *)
Definition cause (o : Outcome) : Error :=
  match o with
  | NetErr msg => ErrHTTP msg
  | Resp status _ => ErrStatus status
  | RespBadBody status _ => ErrStatus status
  end.

(** The attempts the transport retries: transport errors, 429 and 5xx. *)
Definition retryable (o : Outcome) : bool :=
  match o with
  | NetErr _ => true
  | Resp status _ => retryable_status status
  | RespBadBody status _ => retryable_status status
  end.

(** The world after a retried attempt numbered [attempt]. *)
Definition after_retry (env : Env) (attempt : nat) (sent : Request) (o : Outcome)
    (w : World) : World :=
  let w1 := set_wire (wire w ++ [(sent, o)]) (set_polls (S (polls w)) w) in
  match o with
  | NetErr _ => set_slept (slept w1 ++ [500 * Millisecond]) w1
  | _ =>
    let w2 := set_draws (S (draws w1)) w1 in
    set_slept (slept w2 ++ [backoff attempt + (rand_draw env (draws w) `mod` 1000) * Millisecond]) w2
  end.

(** What the transport sleeps after a retried attempt. *)
Definition retry_delay (env : Env) (attempt : nat) (o : Outcome) (draw : nat) : Duration :=
  match o with
  | NetErr _ => 500 * Millisecond
  | _ => backoff attempt + (rand_draw env draw `mod` 1000) * Millisecond
  end.

(** What a run leaves alone when it performs no task: the mirror files, the
    audit log, the wire and the sleeps. *)
Definition same_mirror (w w' : World) : Prop :=
  users_json w' = users_json w ∧ groups_json w' = groups_json w ∧
  audit_log w' = audit_log w ∧ wire w' = wire w ∧ slept w' = slept w.

(** A 2xx response. *)
Definition success (o : Outcome) : bool :=
  match o with
  | Resp status _ => bool_decide (200 ≤ status < 300)
  | _ => false
  end.

(** The files and cursors the transport leaves alone. *)
Definition same_disk (w w' : World) : Prop :=
  users_json w' = users_json w ∧ groups_json w' = groups_json w ∧
  job_queue_json w' = job_queue_json w ∧ archived w' = archived w ∧
  audit_log w' = audit_log w ∧ ticks w' = ticks w ∧ fs_ops w' = fs_ops w ∧
  ranges w' = ranges w.

(** A call of the transport ends normally; what it returned and what it put
    on the wire. *)
Definition transport_result {A} (r : Res A) (outs : list Outcome) : Prop :=
  match r with
  | Ok _ => ∃ outs' o, outs = outs' ++ [o] ∧ success o = true
  | Err _ => True
  | _ => False
  end.

(** The three client calls that carry no result. *)
Definition client_call_spec (env : Env) (m : M unit) (method url : string)
    (body : option GoValue) (c : Client) : Prop :=
  ∀ w, ∃ r w' outs,
    m w = (r, w') ∧ same_disk w w' ∧
    wire w' = wire w ++
      map (λ o, (cloneReq c {| Method := method; URL := url; Header := ∅; Body := body |}, o)) outs ∧
    transport_result r outs.

(** The audit event [logAndAudit] builds. *)
Definition audit_event (now : Time) (useCase target level details : string)
    (args : list string) : AuditEvent :=
  {| a_Timestamp := now;
     a_UseCase := useCase;
     a_Target := target;
     a_Status := level;
     a_Details := details +:+ " (" +:+ fmt_v_slice args +:+ ")" |}.

(** The world after a call of [logAndAudit] below level "fatal". *)
Definition after_audit (env : Env) (useCase target level details : string)
    (args : list string) (w : World) : World :=
  let w1 := set_fs_ops (S (fs_ops w)) (set_ticks (S (ticks w)) w) in
  match fs_fault env (fs_ops w) with
  | Some _ => w1
  | None =>
      set_audit_log
        (audit_log w ++ [audit_event (clock env (ticks w)) useCase target level details args])
        w1
  end.

(** What a task handler leaves alone on disk: it writes at most users.json,
    and then the map it hands back. *)
Definition handler_frame (w w' : World) (users' : gmap string UserRecord) : Prop :=
  groups_json w' = groups_json w ∧ job_queue_json w' = job_queue_json w ∧
  archived w' = archived w ∧ audit_log w' = audit_log w ∧
  (users_json w' = users_json w ∨ users_json w' = Holds users').

(** The local checks of the task handlers, in the order of the source: the
    error a task is rejected with before any request is built. *)
Definition precondition_error (users : gmap string UserRecord)
    (groups : gmap string GroupRecord) (task : JobTask) : option Error :=
  if decide (t_Type task = "update") then
    match users !! t_Target task with
    | None => Some (ErrUserNotFound (t_Target task))
    | Some _ =>
      match t_Data task with
      | VMap m => if decide (m = ∅) then Some (ErrNoOperations (t_Target task)) else None
      | _ => Some ErrUpdateData
      end
    end
  else if decide (t_Type task = "deactivate") then
    match users !! t_Target task with
    | None => Some (ErrUserNotFound (t_Target task))
    | Some _ => None
    end
  else if decide (t_Type task = "add-to-group" ∨ t_Type task = "remove-from-group") then
    match users !! t_Target task with
    | None => Some (ErrUserNotFound (t_Target task))
    | Some _ =>
      match t_Data task with
      | VString groupName =>
        match groups !! groupName with
        | None => Some (ErrGroupNotFound groupName)
        | Some _ => None
        end
      | _ => Some ErrGroupData
      end
    end
  else Some (ErrUnknownTask (t_Type task)).

(** The record an update task with attribute map [m] leaves for its target,
    and the key it leaves it under. *)
Definition updated_record (m : gmap string GoValue) (record : UserRecord) : UserRecord :=
  match m !! "title" with
  | Some (VString title) => set_Title title record
  | _ => record
  end.

Definition updated_name (m : gmap string GoValue) : string :=
  match m !! "userName" with
  | Some (VString un) => un
  | _ => ""
  end.

Definition updated_key (m : gmap string GoValue) (target : string) : string :=
  if decide (updated_name m ≠ "" ∧ updated_name m ≠ target) then updated_name m
  else target.

(** The mirror after a task that succeeded at time [now]. *)
Definition mirror_after (now : Time) (task : JobTask) (users : gmap string UserRecord)
  : gmap string UserRecord :=
  match users !! t_Target task with
  | None => users
  | Some record =>
    if decide (t_Type task = "update") then
      match t_Data task with
      | VMap m => <[updated_key m (t_Target task) := updated_record m record]>
                    (delete (t_Target task) users)
      | _ => users
      end
    else if decide (t_Type task = "deactivate") then
      <[t_Target task := set_deactivated now record]> users
    else users
  end.

(** An environment in which nothing fails: no shutdown signal, no disk
    fault, every request can be built and every attempt is answered 2xx. *)
Definition healthy (env : Env) : Prop :=
  (∀ n, ctx_err env n = None) ∧
  (∀ n, fs_fault env n = None) ∧
  (∀ method url, new_request_err env method url = None) ∧
  (∀ n req, success (http_do env n req) = true).

(** The one operation a membership task sends, by kind. *)
Definition add_member_op (user : UserRecord) : SCIMPatchOp :=
  {| p_Op := "add"; p_Path := "members";
     p_Value := Some (VSlice [VMap {[ "value" := VString (u_SCIMID user) ]}]) |}.

Definition remove_member_op (user : UserRecord) : SCIMPatchOp :=
  {| p_Op := "remove";
     p_Path := "members[value eq " +:+ dquote +:+ u_SCIMID user +:+ dquote +:+ "]";
     p_Value := None |}.

(** The attempts of one PATCH of a group, as they appear on the wire. *)
Definition group_patch_attempts (c : Client) (group : GroupRecord) (op : SCIMPatchOp)
    (outs : list Outcome) : list (Request * Outcome) :=
  map (λ o, (cloneReq c {| Method := "PATCH";
                           URL := BaseURL c +:+ "/Groups/" +:+ g_SCIMID group;
                           Header := ∅;
                           Body := Some (patch_payload [op]) |}, o)) outs.

(** The status a task is given for the result of its handler, and the audit
    event that goes with it. *)
Definition task_status (err : option Error) : string :=
  match err with
  | Some _ => "failed"
  | None => "completed"
  end.

Definition task_event (now : Time) (task : JobTask) (err : option Error) : AuditEvent :=
  match err with
  | Some e =>
      audit_event now "ProcessBatch" (t_Target task) "error" "Task failed"
                  ["error"; Error_msg e]
  | None =>
      audit_event now "ProcessBatch" (t_Target task) "info"
                  ("Task '" +:+ t_Type task +:+ "' completed successfully.") []
  end.

(** The loop state after the task at index [i] was handled with result
    [(users', err)]. *)
Definition state_after (i : nat) (task : JobTask) (users' : gmap string UserRecord)
    (err : option Error) (st : BatchState) : BatchState :=
  {| jobQueue := <[i := set_Status (task_status err) task]> (jobQueue st);
     userStore := users';
     tasksProcessed := tasksProcessed st + 1;
     hasChanges := true |}.

Definition pending (task : JobTask) : Prop := t_Status task = "pending".

(** A drift the reconciler reports: the arguments of its [logAndAudit] call. *)
Record Drift := {
  d_target : string;
  d_details : string;
  d_args : list string }.

Definition drift_event (now : Time) (d : Drift) : AuditEvent :=
  audit_event now "Refresh: Delta Found" (d_target d) "info" (d_details d) (d_args d).

Definition created_user (eppn : string) (newUser : UserRecord) : Drift :=
  {| d_target := eppn; d_details := "User created in SmartSuite directly.";
     d_args := ["scim_id"; u_SCIMID newUser] |}.

Definition deleted_user (eppn : string) (oldUser : UserRecord) : Drift :=
  {| d_target := eppn; d_details := "User deleted in SmartSuite directly.";
     d_args := ["scim_id"; u_SCIMID oldUser] |}.

(** The drifts of one user of the new state, and of one user of the old. *)
Definition new_user_drift (oldState : gmap string UserRecord)
    (kv : string * UserRecord) : list Drift :=
  match oldState !! kv.1 with
  | None => [created_user kv.1 kv.2]
  | Some oldUser =>
      (if decide (u_Status oldUser ≠ u_Status kv.2) then
         [{| d_target := kv.1; d_details := "User status changed outside of mediator.";
             d_args := ["from_status"; u_Status oldUser; "to_status"; u_Status kv.2] |}]
       else []) ++
      (if decide (u_Title oldUser ≠ u_Title kv.2) then
         [{| d_target := kv.1; d_details := "User title changed outside of mediator.";
             d_args := ["from_title"; u_Title oldUser; "to_title"; u_Title kv.2] |}]
       else []) ++
      (if decide (u_Name oldUser ≠ u_Name kv.2) then
         [{| d_target := kv.1; d_details := "User name changed outside of mediator.";
             d_args := [] |}]
       else [])
  end.

Definition old_user_drift (newState : gmap string UserRecord)
    (kv : string * UserRecord) : list Drift :=
  match newState !! kv.1 with
  | None => [deleted_user kv.1 kv.2]
  | Some _ => []
  end.

Definition user_drift (oldState newState : gmap string UserRecord) : list Drift :=
  (map_to_list newState ≫= new_user_drift oldState) ++
  (map_to_list oldState ≫= old_user_drift newState).

Definition new_group_drift (oldState : gmap string GroupRecord)
    (kv : string * GroupRecord) : list Drift :=
  match oldState !! kv.1 with
  | None => [{| d_target := kv.1; d_details := "Group created in SmartSuite directly.";
                d_args := ["scim_id"; g_SCIMID kv.2] |}]
  | Some _ => []
  end.

Definition old_group_drift (newState : gmap string GroupRecord)
    (kv : string * GroupRecord) : list Drift :=
  match newState !! kv.1 with
  | None => [{| d_target := kv.1; d_details := "Group deleted in SmartSuite directly.";
                d_args := ["scim_id"; g_SCIMID kv.2] |}]
  | Some _ => []
  end.

(** The world after the reconciler has reported a list of drifts. *)
Definition audit_all (env : Env) (ds : list Drift) (w : World) : World :=
  fold_left (λ w d, after_audit env "Refresh: Delta Found" (d_target d) "info"
                      (d_details d) (d_args d) w) ds w.


(** ** A test environment *)

(** Civil date of a day count since 1970-01-01 (proleptic Gregorian). *)
Definition civil_of_days (z : Z) : Z * Z * Z :=
  let z := z + 719468 in
  let era := z `div` 146097 in
  let doe := z - era * 146097 in
  let yoe := (doe - doe `div` 1460 + doe `div` 36524 - doe `div` 146096) `div` 365 in
  let doy := doe - (365 * yoe + yoe `div` 4 - yoe `div` 100) in
  let mp := (5 * doy + 2) `div` 153 in
  let d := doy - (153 * mp + 2) `div` 5 + 1 in
  let m := if bool_decide (mp < 10) then mp + 3 else mp - 9 in
  let y := yoe + era * 400 + (if bool_decide (m ≤ 2) then 1 else 0) in
  (y, m, d).

Definition pad2 (n : Z) : string :=
  if bool_decide (n < 10) then "0" +:+ fmt_d n else fmt_d n.

Definition pad4 (n : Z) : string :=
  if bool_decide (n < 10) then "000" +:+ fmt_d n
  else if bool_decide (n < 100) then "00" +:+ fmt_d n
  else if bool_decide (n < 1000) then "0" +:+ fmt_d n
  else fmt_d n.

(** [Time.Format] in UTC for the one layout the program uses. *)
Definition utc_Format (layout : string) (t : Time) : string :=
  if decide (layout = "20060102-150405") then
    let secs := t `div` Second in
    let '(y, m, d) := civil_of_days (secs `div` 86400) in
    let sod := secs `mod` 86400 in
    pad4 y +:+ pad2 m +:+ pad2 d +:+ "-" +:+
    pad2 (sod `div` 3600) +:+ pad2 ((sod `mod` 3600) `div` 60) +:+ pad2 (sod `mod` 60)
  else layout.

Definition get_string (o : option GoValue) : string :=
  match o with
  | Some (VString s) => s
  | _ => ""
  end.

Definition get_bool (o : option GoValue) : bool :=
  match o with
  | Some (VBool b) => b
  | _ => false
  end.

Definition get_map (o : option GoValue) : gmap string GoValue :=
  match o with
  | Some (VMap m) => m
  | _ => ∅
  end.

Definition get_emails (o : option GoValue) : list SCIMEmail :=
  match o with
  | Some (VSlice l) =>
      map (λ v, {| e_Value := get_string (get_map (Some v) !! "value");
                   e_Type := get_string (get_map (Some v) !! "type");
                   e_Primary := get_bool (get_map (Some v) !! "primary") |}) l
  | _ => []
  end.

(** A decoder of JSON objects into [SCIMUser], by field name. *)
Definition test_decode_SCIMUser (v : GoValue) : option SCIMUser :=
  match v with
  | VMap m =>
      Some {| su_ID := get_string (m !! "id");
              su_Schemas := [];
              su_UserName := get_string (m !! "userName");
              su_Name := {| Formatted := get_string (get_map (m !! "name") !! "formatted");
                            FamilyName := get_string (get_map (m !! "name") !! "familyName");
                            GivenName := get_string (get_map (m !! "name") !! "givenName") |};
              su_Emails := get_emails (m !! "emails");
              su_Active := get_bool (m !! "active");
              su_Title := get_string (m !! "title");
              su_Organization :=
                get_string (get_map (m !! "urn:ietf:params:scim:schemas:extension:enterprise:2.0:User")
                            !! "organization") |}
  | _ => None
  end.

Definition test_decode_SCIMGroup (v : GoValue) : option SCIMGroup :=
  match v with
  | VMap m => Some {| sg_ID := get_string (m !! "id");
                      sg_DisplayName := get_string (m !! "displayName") |}
  | _ => None
  end.

(** The test environment: a scripted network and cancellation signal, a
    source file, and response bodies decoded through a table [pages]; the
    disk never fails, the clock starts at [t0] and advances one second per
    reading, maps are visited in the order of [map_to_list]. *)
Definition test_env (http : nat → Request → Outcome)
    (ctx : nat → option CtxErr) (fault : nat → option string) (t0 : Time)
    (pages : gmap string ListResponse) (source : File (list JobTask)) : Env :=
  {| http_do := http;
     new_request_err := λ _ _, None;
     ctx_err := ctx;
     rand_draw := λ n, 137 * Z.of_nat n + 1042;
     clock := λ n, t0 + Z.of_nat n * Second;
     time_Format := utc_Format;
     fs_fault := fault;
     range_order := λ _ V m, map_to_list m;
     range_order_perm := λ _ V m, Permutation_refl (map_to_list m);
     unmarshal_ListResponse := λ body, pages !! body;
     decode_SCIMUser := test_decode_SCIMUser;
     decode_SCIMGroup := test_decode_SCIMGroup;
     filepath_Join := λ dir name, dir +:+ "/" +:+ name;
     cfg_api_url := "https://scim.example.org/v2";
     cfg_api_key := "secret";
     cfg_data_dir := "data";
     flag_from_file := source |}.

Definition empty_world : World :=
  {| users_json := Missing; groups_json := Missing; job_queue_json := Missing;
     archived := ∅; audit_log := []; wire := []; slept := [];
     polls := 0; draws := 0; ticks := 0; fs_ops := 0; ranges := 0 |}.

Definition test_client : Client :=
  {| BaseURL := "https://scim.example.org/v2"; APIKey := "secret" |}.

Definition never_cancelled : nat → option CtxErr := λ _, None.
Definition no_fault : nat → option string := λ _, None.

(** 2024-02-29 23:59:59 UTC *)
Definition t_leap : Time := 1709251199 * Second.

Definition get_req : Request :=
  {| Method := "GET"; URL := "https://scim.example.org/v2/Users/u1"; Header := ∅; Body := None |}.

(** A server that answers every request with 204 No Content. *)
Definition env_ok : Env :=
  test_env (λ _ _, Resp 204 "") never_cancelled no_fault t_leap ∅ Missing.

(** A server that answers every request with 503 Service Unavailable. *)
Definition env_503 : Env :=
  test_env (λ _ _, Resp 503 "busy") never_cancelled no_fault t_leap ∅ Missing.

Definition user_record (scimID email status : string) (stamp : option Time) : UserRecord :=
  {| u_SCIMID := scimID; u_Email := email; u_Status := status;
     u_Name := {| Formatted := ""; FamilyName := ""; GivenName := "" |};
     u_Title := ""; u_Organization := ""; u_DeactivationTimestamp := stamp |}.

Definition alice : UserRecord := user_record "abc-123" "alice@example.org" "active" None.
Definition bob : UserRecord := user_record "def-456" "bob@example.org" "active" None.

Definition users0 : gmap string UserRecord :=
  <["alice@example.org" := alice]> (<["bob@example.org" := bob]> ∅).

Definition groups0 : gmap string GroupRecord :=
  <["staff" := {| g_SCIMID := "grp-1" |}]> ∅.

Definition task (type target : string) (data : GoValue) (status : string) : JobTask :=
  {| t_Type := type; t_Target := target; t_Data := data; t_Status := status |}.

Definition world0 : World :=
  set_groups_json (Holds groups0) (set_users_json (Holds users0) empty_world).

Definition batch0 (queue : list JobTask) (users : gmap string UserRecord) : BatchState :=
  {| jobQueue := queue; userStore := users; tasksProcessed := 0; hasChanges := false |}.

Definition done_queue : list JobTask :=
  [ task "deactivate" "alice@example.org" VNil "completed";
    task "add-to-group" "bob@example.org" (VString "staff") "completed" ].

Definition world_done : World := set_job_queue_json (Holds done_queue) world0.



Definition three_tasks : list JobTask :=
  [ task "deactivate" "alice@example.org" VNil "pending";
    task "deactivate" "ghost@example.org" VNil "pending";
    task "add-to-group" "bob@example.org" (VString "staff") "pending" ].


Definition remove_alice : JobTask :=
  task "remove-from-group" "alice@example.org" (VString "staff") "pending".

(** The remote directory of the reconciliation examples: users bob and
    carol on one page, group admins on another. *)
Definition json_user (id userName : string) : GoValue :=
  VMap (<["id" := VString id]>
       (<["userName" := VString userName]>
       (<["active" := VBool true]>
       (<["emails" := VSlice [VMap (<["value" := VString userName]> ∅)]]> ∅)))).

Definition users_page : ListResponse :=
  {| TotalResults := 2; ItemsPerPage := 100; StartIndex := 1;
     Resources := [json_user "def-456" "bob@example.org";
                   json_user "ghi-789" "carol@example.org"] |}.

Definition groups_page : ListResponse :=
  {| TotalResults := 1; ItemsPerPage := 100; StartIndex := 1;
     Resources := [VMap (<["id" := VString "grp-2"]>
                        (<["displayName" := VString "admins"]> ∅))] |}.

(** A remote directory whose one user, dora, is inactive. *)
Definition dora_page : ListResponse :=
  {| TotalResults := 1; ItemsPerPage := 100; StartIndex := 1;
     Resources := [VMap (<["id" := VString "jkl-000"]>
                        (<["userName" := VString "dora@example.org"]>
                        (<["active" := VBool false]>
                        (<["emails" := VSlice [VMap (<["value" := VString "dora@example.org"]> ∅)]]>
                         ∅))))] |}.

Definition remote_pages : gmap string ListResponse :=
  <["users-page" := users_page]>
    (<["groups-page" := groups_page]> (<["dora-page" := dora_page]> ∅)).

Definition env_dora : Env :=
  test_env (λ _ _, Resp 200 "dora-page") never_cancelled no_fault t_leap remote_pages Missing.

(** Every request is answered 200 with the users page. *)
Definition env_refresh : Env :=
  test_env (λ _ _, Resp 200 "users-page") never_cancelled no_fault t_leap remote_pages Missing.

(** The first four attempts meet a refused connection; later ones are
    answered 200 with the groups page. *)
Definition env_users_down : Env :=
  test_env (λ n _, if bool_decide (n < 4)%nat then NetErr "connection refused"
                   else Resp 200 "groups-page")
           never_cancelled no_fault t_leap remote_pages Missing.

Definition carol : UserRecord := user_record "ghi-789" "carol@example.org" "active" None.

Definition scim_user (id userName : string) : SCIMUser :=
  {| su_ID := id; su_Schemas := []; su_UserName := userName;
     su_Name := {| Formatted := ""; FamilyName := ""; GivenName := "" |};
     su_Emails := [{| e_Value := userName; e_Type := ""; e_Primary := false |}];
     su_Active := true; su_Title := ""; su_Organization := "" |}.

(** A user deactivated thirty days before [t_leap]. *)
Definition t_old : Time := t_leap - 30 * 24 * Hour.
Definition dora : UserRecord :=
  user_record "jkl-000" "dora@example.org" "inactive" (Some t_old).
Definition users_dora : gmap string UserRecord := <["dora@example.org" := dora]> users0.
Definition world_dora : World := set_users_json (Holds users_dora) world0.

Definition deactivate_alice : JobTask := task "deactivate" "alice@example.org" VNil "pending".

(** ** Vocabulary of the further statements *)

(** The world after the first [k] attempts of a call were all retried, the
    first of them numbered [attempt]. *)
Fixpoint after_retries (env : Env) (attempt : nat) (sent : Request) (k : nat)
    (w : World) : World :=
  match k with
  | O => w
  | S k' =>
      after_retries env (S attempt) sent k'
        (after_retry env attempt sent (http_do env (length (wire w)) sent) w)
  end.

(** The first [k] attempts of a call entered in world [w], as they appear
    on the wire. *)
Definition attempts (env : Env) (sent : Request) (w : World) (k : nat)
  : list (Request * Outcome) :=
  map (λ i : nat, (sent, http_do env (length (wire w) + i) sent)) (seq 0 k).

(** The time a list of sleeps adds up to. *)
Definition total (ds : list Duration) : Duration := foldr Z.add 0 ds.

(** The longest a call entered at attempt [attempt] with [remaining]
    attempts left can sleep: the backoff of each attempt and a full jitter. *)
Fixpoint sleep_budget (remaining attempt : nat) : Duration :=
  match remaining with
  | O => 0
  | S remaining' => backoff attempt + 999 * Millisecond + sleep_budget remaining' (S attempt)
  end.

(** The request for the page of a collection that starts at [startIndex]. *)
Definition page_request (c : Client) (collection : string) (startIndex : Z) : Request :=
  {| Method := "GET"; URL := page_url c collection startIndex 100;
     Header := ∅; Body := None |}.

(** The start indices the client asks for when the server answers with
    [pages]: each page moves the index by the number of its resources. *)
Fixpoint page_starts (startIndex : Z) (pages : list ListResponse) : list Z :=
  match pages with
  | [] => []
  | p :: ps =>
      startIndex :: page_starts (startIndex + Z.of_nat (length (Resources p))) ps
  end.

(** The server answers the requests of a pagination loop, entered with
    [n_wire] attempts on the wire and [n_poll] polls of the context, with
    [pages], each at the first attempt and with a 2xx status other than 204;
    the context is not cancelled meanwhile. *)
Fixpoint served (env : Env) (c : Client) (collection : string) (n_wire n_poll : nat)
    (startIndex : Z) (pages : list ListResponse) : Prop :=
  match pages with
  | [] => True
  | p :: ps =>
      ctx_err env n_poll = None ∧
      new_request_err env "GET" (page_url c collection startIndex 100) = None ∧
      (∃ status body,
         http_do env n_wire (cloneReq c (page_request c collection startIndex))
         = Resp status body ∧
         200 ≤ status < 300 ∧ status ≠ 204 ∧
         unmarshal_ListResponse env body = Some p) ∧
      served env c collection (S n_wire) (S n_poll)
             (startIndex + Z.of_nat (length (Resources p))) ps
  end.

(** [pages] is a run of the stop rule of the loop for a client that holds
    [have] items and gains [count p] from page [p]: every page but the last
    has resources and leaves the client below its totalResults; the last one
    is empty or brings the client to its totalResults. *)
Fixpoint paging (count : ListResponse → nat) (have : nat) (pages : list ListResponse)
  : Prop :=
  match pages with
  | [] => False
  | p :: ps =>
      match ps with
      | [] => Resources p = [] ∨ TotalResults p ≤ Z.of_nat (have + count p)
      | _ :: _ =>
          Resources p ≠ [] ∧ Z.of_nat (have + count p) < TotalResults p ∧
          paging count (have + count p) ps
      end
  end.

(** The users and the groups the client decodes from a page. *)
Definition page_users (env : Env) (p : ListResponse) : list SCIMUser :=
  omap (decode_SCIMUser env) (Resources p).

Definition page_groups (env : Env) (p : ListResponse) : list SCIMGroup :=
  omap (decode_SCIMGroup env) (Resources p).

(** The mirror record the commands build from a remote user: [None] when
    the user has no e-mail address. *)
Definition user_record_of (u : SCIMUser) : option UserRecord :=
  match su_Emails u with
  | [] => None
  | email :: _ =>
      Some {| u_SCIMID := su_ID u;
              u_Email := e_Value email;
              u_Status := if su_Active u then "active" else "inactive";
              u_Name := su_Name u;
              u_Title := su_Title u;
              u_Organization := su_Organization u;
              u_DeactivationTimestamp := None |}
  end.

(** The users of a list that carry a given userName, and the groups that
    carry a given displayName. *)
Definition users_named (name : string) (scimUsers : list SCIMUser) : list SCIMUser :=
  filter (λ u, su_UserName u = name) scimUsers.

Definition groups_named (name : string) (scimGroups : list SCIMGroup) : list SCIMGroup :=
  filter (λ g, sg_DisplayName g = name) scimGroups.

(** The operation an update task sends for one attribute of its data. *)
Definition replace_op (kv : string * GoValue) : SCIMPatchOp :=
  {| p_Op := "replace"; p_Path := kv.1; p_Value := iface kv.2 |}.

(** The attempts of one PATCH of a user, as they appear on the wire. *)
Definition user_patch_attempts (c : Client) (record : UserRecord)
    (operations : list SCIMPatchOp) (outs : list Outcome) : list (Request * Outcome) :=
  map (λ o, (cloneReq c {| Method := "PATCH";
                           URL := BaseURL c +:+ "/Users/" +:+ u_SCIMID record;
                           Header := ∅;
                           Body := Some (patch_payload operations) |}, o)) outs.

(** The configuration every command asks for before it does anything. *)
Definition configured (env : Env) : Prop :=
  cfg_api_url env ≠ "" ∧ cfg_api_key env ≠ "".

(** * The other calls of the client and the other commands *)

(** Functions of encoding/json and net/url that the calls below use. *)
Record Codec := {
  (* url.QueryEscape *)
  url_QueryEscape : string → string;
  (* json.Unmarshal of a response body into a SCIMUser, a SCIMGroup *)
  unmarshal_SCIMUser : string → option SCIMUser;
  unmarshal_SCIMGroup : string → option SCIMGroup;
  (* json.Marshal of a SCIMUser *)
  marshal_SCIMUser : SCIMUser → GoValue }.

(** An error built by [fmt.Errorf] around a decoding error; as for the
    other wrapped errors, the value carries the text before the cause. No
    caller tells these errors apart from the error of a request that could
    not be built, and they share its constructor. *)
Definition Errorf (text : string) : Error := ErrNewRequest text.

(** [user.Schemas = schemas] *)
Definition set_Schemas (schemas : list string) (user : SCIMUser) : SCIMUser :=
  {| su_ID := su_ID user; su_Schemas := schemas; su_UserName := su_UserName user;
     su_Name := su_Name user; su_Emails := su_Emails user; su_Active := su_Active user;
     su_Title := su_Title user; su_Organization := su_Organization user |}.

Section Commands.
Context (env : Env) (codec : Codec).

(** ** pkg/smartsuite: GetUserByUsername, CreateUser, CreateGroup *)

(** The URL of the search: [url.Values.Encode] of the one parameter. *)
Definition filter_url (c : Client) (username : string) : string :=
  BaseURL c +:+ "/Users?filter=" +:+
  url_QueryEscape codec ("userName eq " +:+ dquote +:+ username +:+ dquote).

(** [None] is the result [(nil, nil)]: no such user. *)
Definition GetUserByUsername (c : Client) (username : string) : M (option SCIMUser) :=
  req ← NewRequest env "GET" (filter_url c username) None;
  body ← doRequestWithRetry env c req;
  match unmarshal_ListResponse env body with
  | None => fail (ErrUnmarshal "user filter response")
  | Some listResponse =>
    if decide (TotalResults listResponse = 0 ∨ length (Resources listResponse) = 0%nat)
    then mret None
    else
      match Resources listResponse with
      | [] => panic "index out of range [0] with length 0"
      | resource :: _ =>
        match decode_SCIMUser env resource with
        | None => fail (Errorf "failed to unmarshal found user")
        | Some user => mret (Some user)
        end
      end
  end.

Definition CreateUser (c : Client) (user : SCIMUser) : M SCIMUser :=
  let user := set_Schemas ["urn:ietf:params:scim:schemas:core:2.0:User";
                           "urn:ietf:params:scim:schemas:extension:enterprise:2.0:User"]
                          user in
  req ← NewRequest env "POST" (BaseURL c +:+ "/Users") (Some (marshal_SCIMUser codec user));
  body ← doRequestWithRetry env c req;
  match unmarshal_SCIMUser codec body with
  | None => fail (Errorf "failed to unmarshal created user response")
  | Some createdUser => mret createdUser
  end.

(** The payload of [CreateGroup]: the schema and the display name only. *)
Definition group_payload (group : SCIMGroup) : GoValue :=
  VMap (<["schemas" := VSlice [VString "urn:ietf:params:scim:schemas:core:2.0:Group"]]>
       (<["displayName" := VString (sg_DisplayName group)]> ∅)).

Definition CreateGroup (c : Client) (group : SCIMGroup) : M SCIMGroup :=
  req ← NewRequest env "POST" (BaseURL c +:+ "/Groups") (Some (group_payload group));
  body ← doRequestWithRetry env c req;
  match unmarshal_SCIMGroup codec body with
  | None => fail (Errorf "failed to unmarshal created group response")
  | Some createdGroup => mret createdGroup
  end.

(** ** cmd: populate *)

(** The loop that fills [userStore]; the result [None] is the return of the
    command on the shutdown signal. *)
Fixpoint populate_users (scimUsers : list SCIMUser) (userStore : gmap string UserRecord)
  : M (option (gmap string UserRecord)) :=
  match scimUsers with
  | [] => mret (Some userStore)
  | u :: rest =>
    cerr ← ctx_Err env;
    match cerr with
    | Some _ => mret None
    | None =>
      if decide (su_UserName u = "") then populate_users rest userStore
      else
        match su_Emails u with
        | [] => panic "index out of range [0] with length 0"
        | email :: _ =>
          let status := if su_Active u then "active" else "inactive" in
          populate_users rest
            (<[su_UserName u :=
                 {| u_SCIMID := su_ID u;
                    u_Email := e_Value email;
                    u_Status := status;
                    u_Name := su_Name u;
                    u_Title := su_Title u;
                    u_Organization := su_Organization u;
                    u_DeactivationTimestamp := None |}]> userStore)
        end
    end
  end.

Fixpoint populate_groups (scimGroups : list SCIMGroup)
    (groupStore : gmap string GroupRecord) : M (option (gmap string GroupRecord)) :=
  match scimGroups with
  | [] => mret (Some groupStore)
  | g :: rest =>
    cerr ← ctx_Err env;
    match cerr with
    | Some _ => mret None
    | None =>
      if decide (sg_DisplayName g = "") then populate_groups rest groupStore
      else populate_groups rest
             (<[sg_DisplayName g := {| g_SCIMID := sg_ID g |}]> groupStore)
    end
  end.

(** The block "Populate Users"; [false] is the return on the shutdown signal. *)
Definition populate_users_block (fuel : nat) (client : Client) : M bool :=
  scimUsers ← or_exit (GetUsers env fuel client);
  built ← populate_users scimUsers ∅;
  match built with
  | None => mret false
  | Some userStore => or_exit (SaveUsers env userStore) ;; mret true
  end.

(** The block "Populate Groups". *)
Definition populate_groups_block (fuel : nat) (client : Client) : M bool :=
  scimGroups ← or_exit (GetGroups env fuel client);
  built ← populate_groups scimGroups ∅;
  match built with
  | None => mret false
  | Some groupStore => or_exit (SaveGroups env groupStore) ;; mret true
  end.

Definition populateCmd_Run (fuel : nat) : M unit :=
  client ← or_exit (NewClient (cfg_api_url env) (cfg_api_key env));
  or_exit (NewStore env (data_dir env)) ;;
  continue ← populate_users_block fuel client;
  if continue : bool then
    _ ← populate_groups_block fuel client;
    mret tt
  else mret tt.

(** ** cmd: create-user *)

(** The command on the content of the file of [--from-file]. *)
Definition createUserCmd_Run (inputData : File SCIMUser) : M unit :=
  client ← or_exit (NewClient (cfg_api_url env) (cfg_api_key env));
  or_exit (NewStore env (data_dir env)) ;;
  match inputData with
  | Holds newUser =>
    if decide (su_UserName newUser = "") then os_Exit 1
    else
      let targetEPPN := su_UserName newUser in
      existingUser ← or_exit (GetUserByUsername client targetEPPN);
      match existingUser with
      | Some _ => os_Exit 1
      | None =>
        userStore ← or_exit LoadUsers;
        match userStore !! targetEPPN with
        | Some _ => os_Exit 1
        | None =>
          logAndAudit env "CreateUser" targetEPPN "info" "Attempting to create user..." [] ;;
          r ← try (CreateUser client newUser);
          match r with
          | inl err =>
              logAndAudit env "CreateUser" targetEPPN "fatal"
                "Failed to create user via API" ["error"; Error_msg err] ;;
              panic "invalid memory address or nil pointer dereference"
          | inr createdUser =>
            match su_Emails createdUser with
            | [] => panic "index out of range [0] with length 0"
            | email :: _ =>
              let userStore' :=
                <[su_UserName createdUser :=
                    {| u_SCIMID := su_ID createdUser;
                       u_Email := e_Value email;
                       u_Status := "active";
                       u_Name := su_Name createdUser;
                       u_Title := su_Title createdUser;
                       u_Organization := su_Organization createdUser;
                       u_DeactivationTimestamp := None |}]> userStore in
              r' ← try (SaveUsers env userStore');
              match r' with
              | inl err =>
                  logAndAudit env "CreateUser" targetEPPN "fatal"
                    "API user creation succeeded, but failed to save to local store. MANUAL INTERVENTION REQUIRED."
                    ["error"; Error_msg err]
              | inr _ => mret tt
              end ;;
              logAndAudit env "CreateUser" targetEPPN "info" "Successfully created user."
                ["scim_id"; su_ID createdUser]
            end
          end
        end
      end
  | _ => os_Exit 1
  end.

(** ** cmd/createGroup.go *)

Definition createGroupCmd_Run (inputData : File SCIMGroup) : M unit :=
  client ← or_exit (NewClient (cfg_api_url env) (cfg_api_key env));
  or_exit (NewStore env (data_dir env)) ;;
  match inputData with
  | Holds newGroup =>
    if decide (sg_DisplayName newGroup = "") then os_Exit 1
    else
      let targetGroupName := sg_DisplayName newGroup in
      groupStore ← or_exit LoadGroups;
      match groupStore !! targetGroupName with
      | Some _ => os_Exit 1
      | None =>
        logAndAudit env "CreateGroup" targetGroupName "info" "Attempting to create group..." [] ;;
        r ← try (CreateGroup client newGroup);
        match r with
        | inl err =>
            logAndAudit env "CreateGroup" targetGroupName "fatal"
              "Failed to create group via API" ["error"; Error_msg err] ;;
            panic "invalid memory address or nil pointer dereference"
        | inr createdGroup =>
          let groupStore' :=
            <[sg_DisplayName createdGroup := {| g_SCIMID := sg_ID createdGroup |}]> groupStore in
          r' ← try (SaveGroups env groupStore');
          match r' with
          | inl err =>
              logAndAudit env "CreateGroup" targetGroupName "fatal"
                "API group creation succeeded, but failed to save to local store. MANUAL INTERVENTION REQUIRED."
                ["error"; Error_msg err]
          | inr _ => mret tt
          end ;;
          logAndAudit env "CreateGroup" targetGroupName "info" "Successfully created group."
            ["scim_id"; sg_ID createdGroup]
        end
      end
  | _ => os_Exit 1
  end.

(** ** cmd/manageGroupMembers.go *)

(** One of the two loops over the members named on the command line: a
    name the mirror does not know is skipped, the operation [mk] builds for
    any other is appended. *)
Fixpoint member_ops (mk : UserRecord → SCIMPatchOp) (userStore : gmap string UserRecord)
    (members : list string) (operations : list SCIMPatchOp) : list SCIMPatchOp :=
  match members with
  | [] => operations
  | eppn :: rest =>
    match userStore !! eppn with
    | None => member_ops mk userStore rest operations
    | Some user => member_ops mk userStore rest (operations ++ [mk user])
    end
  end.

(** The command on the values of [--group], [--add] and [--remove]. *)
Definition manageGroupMembersCmd_Run (groupName : string)
    (addMembers removeMembers : list string) : M unit :=
  client ← or_exit (NewClient (cfg_api_url env) (cfg_api_key env));
  or_exit (NewStore env (data_dir env)) ;;
  userStore ← or_exit LoadUsers;
  groupStore ← or_exit LoadGroups;
  match groupStore !! groupName with
  | None => os_Exit 1
  | Some group =>
    let operations :=
      member_ops (λ user, {| p_Op := "add"; p_Path := "members";
                             p_Value := Some (VSlice [VMap {[ "value" := VString (u_SCIMID user) ]}]) |})
                 userStore addMembers [] in
    let operations :=
      member_ops (λ user, {| p_Op := "remove";
                             p_Path := "members[value eq " +:+ dquote +:+ u_SCIMID user
                                       +:+ dquote +:+ "]";
                             p_Value := None |})
                 userStore removeMembers operations in
    if decide (length operations = 0%nat) then mret tt
    else
      logAndAudit env "ManageGroupMembers" groupName "info" "Attempting to modify group..." [] ;;
      r ← try (PatchGroup env client (g_SCIMID group) operations);
      match r with
      | inl err =>
          logAndAudit env "ManageGroupMembers" groupName "fatal"
            "Failed to modify group via API" ["error"; Error_msg err]
      | inr _ => mret tt
      end ;;
      logAndAudit env "ManageGroupMembers" groupName "info"
        "Successfully modified members for group." []
  end.

End Commands.

(** ** Vocabulary for the other commands *)

(** The client every command builds from the configuration. *)
Definition client_of (env : Env) : Client :=
  {| BaseURL := cfg_api_url env; APIKey := cfg_api_key env |}.

(** The requests of the search, of the creation of a user and of a group. *)
Definition filter_request (codec : Codec) (c : Client) (username : string) : Request :=
  {| Method := "GET"; URL := filter_url codec c username; Header := ∅; Body := None |}.

Definition create_user_request (codec : Codec) (c : Client) (user : SCIMUser) : Request :=
  {| Method := "POST"; URL := BaseURL c +:+ "/Users"; Header := ∅;
     Body := Some (marshal_SCIMUser codec
                     (set_Schemas ["urn:ietf:params:scim:schemas:core:2.0:User";
                                   "urn:ietf:params:scim:schemas:extension:enterprise:2.0:User"]
                                  user)) |}.

Definition create_group_request (c : Client) (group : SCIMGroup) : Request :=
  {| Method := "POST"; URL := BaseURL c +:+ "/Groups"; Header := ∅;
     Body := Some (group_payload group) |}.

(** The record create-user stores for the user the server returned. *)
Definition created_record (createdUser : SCIMUser) (email : SCIMEmail) : UserRecord :=
  {| u_SCIMID := su_ID createdUser;
     u_Email := e_Value email;
     u_Status := "active";
     u_Name := su_Name createdUser;
     u_Title := su_Title createdUser;
     u_Organization := su_Organization createdUser;
     u_DeactivationTimestamp := None |}.

(** The operations manage-group-members sends: one "add" per name of
    [--add] the mirror knows, then one "remove" per known name of
    [--remove], in the order of the command line. *)
Definition membership_ops (users : gmap string UserRecord)
    (addMembers removeMembers : list string) : list SCIMPatchOp :=
  omap (λ eppn, add_member_op <$> users !! eppn) addMembers ++
  omap (λ eppn, remove_member_op <$> users !! eppn) removeMembers.

(** The attempts of one PATCH of a group with a list of operations. *)
Definition group_patch_wire (c : Client) (group : GroupRecord)
    (operations : list SCIMPatchOp) (outs : list Outcome) : list (Request * Outcome) :=
  map (λ o, (cloneReq c {| Method := "PATCH";
                           URL := BaseURL c +:+ "/Groups/" +:+ g_SCIMID group;
                           Header := ∅;
                           Body := Some (patch_payload operations) |}, o)) outs.

(** A call that returns to its caller, with a value or with an error. *)
Definition returns {A} (r : Res A) : Prop :=
  match r with
  | Ok _ | Err _ => True
  | _ => False
  end.

(** The body the transport hands to its caller for the outcome of an
    attempt: that of a 2xx response, empty for 204; none for any other
    outcome. *)
Definition answer (o : Outcome) : option string :=
  match o with
  | Resp status body =>
      if bool_decide (200 ≤ status < 300)
      then Some (if decide (status = 204) then "" else body)
      else None
  | _ => None
  end.

(** A call of the transport returns to its caller, and a body it returns
    is the answer to its last attempt. *)
Definition transport_answer (r : Res string) (outs : list Outcome) : Prop :=
  match r with
  | Ok body => ∃ o, last outs = Some o ∧ answer o = Some body
  | Err _ => True
  | _ => False
  end.

(** A list response that reports no match to a search. *)
Definition no_match (listResponse : ListResponse) : Prop :=
  TotalResults listResponse = 0 ∨ Resources listResponse = [].

(** ** Test environments for the further statements *)

(** Every attempt is answered 503; the shutdown signal arrives after the
    second poll. *)
Definition env_interrupted : Env :=
  test_env (λ _ _, Resp 503 "busy")
           (λ n, match n with O | S O => None | _ => Some Canceled end)
           no_fault t_leap ∅ Missing.

(** Two refused connections, then 200 with the users page. *)
Definition env_flaky : Env :=
  test_env (λ n _, match n with
                   | O | S O => NetErr "connection refused"
                   | _ => Resp 200 "users-page"
                   end)
           never_cancelled no_fault t_leap remote_pages Missing.

(** A directory of three users served in two pages, and one of two groups
    served in two pages. *)
Definition page_1 : ListResponse :=
  {| TotalResults := 3; ItemsPerPage := 100; StartIndex := 1;
     Resources := [json_user "def-456" "bob@example.org";
                   json_user "ghi-789" "carol@example.org"] |}.

Definition page_2 : ListResponse :=
  {| TotalResults := 3; ItemsPerPage := 100; StartIndex := 3;
     Resources := [json_user "abc-123" "alice@example.org"] |}.

Definition json_group (id displayName : string) : GoValue :=
  VMap (<["id" := VString id]> (<["displayName" := VString displayName]> ∅)).

Definition group_page_1 : ListResponse :=
  {| TotalResults := 2; ItemsPerPage := 100; StartIndex := 1;
     Resources := [json_group "grp-1" "staff"] |}.

Definition group_page_2 : ListResponse :=
  {| TotalResults := 2; ItemsPerPage := 100; StartIndex := 2;
     Resources := [json_group "grp-2" "admins"] |}.

(** A page whose one resource is not a JSON object, and the page of a user
    who has a userName but no e-mail address. *)
Definition odd_page : ListResponse :=
  {| TotalResults := 1; ItemsPerPage := 100; StartIndex := 1;
     Resources := [VString "not a user"] |}.

Definition nomail_page : ListResponse :=
  {| TotalResults := 1; ItemsPerPage := 100; StartIndex := 1;
     Resources := [VMap (<["id" := VString "pqr-222"]>
                        (<["userName" := VString "frank@example.org"]> ∅))] |}.

Definition no_match_page : ListResponse :=
  {| TotalResults := 0; ItemsPerPage := 100; StartIndex := 1; Resources := [] |}.

Definition more_pages : gmap string ListResponse :=
  <["page-1" := page_1]>
    (<["page-2" := page_2]>
    (<["group-page-1" := group_page_1]>
    (<["group-page-2" := group_page_2]>
    (<["odd-page" := odd_page]>
    (<["nomail-page" := nomail_page]>
    (<["no-match" := no_match_page]> remote_pages)))))).

Definition env_two_pages : Env :=
  test_env (λ n _, match n with O => Resp 200 "page-1" | _ => Resp 200 "page-2" end)
           never_cancelled no_fault t_leap more_pages Missing.

Definition env_two_group_pages : Env :=
  test_env (λ n _, match n with
                   | O => Resp 200 "group-page-1"
                   | _ => Resp 200 "group-page-2"
                   end)
           never_cancelled no_fault t_leap more_pages Missing.

Definition env_odd : Env :=
  test_env (λ _ _, Resp 200 "odd-page") never_cancelled no_fault t_leap more_pages Missing.

Definition env_nomail : Env :=
  test_env (λ _ _, Resp 200 "nomail-page") never_cancelled no_fault t_leap more_pages Missing.

Definition frank_nomail : SCIMUser :=
  {| su_ID := "pqr-222"; su_Schemas := []; su_UserName := "frank@example.org";
     su_Name := {| Formatted := ""; FamilyName := ""; GivenName := "" |};
     su_Emails := []; su_Active := false; su_Title := ""; su_Organization := "" |}.

(** Tasks of the batch examples. *)
Definition promote_alice : JobTask :=
  task "update" "alice@example.org" (VMap {[ "title" := VString "Engineer" ]}) "pending".

Definition rename_alice : JobTask :=
  task "update" "alice@example.org"
       (VMap {[ "userName" := VString "bob@example.org" ]}) "pending".

Definition add_alice : JobTask :=
  task "add-to-group" "alice@example.org" (VString "staff") "pending".

(** The shutdown signal has arrived before the run; the source file lists
    two tasks it calls completed. *)
Definition env_stopped : Env :=
  test_env (λ _ _, Resp 204 "") (λ _, Some Canceled) no_fault t_leap ∅ (Holds done_queue).

(** A user deactivated one day before [t_leap]. *)
Definition erin_recent : UserRecord :=
  user_record "mno-111" "erin@example.org" "inactive" (Some (t_leap - 24 * Hour)).
Definition users_recent : gmap string UserRecord := <["erin@example.org" := erin_recent]> users0.
Definition world_recent : World := set_users_json (Holds users_recent) world0.


(** The shutdown signal arrives after the first poll. *)
Definition env_refresh_stopped : Env :=
  test_env (λ _ _, Resp 200 "users-page")
           (λ n, match n with O => None | _ => Some Canceled end)
           no_fault t_leap remote_pages Missing.

(** [url.QueryEscape]: letters, digits and [-_.~] stand for themselves, a
    space becomes [+], any other byte [%XX]. *)
Definition hex_digit (n : nat) : ascii :=
  nth n (list_ascii_of_string "0123456789ABCDEF") (ascii_of_nat 48).

Definition unreserved (a : ascii) : bool :=
  let n := nat_of_ascii a in
  ((48 <=? n) && (n <=? 57) || (65 <=? n) && (n <=? 90) || (97 <=? n) && (n <=? 122)
   || (n =? 45) || (n =? 95) || (n =? 46) || (n =? 126))%nat.

Fixpoint query_escape (s : string) : string :=
  match s with
  | EmptyString => EmptyString
  | String a s' =>
      if unreserved a then String a (query_escape s')
      else if (nat_of_ascii a =? 32)%nat then String (ascii_of_nat 43) (query_escape s')
      else String (ascii_of_nat 37)
             (String (hex_digit (nat_of_ascii a / 16))
                (String (hex_digit (nat_of_ascii a mod 16)) (query_escape s')))
  end.

Definition erin_created : SCIMUser :=
  {| su_ID := "mno-111"; su_Schemas := []; su_UserName := "erin@example.org";
     su_Name := {| Formatted := "Erin Example"; FamilyName := "Example"; GivenName := "Erin" |};
     su_Emails := [{| e_Value := "erin@example.org"; e_Type := "work"; e_Primary := true |}];
     su_Active := false; su_Title := "Analyst"; su_Organization := "Research" |}.

Definition erin_input : SCIMUser := scim_user "" "erin@example.org".

(** A codec that decodes the bodies of the examples through tables. *)
Definition test_codec : Codec :=
  {| url_QueryEscape := query_escape;
     unmarshal_SCIMUser := λ body,
       (<["created-erin" := erin_created]>
          (<["created-nomail" := frank_nomail]> (∅ : gmap string SCIMUser))) !! body;
     unmarshal_SCIMGroup := λ body,
       (<["created-group" := {| sg_ID := "grp-9"; sg_DisplayName := "auditors" |}]>
          (∅ : gmap string SCIMGroup)) !! body;
     marshal_SCIMUser := λ user,
       VMap (<["schemas" := VSlice (VString <$> su_Schemas user)]>
            (<["userName" := VString (su_UserName user)]>
            (<["active" := VBool (su_Active user)]> ∅))) |}.

(** The search reports no match; the creation is answered 201. *)
Definition env_create (created : string) : Env :=
  test_env (λ n _, match n with O => Resp 200 "no-match" | _ => Resp 201 created end)
           never_cancelled no_fault t_leap more_pages Missing.


Definition env_create_group : Env :=
  test_env (λ _ _, Resp 201 "created-group") never_cancelled no_fault t_leap ∅ Missing.

Definition auditors_input : SCIMGroup := {| sg_ID := ""; sg_DisplayName := "auditors" |}.

(** The environment of [env_ok] without an API key. *)
Definition env_unconfigured : Env :=
  {| http_do := http_do env_ok;
     new_request_err := new_request_err env_ok;
     ctx_err := ctx_err env_ok;
     rand_draw := rand_draw env_ok;
     clock := clock env_ok;
     time_Format := time_Format env_ok;
     fs_fault := fs_fault env_ok;
     range_order := range_order env_ok;
     range_order_perm := range_order_perm env_ok;
     unmarshal_ListResponse := unmarshal_ListResponse env_ok;
     decode_SCIMUser := decode_SCIMUser env_ok;
     decode_SCIMGroup := decode_SCIMGroup env_ok;
     filepath_Join := filepath_Join env_ok;
     cfg_api_url := "https://scim.example.org/v2";
     cfg_api_key := "";
     cfg_data_dir := "data";
     flag_from_file := Missing |}.
(** * Proofs *)

(** ** The transport *)

Lemma same_disk_refl w : same_disk w w.
Proof. by repeat split. Qed.

Lemma same_disk_trans w1 w2 w3 : same_disk w1 w2 → same_disk w2 w3 → same_disk w1 w3.
Proof.
  unfold same_disk. intros (?&?&?&?&?&?&?&?) (?&?&?&?&?&?&?&?).
  repeat split; congruence.
Qed.

Lemma success_status status body :
  retryable_status status = false →
  bool_decide (status = StatusNoContent) = true ∨
  bool_decide (status < 200 ∨ 300 ≤ status) = false →
  success (Resp status body) = true.
Proof.
  unfold success, StatusNoContent. intros _ [H|H].
  - apply bool_decide_eq_true in H. subst. done.
  - apply bool_decide_eq_false in H. apply bool_decide_eq_true. lia.
Qed.

Lemma retry_loop_spec env n a c lastErr req w :
  ∃ r w' outs,
    retry_loop env n a c lastErr req w = (r, w') ∧
    same_disk w w' ∧
    wire w' = wire w ++ map (λ o, (cloneReq c req, o)) outs ∧
    transport_result r outs.
Proof.
  revert a lastErr w. induction n as [|n IH]; intros a lastErr w.
  - exists (Err (ErrExhausted (Z.of_nat maxRetries) lastErr)), w, [].
    simpl. rewrite app_nil_r. repeat split; auto.
  - simpl. unfold mbind, M_bind, ctx_Err. simpl.
    destruct (ctx_err env (polls w)) as [e|].
    { eexists (Err _), _, []. simpl. rewrite app_nil_r. repeat split; auto. }
    unfold HTTPClient_Do. simpl.
    set (o := http_do env (length (wire w)) (cloneReq c req)).
    assert (Hretry : ∀ lastErr' w1,
      same_disk w w1 → wire w1 = wire w ++ [(cloneReq c req, o)] →
      ∃ r w' outs, retry_loop env n (S a) c lastErr' req w1 = (r, w') ∧
        same_disk w w' ∧ wire w' = wire w ++ map (λ o, (cloneReq c req, o)) outs ∧
        transport_result r outs).
    { intros lastErr' w1 Hd Hw.
      destruct (IH (S a) lastErr' w1) as (r & w' & outs & -> & Hd' & Hw' & Hr).
      exists r, w', (o :: outs). split; [done|]. split; [by eapply same_disk_trans|].
      split; [rewrite Hw', Hw, <- app_assoc; done|].
      destruct r; simpl in *; auto.
      destruct Hr as (outs' & o' & -> & Hs). exists (o :: outs'), o'. done. }
    destruct o as [msg|status body|status msg] eqn:Ho; simpl.
    + apply Hretry; [by repeat split | done].
    + destruct (retryable_status status) eqn:Hrs; simpl.
      { apply Hretry; [by repeat split | done]. }
      destruct (bool_decide (status = StatusNoContent)) eqn:H204.
      { eexists (Ok _), _, [_]. split; [done|]. simpl. repeat split; auto.
        eexists [], _. split; [done|]. apply success_status; auto. }
      destruct (bool_decide (status < 200 ∨ 300 ≤ status)) eqn:Hout.
      { eexists (Err _), _, [_]. split; [done|]. simpl. repeat split; auto. }
      eexists (Ok _), _, [_]. split; [done|]. simpl. repeat split; auto.
      eexists [], _. split; [done|]. apply success_status; auto.
    + destruct (retryable_status status) eqn:Hrs; simpl.
      { apply Hretry; [by repeat split | done]. }
      eexists (Err _), _, [_]. split; [done|]. simpl. repeat split; auto.
Qed.

Lemma client_call env c method url body :
  client_call_spec env
    (req ← NewRequest env method url body; _ ← doRequestWithRetry env c req; mret tt)
    method url body c.
Proof.
  intros w. unfold mbind, M_bind, NewRequest.
  destruct (new_request_err env method url) as [msg|]; simpl.
  { eexists (Err _), w, []. simpl. rewrite app_nil_r. repeat split; auto. }
  unfold doRequestWithRetry.
  destruct (retry_loop_spec env maxRetries 0 c None
              {| Method := method; URL := url; Header := ∅; Body := body |} w)
    as (r & w' & outs & -> & Hd & Hw & Hr).
  destruct r; simpl in *; try done.
  - eexists (Ok tt), w', outs. auto.
  - eexists (Err _), w', outs. auto.
Qed.

Lemma PatchUser_spec env c scimID ops :
  client_call_spec env (PatchUser env c scimID ops) "PATCH"
    (BaseURL c +:+ "/Users/" +:+ scimID) (Some (patch_payload ops)) c.
Proof. apply client_call. Qed.

Lemma PatchGroup_spec env c scimID ops :
  client_call_spec env (PatchGroup env c scimID ops) "PATCH"
    (BaseURL c +:+ "/Groups/" +:+ scimID) (Some (patch_payload ops)) c.
Proof. apply client_call. Qed.

Lemma DeleteUser_spec env c scimID :
  client_call_spec env (DeleteUser env c scimID) "DELETE"
    (BaseURL c +:+ "/Users/" +:+ scimID) None c.
Proof. apply client_call. Qed.

Lemma retry_loop_retry env n a c lastErr req w o :
  ctx_err env (polls w) = None →
  http_do env (length (wire w)) (cloneReq c req) = o →
  retryable o = true →
  retry_loop env (S n) a c lastErr req w
  = retry_loop env n (S a) c (Some (cause o)) req (after_retry env a (cloneReq c req) o w).
Proof.
  intros Hctx Hdo Hre. simpl. unfold mbind, M_bind, ctx_Err. simpl.
  rewrite Hctx. unfold HTTPClient_Do. simpl. rewrite Hdo.
  destruct o as [msg|st body|st msg]; simpl in Hre |- *.
  - reflexivity.
  - rewrite Hre. reflexivity.
  - rewrite Hre. reflexivity.
Qed.

Lemma after_retry_polls env a sent o w : polls (after_retry env a sent o w) = S (polls w).
Proof. by destruct o. Qed.

Lemma after_retry_wire env a sent o w :
  wire (after_retry env a sent o w) = wire w ++ [(sent, o)].
Proof. by destruct o. Qed.

Lemma after_retry_slept env a sent o w :
  slept (after_retry env a sent o w) = slept w ++ [retry_delay env a o (draws w)].
Proof. by destruct o. Qed.

Lemma backoff_S a : backoff (S a) = 2 * backoff a.
Proof. unfold backoff. rewrite Nat2Z.inj_succ, Z.pow_succ_r by lia. lia. Qed.

Lemma backoff_pos a : 0 < backoff a.
Proof. unfold backoff, baseBackoff, Second. apply Z.mul_pos_pos; [lia|]. apply Z.pow_pos_nonneg; lia. Qed.

Lemma backoff_mono a : backoff a ≤ backoff (S a).
Proof. rewrite backoff_S. pose proof (backoff_pos a). lia. Qed.

Lemma retry_delay_spec env a o k :
  match o with
  | NetErr _ => retry_delay env a o k = 500 * Millisecond
  | _ => ∃ jitter, 0 ≤ jitter < 1000 ∧
           retry_delay env a o k = 1 * Second * 2 ^ Z.of_nat a + jitter * Millisecond
  end.
Proof.
  destruct o; simpl; [done| |];
    (exists (rand_draw env k `mod` 1000); split; [apply Z.mod_pos_bound; lia | done]).
Qed.

(** C3. Retry exhaustion and backoff. When the context is not cancelled at
    any of the four polls and each of the four attempts ends in a retryable
    outcome (a transport error, 429 or a 5xx status), doRequestWithRetry makes
    exactly four attempts and returns the error "request failed after 4
    attempts" wrapping the cause of the last one. After each of the four
    attempts it sleeps: 500ms after a transport error, and 1s * 2^attempt
    plus a jitter below one second after a retryable status; the status
    backoff never decreases from one attempt to the next. *)
Theorem retry_exhaustion_and_backoff env c req w :
  (∀ i : nat, (i < 4)%nat → ctx_err env (polls w + i) = None) →
  (∀ i : nat, (i < 4)%nat →
     retryable (http_do env (length (wire w) + i) (cloneReq c req)) = true) →
  ∃ w',
    doRequestWithRetry env c req w
    = (Err (ErrExhausted 4
         (Some (cause (http_do env (length (wire w) + 3) (cloneReq c req))))), w') ∧
    wire w' = wire w ++
      map (λ i : nat, (cloneReq c req, http_do env (length (wire w) + i) (cloneReq c req)))
          [0; 1; 2; 3]%nat ∧
    length (slept w') = (length (slept w) + 4)%nat ∧
    (∀ i : nat, (i < 4)%nat →
       ∃ d, slept w' !! (length (slept w) + i)%nat = Some d ∧
         match http_do env (length (wire w) + i) (cloneReq c req) with
         | NetErr _ => d = 500 * Millisecond
         | _ => ∃ jitter, 0 ≤ jitter < 1000 ∧
                  d = 1 * Second * 2 ^ Z.of_nat i + jitter * Millisecond
         end) ∧
    (backoff 0 = 1 * Second ∧ backoff 1 = 2 * Second ∧
     backoff 2 = 4 * Second ∧ backoff 3 = 8 * Second) ∧
    (∀ a : nat, backoff a ≤ backoff (S a)).
Proof.
  intros Hctx Hre.
  set (sent := cloneReq c req) in *.
  set (o := λ i : nat, http_do env (length (wire w) + i) sent) in *.
  set (w1 := after_retry env 0 sent (o 0%nat) w).
  set (w2 := after_retry env 1 sent (o 1%nat) w1).
  set (w3 := after_retry env 2 sent (o 2%nat) w2).
  set (w4 := after_retry env 3 sent (o 3%nat) w3).
  assert (Hw1 : wire w1 = wire w ++ [(sent, o 0%nat)]) by apply after_retry_wire.
  assert (Hw2 : wire w2 = wire w ++ [(sent, o 0%nat); (sent, o 1%nat)]).
  { unfold w2. rewrite after_retry_wire, Hw1, <- app_assoc. done. }
  assert (Hw3 : wire w3 = wire w ++ [(sent, o 0%nat); (sent, o 1%nat); (sent, o 2%nat)]).
  { unfold w3. rewrite after_retry_wire, Hw2, <- app_assoc. done. }
  assert (Hw4 : wire w4 = wire w ++ [(sent, o 0%nat); (sent, o 1%nat); (sent, o 2%nat); (sent, o 3%nat)]).
  { unfold w4. rewrite after_retry_wire, Hw3, <- app_assoc. done. }
  assert (Hp1 : polls w1 = (polls w + 1)%nat) by (unfold w1; rewrite after_retry_polls; lia).
  assert (Hp2 : polls w2 = (polls w + 2)%nat) by (unfold w2; rewrite after_retry_polls; lia).
  assert (Hp3 : polls w3 = (polls w + 3)%nat) by (unfold w3; rewrite after_retry_polls; lia).
  exists w4. split; [|split; [|split; [|split; [|split]]]].
  - unfold doRequestWithRetry, maxRetries.
    rewrite (retry_loop_retry env 3 0 c None req w (o 0%nat)); cycle 1.
    { rewrite <- (Nat.add_0_r (polls w)). apply Hctx. lia. }
    { unfold o. by rewrite Nat.add_0_r. }
    { apply Hre. lia. }
    fold sent. fold w1.
    rewrite (retry_loop_retry env 2 1 c _ req w1 (o 1%nat)); cycle 1.
    { rewrite Hp1. apply Hctx. lia. }
    { rewrite Hw1, length_app. done. }
    { apply Hre. lia. }
    fold sent. fold w2.
    rewrite (retry_loop_retry env 1 2 c _ req w2 (o 2%nat)); cycle 1.
    { rewrite Hp2. apply Hctx. lia. }
    { rewrite Hw2, length_app. done. }
    { apply Hre. lia. }
    fold sent. fold w3.
    rewrite (retry_loop_retry env 0 3 c _ req w3 (o 3%nat)); cycle 1.
    { rewrite Hp3. apply Hctx. lia. }
    { rewrite Hw3, length_app. done. }
    { apply Hre. lia. }
    reflexivity.
  - exact Hw4.
  - unfold w4, w3, w2, w1. rewrite !after_retry_slept, !length_app. simpl. lia.
  - intros i Hi.
    assert (Hs : slept w4 = slept w ++
      [retry_delay env 0 (o 0%nat) (draws w); retry_delay env 1 (o 1%nat) (draws w1);
       retry_delay env 2 (o 2%nat) (draws w2); retry_delay env 3 (o 3%nat) (draws w3)]).
    { unfold w4. rewrite after_retry_slept. unfold w3. rewrite after_retry_slept.
      unfold w2. rewrite after_retry_slept. unfold w1 at 1. rewrite after_retry_slept.
      rewrite <- !app_assoc. done. }
    rewrite Hs. rewrite lookup_app_r. 2: lia.
    replace (length (slept w) + i - length (slept w))%nat with i by (clear; lia).
    destruct i as [|[|[|[|]]]]; [| | | |lia]; simpl; eexists; (split; [done|]).
    + apply (retry_delay_spec env 0 (o 0%nat)).
    + apply (retry_delay_spec env 1 (o 1%nat)).
    + apply (retry_delay_spec env 2 (o 2%nat)).
    + apply (retry_delay_spec env 3 (o 3%nat)).
  - done.
  - apply backoff_mono.
Qed.

Lemma retryable_status_false status :
  status ≠ 429 → status < 500 → retryable_status status = false.
Proof.
  intros H1 H2. unfold retryable_status, StatusTooManyRequests.
  rewrite bool_decide_eq_false_2 by done.
  rewrite bool_decide_eq_false_2 by lia. done.
Qed.



Lemma retry_exhaustion_and_backoff_witness :
  ∃ w',
    doRequestWithRetry env_503 test_client get_req empty_world
    = (Err (ErrExhausted 4 (Some (ErrStatus 503))), w') ∧
    length (wire w') = 4%nat ∧
    length (slept w') = 4%nat.
Proof.
  destruct (retry_exhaustion_and_backoff env_503 test_client get_req empty_world)
    as (w' & Hrun & Hw & Hs & _).
  - intros i Hi. reflexivity.
  - intros i Hi. reflexivity.
  - exists w'. split; [exact Hrun|]. split; [rewrite Hw; reflexivity|exact Hs].
Defined.
(** ** The store and the audit log *)

Lemma logAndAudit_spec env useCase target level details args w :
  level ≠ "fatal" →
  logAndAudit env useCase target level details args w
  = (Ok tt, after_audit env useCase target level details args w).
Proof.
  intros Hlevel. unfold logAndAudit, after_audit, mbind, M_bind.
  destruct (decide (level = "fatal")) as [|_]; [done|]. simpl.
  unfold try, AppendToAuditLog, mbind, M_bind, fs_call. simpl.
  by destruct (fs_fault env (fs_ops w)).
Qed.

Lemma after_audit_frame env useCase target level details args w :
  let w' := after_audit env useCase target level details args w in
  users_json w' = users_json w ∧ groups_json w' = groups_json w ∧
  job_queue_json w' = job_queue_json w ∧ archived w' = archived w ∧
  wire w' = wire w ∧ slept w' = slept w ∧ polls w' = polls w ∧
  ticks w' = S (ticks w) ∧ fs_ops w' = S (fs_ops w).
Proof. unfold after_audit. by destruct (fs_fault env (fs_ops w)). Qed.

Lemma after_audit_log env useCase target level details args w :
  fs_fault env (fs_ops w) = None →
  audit_log (after_audit env useCase target level details args w)
  = audit_log w ++ [audit_event (clock env (ticks w)) useCase target level details args].
Proof. intros H. unfold after_audit. by rewrite H. Qed.

(** ** The update handler's loop over the attribute map *)

Lemma fold_update_field_nodup (l : list (string * GoValue)) record name :
  NoDup l.*1 →
  fold_left update_field l (record, name)
  = (updated_record (list_to_map l) record,
     match (list_to_map l : gmap string GoValue) !! "userName" with
     | Some (VString un) => un
     | _ => name
     end).
Proof.
  revert record name. induction l as [|[k v] l IH]; intros record name Hnd.
  - done.
  - rewrite fmap_cons in Hnd. apply NoDup_cons in Hnd as [Hk Hnd]. cbn [fst] in Hk.
    assert (Hnone : (list_to_map l : gmap string GoValue) !! k = None)
      by (by apply not_elem_of_list_to_map_1).
    cbn [fold_left]. rewrite list_to_map_cons. unfold update_field at 2. cbn [fst snd].
    unfold updated_record.
    destruct (decide (k = "title")) as [->|Hkt].
    + rewrite lookup_insert_eq, lookup_insert_ne by done.
      destruct v; rewrite IH by done; unfold updated_record; by rewrite Hnone.
    + rewrite (lookup_insert_ne _ k "title") by done.
      destruct (decide (k = "userName")) as [->|Hku].
      * rewrite lookup_insert_eq.
        destruct v; rewrite IH by done; unfold updated_record; by rewrite Hnone.
      * rewrite lookup_insert_ne by done. by rewrite IH.
Qed.

Lemma fold_update_field env n (m : gmap string GoValue) record :
  fold_left update_field (range_order env n GoValue m) (record, "")
  = (updated_record m record, updated_name m).
Proof.
  pose proof (range_order_perm env n GoValue m) as Hperm.
  assert (Hnd : NoDup (range_order env n GoValue m).*1).
  { rewrite Hperm. apply NoDup_fst_map_to_list. }
  rewrite fold_update_field_nodup by done.
  assert (Hm : list_to_map (range_order env n GoValue m) = m).
  { rewrite (list_to_map_proper _ _ Hnd Hperm). apply list_to_map_to_list. }
  rewrite Hm. reflexivity.
Qed.

Lemma range_order_nil env n V (m : gmap string V) :
  length (range_order env n V m) = 0%nat ↔ m = ∅.
Proof.
  rewrite (Permutation_length (range_order_perm env n V m)).
  rewrite length_zero_iff_nil. apply map_to_list_empty_iff.
Qed.

(** ** The task handlers *)

Lemma try_client_call env m method url body c w :
  client_call_spec env m method url body c →
  ∃ r w' outs,
    try m w = (Ok r, w') ∧ same_disk w w' ∧
    wire w' = wire w ++
      map (λ o, (cloneReq c {| Method := method; URL := url; Header := ∅; Body := body |}, o)) outs ∧
    (r = inr tt → ∃ outs' o, outs = outs' ++ [o] ∧ success o = true).
Proof.
  intros Hm. destruct (Hm w) as (r & w' & outs & Hrun & Hd & Hw & Hr).
  unfold try. rewrite Hrun. destruct r as [[]|e| | |]; simpl in Hr; try done.
  - exists (inr tt), w', outs. split; [done|]. split; [done|]. split; [done|]. auto.
  - exists (inl e), w', outs. split; [done|]. split; [done|]. split; [done|]. intros [=].
Qed.

Lemma retry_loop_success env n a c lastErr req w :
  ctx_err env (polls w) = None →
  success (http_do env (length (wire w)) (cloneReq c req)) = true →
  ∃ body w', retry_loop env (S n) a c lastErr req w = (Ok body, w') ∧ same_disk w w'.
Proof.
  intros Hctx Hs. simpl. unfold mbind, M_bind, ctx_Err. simpl. rewrite Hctx.
  unfold HTTPClient_Do. simpl.
  destruct (http_do env (length (wire w)) (cloneReq c req)) as [|status body|]; try done.
  simpl in Hs. apply bool_decide_eq_true in Hs.
  rewrite retryable_status_false by lia.
  destruct (bool_decide (status = StatusNoContent)).
  { eexists _, _. split; [done|]. by repeat split. }
  rewrite bool_decide_eq_false_2 by lia.
  eexists _, _. split; [done|]. by repeat split.
Qed.

Lemma client_call_healthy env c method url body w :
  healthy env →
  ∃ w', (req ← NewRequest env method url body; _ ← doRequestWithRetry env c req; mret tt) w
        = (Ok tt, w') ∧ same_disk w w'.
Proof.
  intros (Hctx & _ & Hreq & Hok). unfold mbind, M_bind, NewRequest. rewrite Hreq. simpl.
  unfold doRequestWithRetry, maxRetries.
  destruct (retry_loop_success env 3 0 c None
              {| Method := method; URL := url; Header := ∅; Body := body |} w)
    as (b & w' & -> & Hd); auto.
  by exists w'.
Qed.

Lemma SaveUsers_ok env users w :
  fs_fault env (fs_ops w) = None →
  SaveUsers env users w
  = (Ok tt, set_users_json (Holds users) (set_fs_ops (S (fs_ops w)) w)).
Proof.
  intros H. unfold SaveUsers, mbind, M_bind, fs_call. simpl. by rewrite H.
Qed.

Lemma try_SaveUsers env users w :
  ∃ r w', try (SaveUsers env users) w = (Ok r, w') ∧
    groups_json w' = groups_json w ∧ job_queue_json w' = job_queue_json w ∧
    archived w' = archived w ∧ audit_log w' = audit_log w ∧ wire w' = wire w ∧
    (users_json w' = users_json w ∨ users_json w' = Holds users) ∧
    (fs_fault env (fs_ops w) = None → r = inr tt ∧ users_json w' = Holds users).
Proof.
  unfold try, SaveUsers, mbind, M_bind, fs_call. simpl.
  destruct (fs_fault env (fs_ops w)); simpl; eexists _, _; (split; [done|]);
    repeat split; auto; done.
Qed.

(** Steps over the next [try] of a client call in the goal. *)
Ltac run_client r w1 outs Hrun Hd Hw Hr :=
  match goal with
  | |- context [try (PatchUser ?e ?c ?id ?ops) ?w0] =>
      destruct (try_client_call e _ _ _ _ c w0 (PatchUser_spec e c id ops))
        as (r & w1 & outs & Hrun & Hd & Hw & Hr); rewrite Hrun
  | |- context [try (PatchGroup ?e ?c ?id ?ops) ?w0] =>
      destruct (try_client_call e _ _ _ _ c w0 (PatchGroup_spec e c id ops))
        as (r & w1 & outs & Hrun & Hd & Hw & Hr); rewrite Hrun
  | |- context [try (DeleteUser ?e ?c ?id) ?w0] =>
      destruct (try_client_call e _ _ _ _ c w0 (DeleteUser_spec e c id))
        as (r & w1 & outs & Hrun & Hd & Hw & Hr); rewrite Hrun
  end.

Lemma try_client_healthy env c method url body w r w1 :
  healthy env →
  try (req ← NewRequest env method url body; _ ← doRequestWithRetry env c req; mret tt) w
  = (Ok r, w1) →
  r = inr tt.
Proof.
  intros Hh Hrun. destruct (client_call_healthy env c method url body w Hh) as (w' & Hok & _).
  unfold try in Hrun. rewrite Hok in Hrun. congruence.
Qed.

Lemma handleDeactivateTask_spec env c users task w :
  ∃ users' err w' sent,
    handleDeactivateTask env c users task w = (Ok (users', err), w') ∧
    handler_frame w w' users' ∧ wire w' = wire w ++ sent ∧
    match users !! t_Target task with
    | None => users' = users ∧ err = Some (ErrUserNotFound (t_Target task)) ∧ sent = []
    | Some record =>
        ((users' = users ∧ err ≠ None) ∨
         users' = <[t_Target task := set_deactivated (clock env (ticks w)) record]> users) ∧
        (healthy env → err = None)
    end.
Proof.
  unfold handleDeactivateTask.
  destruct (users !! t_Target task) as [record|] eqn:Hu.
  2:{ exists users, (Some (ErrUserNotFound (t_Target task))), w, [].
      rewrite app_nil_r. repeat split; auto. }
  unfold mbind at 1, M_bind at 1.
  run_client r w1 outs Hrun Hd Hw Hr.
  destruct Hd as (Hd1 & Hd2 & Hd3 & Hd4 & Hd5 & Hd6 & Hd7 & Hd8).
  destruct r as [e|[]].
  - eexists users, (Some e), w1, _. split; [done|]. split; [by repeat split; auto|].
    split; [done|]. split; [by left|].
    intros Hh. by apply (try_client_healthy _ _ _ _ _ _ _ _ Hh) in Hrun.
  - unfold mbind, M_bind, time_Now. simpl.
    edestruct (try_SaveUsers env) as (r' & w2 & -> & Hs1 & Hs2 & Hs3 & Hs4 & Hs5 & Hs6 & Hs7).
    eexists _, (err_of r'), w2, _. split; [done|]. simpl in *.
    split; [|split; [|split]].
    + unfold handler_frame. destruct Hs6 as [Hs6|Hs6]; rewrite Hs6; repeat split; auto; congruence.
    + rewrite Hs5. done.
    + right. by rewrite Hd6.
    + intros (_ & Hfs & _). destruct (Hs7 (Hfs _)) as [-> _]. done.
Qed.

Lemma handleUpdateTask_spec env c users task w :
  ∃ users' err w' sent,
    handleUpdateTask env c users task w = (Ok (users', err), w') ∧
    handler_frame w w' users' ∧ wire w' = wire w ++ sent ∧
    match users !! t_Target task with
    | None => users' = users ∧ err = Some (ErrUserNotFound (t_Target task)) ∧ sent = []
    | Some record =>
      match t_Data task with
      | VMap m =>
        if decide (m = ∅)
        then users' = users ∧ err = Some (ErrNoOperations (t_Target task)) ∧ sent = []
        else ((users' = users ∧ err ≠ None) ∨
              users' = <[updated_key m (t_Target task) := updated_record m record]>
                         (delete (t_Target task) users)) ∧
             (healthy env → err = None)
      | _ => users' = users ∧ err = Some ErrUpdateData ∧ sent = []
      end
    end.
Proof.
  unfold handleUpdateTask.
  destruct (users !! t_Target task) as [record|] eqn:Hu.
  2:{ exists users, (Some (ErrUserNotFound (t_Target task))), w, [].
      rewrite app_nil_r. by repeat split; auto. }
  destruct (t_Data task) as [| | | | |m] eqn:Hdata;
    try (exists users, (Some ErrUpdateData), w, []; rewrite app_nil_r;
         by repeat split; auto).
  unfold mbind at 1, M_bind at 1, range_map at 1. cbn [fst snd].
  rewrite length_map.
  destruct (decide (m = ∅)) as [Hm|Hm].
  { rewrite decide_True by (by apply range_order_nil).
    eexists users, _, _, []. split; [done|]. rewrite app_nil_r.
    split; [unfold handler_frame; simpl; auto 10|done]. }
  rewrite decide_False by (by rewrite range_order_nil).
  unfold mbind at 1, M_bind at 1.
  run_client r w1 outs Hrun Hd Hw Hr.
  destruct Hd as (Hd1 & Hd2 & Hd3 & Hd4 & Hd5 & Hd6 & Hd7 & Hd8). simpl in *.
  destruct r as [e|[]].
  - eexists users, (Some e), w1, _. split; [done|]. split; [by repeat split; auto|].
    split; [done|]. split; [by left|].
    intros Hh. by apply (try_client_healthy _ _ _ _ _ _ _ _ Hh) in Hrun.
  - unfold mbind at 1, M_bind at 1, range_map at 1. cbn [fst snd].
    rewrite fold_update_field. cbv beta iota. unfold mbind, M_bind.
    match goal with |- context [try (SaveUsers env ?u) ?w0] =>
      destruct (try_SaveUsers env u w0) as (r' & w2 & -> & Hs1 & Hs2 & Hs3 & Hs4 & Hs5 & Hs6 & Hs7)
    end.
    simpl in *.
    eexists _, (err_of r'), w2, _. split; [done|]. split; [|split; [|split]].
    + unfold handler_frame. destruct Hs6 as [Hs6|Hs6]; rewrite Hs6;
        repeat split; auto; congruence.
    + rewrite Hs5. done.
    + right. unfold updated_key.
      destruct (decide (updated_name m ≠ "" ∧ updated_name m ≠ t_Target task)); [done|].
      by rewrite insert_delete_eq.
    + intros (_ & Hfs & _). destruct (Hs7 (Hfs _)) as [-> _]. done.
Qed.

Lemma handleGroupMembershipTask_spec env c users groups task opType w :
  ∃ err w' sent,
    handleGroupMembershipTask env c users groups task opType w = (Ok err, w') ∧
    same_disk w w' ∧ wire w' = wire w ++ sent ∧
    match users !! t_Target task with
    | None => err = Some (ErrUserNotFound (t_Target task)) ∧ sent = []
    | Some user =>
      match t_Data task with
      | VString groupName =>
        match groups !! groupName with
        | None => err = Some (ErrGroupNotFound groupName) ∧ sent = []
        | Some group =>
          if decide (opType = "add") then
            (∃ outs, sent = group_patch_attempts c group (add_member_op user) outs) ∧
            (healthy env → err = None)
          else if decide (opType = "remove") then
            (∃ outs, sent = group_patch_attempts c group (remove_member_op user) outs) ∧
            (healthy env → err = None)
          else err = Some (ErrInvalidOpType opType) ∧ sent = []
        end
      | _ => err = Some ErrGroupData ∧ sent = []
      end
    end.
Proof.
  unfold handleGroupMembershipTask.
  destruct (users !! t_Target task) as [user|] eqn:Hu.
  2:{ eexists _, w, []. rewrite app_nil_r. split; [done|]. split; [apply same_disk_refl|done]. }
  destruct (t_Data task) as [| | |groupName| |] eqn:Hdata;
    try (eexists _, w, []; rewrite app_nil_r; split; [done|];
         split; [apply same_disk_refl|done]).
  destruct (groups !! groupName) as [group|] eqn:Hg.
  2:{ eexists _, w, []. rewrite app_nil_r. split; [done|]. split; [apply same_disk_refl|done]. }
  destruct (decide (opType = "add")) as [Hadd|Hadd].
  { unfold mbind, M_bind. run_client r w1 outs Hrun Hd Hw Hr.
    eexists _, w1, _. split; [done|]. split; [done|]. split; [done|].
    split; [by exists outs|].
    intros Hh. by rewrite (try_client_healthy _ _ _ _ _ _ _ _ Hh Hrun). }
  destruct (decide (opType = "remove")) as [Hrem|Hrem].
  { unfold mbind, M_bind. run_client r w1 outs Hrun Hd Hw Hr.
    eexists _, w1, _. split; [done|]. split; [done|]. split; [done|].
    split; [by exists outs|].
    intros Hh. by rewrite (try_client_healthy _ _ _ _ _ _ _ _ Hh Hrun). }
  eexists _, w, []. rewrite app_nil_r. split; [done|]. split; [apply same_disk_refl|done].
Qed.

Lemma same_disk_handler_frame w w' users :
  same_disk w w' → handler_frame w w' users.
Proof. intros (?&?&?&?&?&_). unfold handler_frame. auto 10. Qed.

(** What the [switch task.Type] does, for every task and world. *)
Lemma dispatch_spec env c groups users task w :
  ∃ users' err w' sent,
    dispatch env c groups users task w = (Ok (users', err), w') ∧
    handler_frame w w' users' ∧ wire w' = wire w ++ sent ∧
    (users' = users ∨ users' = mirror_after (clock env (ticks w)) task users) ∧
    (err = None → users' = mirror_after (clock env (ticks w)) task users) ∧
    match precondition_error users groups task with
    | Some e => users' = users ∧ err = Some e ∧ sent = []
    | None => healthy env → err = None
    end.
Proof.
  unfold dispatch, precondition_error, mirror_after.
  destruct (decide (t_Type task = "update")) as [Hup|Hup].
  { destruct (handleUpdateTask_spec env c users task w)
      as (users' & err & w' & sent & -> & Hf & Hw & Hcase).
    exists users', err, w', sent. split; [done|]. split; [done|]. split; [done|].
    destruct (users !! t_Target task) as [record|].
    2:{ destruct Hcase as (-> & -> & ->). by (repeat split; auto). }
    destruct (t_Data task) as [| | | | |m];
      try (destruct Hcase as (-> & -> & ->); by (repeat split; auto)).
    destruct (decide (m = ∅)).
    { destruct Hcase as (-> & -> & ->). by (repeat split; auto). }
    destruct Hcase as [[[-> Herr]| ->] Hh]; by (repeat split; auto). }
  destruct (decide (t_Type task = "deactivate")) as [Hde|Hde].
  { destruct (handleDeactivateTask_spec env c users task w)
      as (users' & err & w' & sent & -> & Hf & Hw & Hcase).
    exists users', err, w', sent. split; [done|]. split; [done|]. split; [done|].
    destruct (users !! t_Target task) as [record|].
    2:{ destruct Hcase as (-> & -> & ->). by (repeat split; auto). }
    destruct Hcase as [[[-> Herr]| ->] Hh]; by (repeat split; auto). }
  assert (Hmirror : match users !! t_Target task with
                    | Some _ => users
                    | None => users
                    end = users) by (by destruct (users !! t_Target task)).
  rewrite Hmirror.
  destruct (decide (t_Type task = "add-to-group")) as [Hadd|Hadd].
  { unfold mbind, M_bind.
    destruct (handleGroupMembershipTask_spec env c users groups task "add" w)
      as (err & w' & sent & -> & Hd & Hw & Hcase).
    exists users, err, w', sent. split; [done|].
    split; [by apply same_disk_handler_frame|]. split; [done|].
    split; [by left|]. split; [done|].
    rewrite decide_True by auto.
    destruct (users !! t_Target task) as [user|]; [|by destruct Hcase as (-> & ->)].
    destruct (t_Data task); try (by destruct Hcase as (-> & ->)).
    destruct (groups !! s); [|by destruct Hcase as (-> & ->)].
    rewrite decide_True in Hcase by done. by destruct Hcase. }
  destruct (decide (t_Type task = "remove-from-group")) as [Hrem|Hrem].
  { unfold mbind, M_bind.
    destruct (handleGroupMembershipTask_spec env c users groups task "remove" w)
      as (err & w' & sent & -> & Hd & Hw & Hcase).
    exists users, err, w', sent. split; [done|].
    split; [by apply same_disk_handler_frame|]. split; [done|].
    split; [by left|]. split; [done|].
    rewrite decide_True by auto.
    destruct (users !! t_Target task) as [user|]; [|by destruct Hcase as (-> & ->)].
    destruct (t_Data task); try (by destruct Hcase as (-> & ->)).
    destruct (groups !! s); [|by destruct Hcase as (-> & ->)].
    rewrite decide_False, decide_True in Hcase by done. by destruct Hcase. }
  rewrite decide_False by (intros [|]; done).
  exists users, (Some (ErrUnknownTask (t_Type task))), w, [].
  rewrite app_nil_r. split; [done|]. split; [unfold handler_frame; auto 10|].
  split; [done|]. split; [by left|]. split; [done|done].
Qed.

(** ** One task, then the loop *)

Lemma saveQueue_spec env queue w :
  ∃ w', saveQueue env queue w = (Ok tt, w') ∧
    users_json w' = users_json w ∧ groups_json w' = groups_json w ∧
    archived w' = archived w ∧ audit_log w' = audit_log w ∧ wire w' = wire w ∧
    slept w' = slept w ∧ ticks w' = ticks w ∧
    (job_queue_json w' = job_queue_json w ∨ job_queue_json w' = Holds queue) ∧
    (fs_fault env (fs_ops w) = None → job_queue_json w' = Holds queue).
Proof.
  unfold saveQueue, mbind, M_bind, fs_call. simpl.
  destruct (fs_fault env (fs_ops w)); simpl; eexists; (split; [reflexivity|]);
    repeat split; auto; done.
Qed.

Lemma process_task_spec env c groups i task st w :
  ∃ users' err w1 sent st' w',
    dispatch env c groups (userStore st) task w = (Ok (users', err), w1) ∧
    process_task env c groups i task st w = (Ok st', w') ∧
    st' = state_after i task users' err st ∧
    wire w1 = wire w ++ sent ∧ wire w' = wire w1 ∧
    groups_json w' = groups_json w ∧ archived w' = archived w ∧
    (users_json w' = users_json w ∨ users_json w' = Holds users') ∧
    (job_queue_json w' = job_queue_json w ∨ job_queue_json w' = Holds (jobQueue st')) ∧
    audit_log w1 = audit_log w ∧
    (fs_fault env (fs_ops w1) = None →
       audit_log w' = audit_log w ++ [task_event (clock env (ticks w1)) task err]) ∧
    (err = None → users' = mirror_after (clock env (ticks w)) task (userStore st)) ∧
    match precondition_error (userStore st) groups task with
    | Some e => users' = userStore st ∧ err = Some e ∧ sent = []
    | None => healthy env → err = None
    end.
Proof.
  destruct (dispatch_spec env c groups (userStore st) task w)
    as (users' & err & w1 & sent & Hrun & (Hf1 & Hf2 & Hf3 & Hf4 & Hf5) & Hw & _ & Hm & Hpre).
  exists users', err, w1, sent.
  unfold process_task, mbind at 1, M_bind at 1. rewrite Hrun. cbv beta iota.
  assert (Haudit : ∃ level details args,
    (match err with
     | Some err0 => logAndAudit env "ProcessBatch" (t_Target task) "error" "Task failed"
                      ["error"; Error_msg err0]
     | None => logAndAudit env "ProcessBatch" (t_Target task) "info"
                 ("Task '" +:+ t_Type task +:+ "' completed successfully.") []
     end) w1 = (Ok tt, after_audit env "ProcessBatch" (t_Target task) level details args w1) ∧
    audit_event (clock env (ticks w1)) "ProcessBatch" (t_Target task) level details args
    = task_event (clock env (ticks w1)) task err).
  { destruct err; eexists _, _, _; (split; [by apply logAndAudit_spec|done]). }
  destruct Haudit as (level & details & args & Hlog & Hev).
  unfold mbind at 1, M_bind at 1. rewrite Hlog.
  pose proof (after_audit_frame env "ProcessBatch" (t_Target task) level details args w1)
    as (Ha1 & Ha2 & Ha3 & Ha4 & Ha5 & Ha6 & Ha7 & Ha8 & Ha9).
  pose proof (after_audit_log env "ProcessBatch" (t_Target task) level details args w1)
    as Ha10.
  set (wa := after_audit env "ProcessBatch" (t_Target task) level details args w1) in *.
  change {| jobQueue := <[i := set_Status match err with
                                           | Some _ => "failed"
                                           | None => "completed"
                                           end task]> (jobQueue st);
            userStore := users';
            tasksProcessed := tasksProcessed st + 1;
            hasChanges := true |} with (state_after i task users' err st).
  set (st' := state_after i task users' err st).
  destruct (bool_decide (tasksProcessed st' `mod` 5 = 0)).
  - destruct (saveQueue_spec env (jobQueue st') wa)
      as (w' & Hsave & Hs1 & Hs2 & Hs3 & Hs4 & Hs5 & Hs6 & Hs7 & Hs8 & _).
    unfold mbind, M_bind. rewrite Hsave. exists st', w'. simpl.
    split; [done|]. split; [done|]. split; [done|]. split; [done|].
    split; [congruence|]. split; [congruence|]. split; [congruence|].
    split; [destruct Hf5 as [Hf5|Hf5]; [left|right]; congruence|].
    split; [destruct Hs8 as [Hs8|Hs8]; [left; congruence|right; exact Hs8]|].
    split; [done|]. split; [|done]. intros Hfs. rewrite Hs4, Ha10, Hev, Hf4 by done. done.
  - exists st', wa. unfold mbind, M_bind. simpl.
    split; [done|]. split; [done|]. split; [done|]. split; [done|].
    split; [congruence|]. split; [congruence|]. split; [congruence|].
    split; [destruct Hf5 as [Hf5|Hf5]; [left|right]; congruence|].
    split; [left; congruence|].
    split; [done|]. split; [|done]. intros Hfs. rewrite Ha10, Hev, Hf4 by done. done.
Qed.

Lemma set_Status_id task : set_Status (t_Status task) task = task.
Proof. by destruct task. Qed.

Lemma set_Status_twice s s' task : set_Status s' (set_Status s task) = set_Status s' task.
Proof. done. Qed.

Lemma task_status_cases err : task_status err = "completed" ∨ task_status err = "failed".
Proof. destruct err; auto. Qed.

(** The task loop never aborts: it returns the queue with the same tasks in
    the same order, statuses apart, and settles every pending task it reaches. *)
Lemma process_loop_spec env c groups n i st w :
  (n + i = length (jobQueue st))%nat →
  ∃ stopped st' w',
    process_loop env n i c groups st w = (Ok (stopped, st'), w') ∧
    length (jobQueue st') = length (jobQueue st) ∧
    (∀ j t, jobQueue st !! j = Some t →
       ∃ s, jobQueue st' !! j = Some (set_Status s t) ∧
            ((j < i)%nat ∨ ¬ pending t → s = t_Status t) ∧
            (pending t → s = "pending" ∨ s = "completed" ∨ s = "failed") ∧
            (stopped = false → (i ≤ j)%nat → s ≠ "pending")) ∧
    groups_json w' = groups_json w ∧ archived w' = archived w ∧
    (hasChanges st = true → hasChanges st' = true) ∧
    (hasChanges st' = false →
       st' = st ∧ (stopped = false → job_queue_json w' = job_queue_json w)) ∧
    ((∀ k, ctx_err env k = None) → stopped = false).
Proof.
  revert i st w. induction n as [|n IH]; intros i st w Hlen.
  - exists false, st, w. simpl. split; [done|]. split; [done|].
    split.
    { intros j t Hj. exists (t_Status t). rewrite set_Status_id.
      split; [done|]. split; [done|]. split; [auto|].
      intros _ Hij. apply lookup_lt_Some in Hj. lia. }
    repeat split; auto.
  - cbn [process_loop]. unfold mbind at 1, M_bind at 1, ctx_Err at 1. cbn [fst snd].
    destruct (ctx_err env (polls w)) as [e|] eqn:Hctx.
    { destruct (saveQueue_spec env (jobQueue st) (set_polls (S (polls w)) w))
        as (w' & Hsave & Hs1 & Hs2 & Hs3 & Hs4 & Hs5 & Hs6 & Hs7 & Hs8 & _).
      unfold mbind, M_bind. rewrite Hsave. exists true, st, w'. simpl.
      split; [done|]. split; [done|].
      split.
      { intros j t Hj. exists (t_Status t). rewrite set_Status_id.
        split; [done|]. split; [done|]. split; [auto|]. done. }
      split; [done|]. split; [done|]. split; [done|]. split; [done|].
      intros Hnever. rewrite Hnever in Hctx. done. }
    destruct (jobQueue st !! i) as [task|] eqn:Hi.
    2:{ apply lookup_ge_None in Hi. lia. }
    destruct (decide (t_Status task ≠ "pending")) as [Hnp|Hp].
    + destruct (IH (S i) st (set_polls (S (polls w)) w) ltac:(lia))
        as (stopped & st' & w' & -> & Hl & Hq & Hg & Ha & Hc1 & Hc2 & Hc3).
      simpl in Hg, Ha, Hc2.
      exists stopped, st', w'. split; [done|]. split; [done|].
      split; [|split; [exact Hg|]; split; [exact Ha|]; split; [exact Hc1|];
                split; [exact Hc2|exact Hc3]].
      intros j t Hj. destruct (Hq j t Hj) as (s & Hs & H1 & H2 & H3).
      exists s. split; [done|]. split.
      { intros [Hlt|Hn]; apply H1; [left; lia|by right]. }
      split; [done|].
      intros Hst Hij. destruct (decide (j = i)) as [->|Hne].
      * replace t with task in * by congruence.
        rewrite H1 by (left; lia). done.
      * apply H3; [done|lia].
    + assert (Hpend : pending task) by (unfold pending; by destruct (decide (t_Status task = "pending")); [|exfalso; apply Hp]).
      destruct (process_task_spec env c groups i task st (set_polls (S (polls w)) w))
        as (users' & err & w1 & sent & st1 & w2 & _ & Hrun & Hst1 & _ & _ & Hg1 & Ha1 & _).
      unfold mbind at 1, M_bind at 1. rewrite Hrun.
      assert (Hlen1 : length (jobQueue st1) = length (jobQueue st))
        by (rewrite Hst1; simpl; apply length_insert).
      destruct (IH (S i) st1 w2 ltac:(lia))
        as (stopped & st' & w' & -> & Hl & Hq & Hg & Ha & Hc1 & Hc2 & Hc3).
      exists stopped, st', w'. split; [done|]. split; [congruence|].
      assert (Hch : hasChanges st' = true) by (apply Hc1; by rewrite Hst1).
      simpl in Hg1, Ha1.
      split; [|split; [congruence|]; split; [congruence|]; split; [done|];
                split; [by rewrite Hch|exact Hc3]].
      intros j t Hj. destruct (decide (j = i)) as [->|Hne].
      * replace t with task in * by congruence.
        assert (Hi1 : jobQueue st1 !! i = Some (set_Status (task_status err) task)).
        { rewrite Hst1. simpl. apply list_lookup_insert_eq. apply lookup_lt_Some in Hi. done. }
        destruct (Hq i _ Hi1) as (s & Hs & H1 & _ & _).
        rewrite H1 in Hs by (left; lia). simpl in Hs.
        exists (task_status err). split; [done|].
        split; [intros [Hlt|Hn]; [lia|done]|].
        split; [intros _; right; apply task_status_cases|].
        intros _ _. by destruct err.
      * assert (Hj1 : jobQueue st1 !! j = Some t).
        { rewrite Hst1. simpl. by rewrite list_lookup_insert_ne. }
        destruct (Hq j t Hj1) as (s & Hs & H1 & H2 & H3).
        exists s. split; [done|]. split.
        { intros [Hlt|Hn]; apply H1; [left; lia|by right]. }
        split; [done|]. intros Hst Hij. apply H3; [done|lia].
Qed.
(** ** The batch processor *)

Lemma process_loop_step env c groups n i st w task :
  ctx_err env (polls w) = None →
  jobQueue st !! i = Some task →
  pending task →
  process_loop env (S n) i c groups st w
  = (st' ← process_task env c groups i task st; process_loop env n (S i) c groups st')
      (set_polls (S (polls w)) w).
Proof.
  intros Hctx Hi Hp. cbn [process_loop].
  unfold mbind at 1, M_bind at 1, ctx_Err at 1. cbn [fst snd]. rewrite Hctx, Hi.
  unfold pending in Hp. destruct (decide (t_Status task ≠ "pending")); done.
Qed.

Lemma precondition_error_absent users groups task :
  users !! t_Target task = None →
  ∃ e, precondition_error users groups task = Some e.
Proof.
  intros Hu. unfold precondition_error. rewrite Hu.
  repeat case_decide; eauto.
Qed.

(** In a healthy environment a pending task that passes the local checks is
    completed, one that fails them is failed and leaves the mirror alone. *)
Lemma process_task_healthy env c groups i task st w :
  healthy env →
  ∃ users' err st' w',
    process_task env c groups i task st w = (Ok st', w') ∧
    st' = state_after i task users' err st ∧
    match precondition_error (userStore st) groups task with
    | Some e => users' = userStore st ∧ err = Some e
    | None => users' = mirror_after (clock env (ticks w)) task (userStore st) ∧ err = None
    end.
Proof.
  intros Hh.
  destruct (process_task_spec env c groups i task st w)
    as (users' & err & w1 & sent & st' & w' & _ & Hrun & Hst & _ & _ & _ & _ & _ & _ & _ & _
        & Hm & Hpre).
  exists users', err, st', w'. split; [done|]. split; [done|].
  destruct (precondition_error (userStore st) groups task).
  - by destruct Hpre as (-> & -> & _).
  - specialize (Hpre Hh). auto.
Qed.

(** C2. Partial-failure isolation. (1) Whatever a handler returns, the task
    step ends normally: an error sets the task to "failed" (no error:
    "completed") and appends the audit record of that result. (2) Without a
    shutdown signal the loop reaches the end of the queue: every pending task
    ends "completed" or "failed", the others are left as they were. (3) A
    task rejected by a local check (missing user or group, malformed payload,
    unknown kind) ends "failed", leaves the mirror alone and puts nothing on
    the wire. (4) In a healthy environment, three pending tasks of which the
    first and third pass the local checks and the second names a user absent
    from the mirror when it is reached end completed, failed, completed. *)
Theorem partial_failure_isolation env c groups :
  (∀ i task st w, ∃ users' err w1 st' w',
     dispatch env c groups (userStore st) task w = (Ok (users', err), w1) ∧
     process_task env c groups i task st w = (Ok st', w') ∧
     jobQueue st' = <[i := set_Status (task_status err) task]> (jobQueue st) ∧
     (fs_fault env (fs_ops w1) = None →
        audit_log w' = audit_log w ++ [task_event (clock env (ticks w1)) task err])) ∧
  (∀ queue users w,
     (∀ k, ctx_err env k = None) →
     ∃ st' w',
       process_loop env (length queue) 0 c groups
         {| jobQueue := queue; userStore := users; tasksProcessed := 0;
            hasChanges := false |} w
       = (Ok (false, st'), w') ∧
       length (jobQueue st') = length queue ∧
       ∀ j t, queue !! j = Some t →
         ∃ s, jobQueue st' !! j = Some (set_Status s t) ∧
              (pending t → s = "completed" ∨ s = "failed") ∧
              (¬ pending t → s = t_Status t)) ∧
  (∀ i task st w e,
     precondition_error (userStore st) groups task = Some e →
     ∃ st' w',
       process_task env c groups i task st w = (Ok st', w') ∧
       jobQueue st' = <[i := set_Status "failed" task]> (jobQueue st) ∧
       userStore st' = userStore st ∧
       wire w' = wire w) ∧
  (healthy env →
   ∀ t1 t2 t3 users w,
     pending t1 → pending t2 → pending t3 →
     precondition_error users groups t1 = None →
     (∀ now, mirror_after now t1 users !! t_Target t2 = None) →
     (∀ now, precondition_error (mirror_after now t1 users) groups t3 = None) →
     ∃ st' w',
       process_loop env 3 0 c groups
         {| jobQueue := [t1; t2; t3]; userStore := users; tasksProcessed := 0;
            hasChanges := false |} w
       = (Ok (false, st'), w') ∧
       jobQueue st' = [set_Status "completed" t1; set_Status "failed" t2;
                       set_Status "completed" t3]).
Proof.
  split; [|split; [|split]].
  - intros i task st w.
    destruct (process_task_spec env c groups i task st w)
      as (users' & err & w1 & sent & st' & w' & Hd & Hrun & Hst & _ & _ & _ & _ & _ & _ & _
          & Haud & _).
    exists users', err, w1, st', w'. subst st'. done.
  - intros queue users w Hctx.
    destruct (process_loop_spec env c groups (length queue) 0
                {| jobQueue := queue; userStore := users; tasksProcessed := 0;
                   hasChanges := false |} w ltac:(simpl; lia))
      as (stopped & st' & w' & Hrun & Hl & Hq & _ & _ & _ & _ & Hstop).
    rewrite (Hstop Hctx) in *. exists st', w'. split; [done|]. split; [done|].
    intros j t Hj. destruct (Hq j t Hj) as (s & Hs & H1 & H2 & H3).
    exists s. split; [done|]. split.
    + intros Hp. destruct (H2 Hp) as [Hs'|Hs']; [|done].
      exfalso. apply H3; [done|lia|done].
    + intros Hnp. apply H1. by right.
  - intros i task st w e Hpre.
    destruct (process_task_spec env c groups i task st w)
      as (users' & err & w1 & sent & st' & w' & _ & Hrun & Hst & Hw1 & Hw' & _ & _ & _ & _ & _ & _
          & _ & Hcase).
    rewrite Hpre in Hcase. destruct Hcase as (-> & -> & ->).
    exists st', w'. rewrite Hst. simpl. rewrite app_nil_r in Hw1.
    repeat split; auto; congruence.
  - intros Hh t1 t2 t3 users w Hp1 Hp2 Hp3 Hpre1 Habs Hpre3.
    pose proof Hh as (Hctx & _).
    rewrite (process_loop_step env c groups 2 0 _ w t1) by done.
    unfold mbind at 1, M_bind at 1.
    destruct (process_task_healthy env c groups 0 t1
                {| jobQueue := [t1; t2; t3]; userStore := users; tasksProcessed := 0;
                   hasChanges := false |} (set_polls (S (polls w)) w) Hh)
      as (users1 & err1 & st1 & w1 & -> & -> & Hcase1).
    cbn [userStore] in Hcase1. rewrite Hpre1 in Hcase1. destruct Hcase1 as [-> ->].
    rewrite (process_loop_step env c groups 1 1 _ w1 t2) by done.
    unfold mbind at 1, M_bind at 1.
    match goal with |- context [process_task env c groups 1%nat t2 ?st0 ?w0] =>
      destruct (process_task_healthy env c groups 1 t2 st0 w0 Hh)
        as (users2 & err2 & st2 & w2 & -> & -> & Hcase2)
    end.
    cbn [userStore state_after] in Hcase2.
    destruct (precondition_error_absent _ groups t2 (Habs (clock env (ticks (set_polls (S (polls w)) w)))))
      as (e2 & He2).
    rewrite He2 in Hcase2. destruct Hcase2 as [-> ->].
    rewrite (process_loop_step env c groups 0 2 _ w2 t3) by done.
    unfold mbind at 1, M_bind at 1.
    match goal with |- context [process_task env c groups 2%nat t3 ?st0 ?w0] =>
      destruct (process_task_healthy env c groups 2 t3 st0 w0 Hh)
        as (users3 & err3 & st3 & w3 & -> & -> & Hcase3)
    end.
    cbn [userStore state_after] in Hcase3.
    rewrite Hpre3 in Hcase3. destruct Hcase3 as [-> ->].
    eexists _, w3. split; [done|]. done.
Qed.

Lemma archive_queue_spec env queue w :
  let name := jobQueueFile env +:+ ".completed_" +:+
              time_Format env "20060102-150405" (clock env (ticks w)) in
  ∃ w', archive_queue env queue w = (Ok tt, w') ∧
    users_json w' = users_json w ∧ groups_json w' = groups_json w ∧
    audit_log w' = audit_log w ∧ wire w' = wire w ∧
    (allCompleted queue = false ∨ queue = [] →
       job_queue_json w' = job_queue_json w ∧ archived w' = archived w) ∧
    (allCompleted queue = true → queue ≠ [] →
       fs_fault env (fs_ops w) = None → job_queue_json w ≠ Missing →
       job_queue_json w' = Missing ∧
       archived w' = <[name := job_queue_json w]> (archived w)) ∧
    (job_queue_json w' = job_queue_json w ∧ archived w' = archived w ∨
     job_queue_json w' = Missing ∧
     ∃ name', archived w' = <[name' := job_queue_json w]> (archived w)).
Proof.
  intros name. unfold archive_queue.
  destruct (allCompleted queue) eqn:Hall; simpl.
  2:{ exists w. repeat split; auto; done. }
  destruct queue as [|t queue'].
  { exists w. simpl. repeat split; auto; done. }
  rewrite bool_decide_eq_true_2 by (simpl; lia).
  unfold mbind, M_bind, time_Now, try, os_Rename_queue, mbind, M_bind, fs_call. simpl.
  destruct (fs_fault env (fs_ops w)) eqn:Hfs; simpl.
  { eexists. split; [done|]. simpl.
    repeat split; auto; try done; try (by intros [|]). }
  destruct (job_queue_json w) as [|msg|q] eqn:Hq; simpl.
  all: eexists; (split; [done|]); simpl; try rewrite Hq.
  all: repeat split; auto; try done; try (by intros [|]).
  all: try (match goal with H : _ ∨ _ |- _ => by destruct H end).
  all: right; split; [done|]; by eexists.
Qed.




Lemma process_loop_skip env c gs st n i w :
  (∀ j t, jobQueue st !! j = Some t → t_Status t ≠ "pending") →
  (n + i = length (jobQueue st))%nat →
  ∃ stopped w',
    process_loop env n i c gs st w = (Ok (stopped, st), w') ∧
    same_mirror w w' ∧ archived w' = archived w ∧ ticks w' = ticks w ∧
    (job_queue_json w' = job_queue_json w ∨ job_queue_json w' = Holds (jobQueue st)).
Proof.
  intros Hq. revert i w. induction n as [|n IH]; intros i w Hlen.
  - exists false, w. simpl. repeat split; auto.
  - simpl. unfold mbind, M_bind, ctx_Err. simpl.
    destruct (ctx_err env (polls w)) as [e|].
    + destruct (saveQueue_spec env (jobQueue st) (set_polls (S (polls w)) w))
        as (w' & -> & Hs1 & Hs2 & Hs3 & Hs4 & Hs5 & Hs6 & Hs7 & Hs8 & _).
      exists true, w'. simpl. repeat split; auto.
    + destruct (jobQueue st !! i) as [task|] eqn:Hi.
      2:{ apply lookup_ge_None in Hi. lia. }
      destruct (decide (t_Status task ≠ "pending")) as [_|Hp].
      2:{ exfalso. apply Hp. eapply Hq; eauto. }
      destruct (IH (S i) (set_polls (S (polls w)) w)) as (s & w' & -> & Hm & Ha & Ht & Hj); [lia|].
      exists s, w'. repeat split; try apply Hm; auto.
Qed.

(** C1. Idempotent resume. A run on a checkpoint in which no task is
    pending - in particular one in which every task is completed - puts
    nothing on the wire and leaves users.json, groups.json and the audit log
    as they were; the queue itself is unchanged, in place or archived whole. *)
Theorem idempotent_resume env w queue :
  job_queue_json w = Holds queue →
  Forall (λ task, t_Status task ≠ "pending") queue →
  ∃ r w',
    processBatchCmd_Run env w = (r, w') ∧
    (r = Ok tt ∨ r = Exit 1) ∧
    wire w' = wire w ∧
    users_json w' = users_json w ∧ groups_json w' = groups_json w ∧
    audit_log w' = audit_log w ∧
    (job_queue_json w' = Holds queue ∧ archived w' = archived w ∨
     job_queue_json w' = Missing ∧
     ∃ name, archived w' = <[name := Holds queue]> (archived w)).
Proof.
  intros Hfile Hq.
  assert (Hq' : ∀ j t, queue !! j = Some t → t_Status t ≠ "pending").
  { intros j t Hj. rewrite Forall_forall in Hq. apply Hq.
    eapply list_elem_of_lookup_2; eauto. }
  unfold processBatchCmd_Run, processBatchCmd_tasks, mbind, M_bind.
  unfold prepare_queue. rewrite Hfile.
  unfold or_exit, NewClient.
  destruct (decide (cfg_api_url env = "" ∨ cfg_api_key env = "")); simpl.
  { exists (Exit 1), w. repeat split; auto. }
  unfold NewStore, mbind, M_bind, fs_call. simpl.
  destruct (fs_fault env (fs_ops w)); simpl.
  { eexists (Exit 1), _. split; [reflexivity|]. simpl. repeat split; auto. }
  unfold LoadUsers. simpl.
  destruct (users_json w) as [|msg|users] eqn:Hu; simpl.
  2:{ eexists (Exit 1), _. split; [reflexivity|]. simpl. repeat split; auto. }
  all: unfold LoadGroups; simpl.
  all: destruct (groups_json w) as [|msg'|groups] eqn:Hg; simpl.
  all: try (eexists (Exit 1), _; split; [reflexivity|]; simpl; repeat split; auto; fail).
  all: match goal with
       | |- context [process_loop ?e ?n ?i ?c ?gs ?st ?w0] =>
           destruct (process_loop_skip e c gs st n i w0 Hq' ltac:(simpl; lia))
             as (stopped & w1 & -> & (Hm1 & Hm2 & Hm3 & Hm4 & Hm5) & Ha & Ht & Hj)
       end.
  all: simpl in *.
  all: assert (Hj' : job_queue_json w1 = Holds queue) by (destruct Hj; congruence).
  all: destruct stopped; simpl.
  all: try (exists (Ok tt), w1; repeat split; auto; congruence).
  all: destruct (archive_queue_spec env queue w1)
         as (w2 & -> & Hr1 & Hr2 & Hr3 & Hr4 & _ & _ & Hr5).
  all: exists (Ok tt), w2.
  all: split; [done|]; split; [auto|].
  all: split; [congruence|]; split; [congruence|]; split; [congruence|];
         split; [congruence|].
  all: destruct Hr5 as [[H1 H2]|[H1 [name H2]]]; [left; split; congruence|].
  all: right; split; [done|]; exists name; congruence.
Qed.

Lemma idempotent_resume_witness :
  wire (processBatchCmd_Run env_ok world_done).2 = [] ∧
  users_json (processBatchCmd_Run env_ok world_done).2 = Holds users0.
Proof.
  destruct (idempotent_resume env_ok world_done done_queue)
    as (r & w' & Hrun & _ & Hw & Hu & _).
  - reflexivity.
  - repeat constructor; discriminate.
  - rewrite Hrun. split; [exact Hw | exact Hu].
Defined.

Lemma partial_failure_isolation_witness :
  ∃ st' w',
    process_loop env_ok 3 0 test_client groups0 (batch0 three_tasks users0) world0
    = (Ok (false, st'), w') ∧
    t_Status <$> jobQueue st' = ["completed"; "failed"; "completed"].
Proof.
  destruct (partial_failure_isolation env_ok test_client groups0) as (_ & _ & _ & H).
  destruct (H ltac:(repeat split; intros; reflexivity)
              (task "deactivate" "alice@example.org" VNil "pending")
              (task "deactivate" "ghost@example.org" VNil "pending")
              (task "add-to-group" "bob@example.org" (VString "staff") "pending")
              users0 world0)
    as (st' & w' & Hrun & Hq).
  - reflexivity.
  - reflexivity.
  - reflexivity.
  - vm_compute. reflexivity.
  - intros now. reflexivity.
  - intros now. reflexivity.
  - exists st', w'. split; [exact Hrun|]. rewrite Hq. reflexivity.
Defined.


(** ** Membership operations *)

Lemma marshal_remove_member_op user :
  marshal_SCIMPatchOp (remove_member_op user)
  = <["path" := VString ("members[value eq " +:+ dquote +:+ u_SCIMID user +:+ dquote +:+ "]")]>
      {[ "op" := VString "remove" ]}.
Proof. unfold marshal_SCIMPatchOp, remove_member_op. cbn [p_Op p_Path p_Value]. done. Qed.

(** C8. Membership filter construction. Every request a remove-from-group
    task puts on the wire for a user whose mirror record has external id [s]
    is a PATCH of a group whose envelope holds a single operation; that
    operation is serialised with op "remove", with path
    members[value eq "s"] and with no value field. *)
Theorem membership_filter_construction env c users groups task user w :
  users !! t_Target task = Some user →
  ∃ err w' sent,
    handleGroupMembershipTask env c users groups task "remove" w = (Ok err, w') ∧
    wire w' = wire w ++ sent ∧
    ∀ req o, (req, o) ∈ sent →
      Method req = "PATCH" ∧
      ∃ operation,
        Body req = Some (VMap
          (<["schemas" := VSlice [VString "urn:ietf:params:scim:api:messages:2.0:PatchOp"]]>
          (<["Operations" := VSlice [VMap operation]]> ∅))) ∧
        operation !! "op" = Some (VString "remove") ∧
        operation !! "path"
        = Some (VString ("members[value eq " +:+ dquote +:+ u_SCIMID user +:+ dquote +:+ "]")) ∧
        operation !! "value" = None ∧
        dom operation = {[ "op"; "path" ]}.
Proof.
  intros Hu.
  destruct (handleGroupMembershipTask_spec env c users groups task "remove" w)
    as (err & w' & sent & Hrun & _ & Hw & Hcase).
  exists err, w', sent. split; [done|]. split; [done|].
  rewrite Hu in Hcase.
  destruct (t_Data task) as [| | |groupName| |];
    try (destruct Hcase as [_ ->]; intros req o Hin; by apply elem_of_nil in Hin).
  destruct (groups !! groupName) as [group|];
    [|destruct Hcase as [_ ->]; intros req o Hin; by apply elem_of_nil in Hin].
  rewrite decide_False, decide_True in Hcase by done.
  destruct Hcase as [[outs ->] _].
  intros req o Hin. unfold group_patch_attempts in Hin.
  apply list_elem_of_fmap in Hin as (o' & [= -> ->] & _).
  split; [done|].
  exists (marshal_SCIMPatchOp (remove_member_op user)).
  split; [done|]. rewrite marshal_remove_member_op.
  split; [done|]. split; [done|]. split; [done|].
  rewrite dom_insert_L, dom_singleton_L. set_solver.
Qed.

Lemma membership_filter_construction_witness :
  ∃ req o operation,
    wire (handleGroupMembershipTask env_ok test_client users0 groups0 remove_alice
            "remove" world0).2 = [(req, o)] ∧
    URL req = "https://scim.example.org/v2/Groups/grp-1" ∧
    Body req = Some (VMap
      (<["schemas" := VSlice [VString "urn:ietf:params:scim:api:messages:2.0:PatchOp"]]>
      (<["Operations" := VSlice [VMap operation]]> ∅))) ∧
    operation !! "path"
    = Some (VString ("members[value eq " +:+ dquote +:+ "abc-123" +:+ dquote +:+ "]")) ∧
    operation !! "value" = None.
Proof.
  destruct (membership_filter_construction env_ok test_client users0 groups0 remove_alice
              alice world0)
    as (err & w' & sent & Hrun & Hw & Hall).
  - reflexivity.
  - rewrite Hrun. cbn [snd].
    assert (Hsent : ∃ req o, sent = [(req, o)] ∧
                      URL req = "https://scim.example.org/v2/Groups/grp-1").
    { vm_compute in Hrun. injection Hrun as _ <-. cbn [wire] in Hw.
      eexists _, _. split; [symmetry; exact Hw|reflexivity]. }
    destruct Hsent as (req & o & -> & Hurl).
    destruct (Hall req o) as (_ & operation & Hbody & _ & Hpath & Hvalue & _).
    { apply list_elem_of_here. }
    exists req, o, operation. rewrite Hw. split; [reflexivity|].
    split; [exact Hurl|]. split; [exact Hbody|]. split; [exact Hpath|exact Hvalue].
Defined.

(** ** The deactivation timestamp *)





(** ** The reconciler *)

Lemma audit_all_app env ds ds' w :
  audit_all env (ds ++ ds') w = audit_all env ds' (audit_all env ds w).
Proof. unfold audit_all. apply fold_left_app. Qed.

Lemma audit_all_frame env ds w :
  let w' := audit_all env ds w in
  users_json w' = users_json w ∧ groups_json w' = groups_json w ∧
  job_queue_json w' = job_queue_json w ∧ archived w' = archived w ∧
  wire w' = wire w ∧ slept w' = slept w ∧
  ticks w' = (ticks w + length ds)%nat ∧ fs_ops w' = (fs_ops w + length ds)%nat.
Proof.
  revert w. induction ds as [|d ds IH]; intros w; cbn [audit_all fold_left length].
  - repeat split; auto.
  - specialize (IH (after_audit env "Refresh: Delta Found" (d_target d) "info"
                      (d_details d) (d_args d) w)).
    cbn zeta in IH. unfold audit_all in IH.
    destruct IH as (H1 & H2 & H3 & H4 & H5 & H6 & H7 & H8).
    pose proof (after_audit_frame env "Refresh: Delta Found" (d_target d) "info"
                  (d_details d) (d_args d) w) as (A1 & A2 & A3 & A4 & A5 & A6 & A7 & A8 & A9).
    rewrite H1, H2, H3, H4, H5, H6, H7, H8, A8, A9.
    repeat split; auto; lia.
Qed.

Lemma audit_all_log env ds w :
  (∀ n, fs_fault env n = None) →
  audit_log (audit_all env ds w)
  = audit_log w ++ imap (λ n d, drift_event (clock env (ticks w + n)) d) ds.
Proof.
  intros Hfs. revert w. induction ds as [|d ds IH]; intros w.
  - simpl. by rewrite app_nil_r.
  - change (audit_all env (d :: ds) w)
      with (audit_all env ds (after_audit env "Refresh: Delta Found" (d_target d) "info"
                                (d_details d) (d_args d) w)).
    rewrite IH.
    rewrite after_audit_log by apply Hfs.
    pose proof (after_audit_frame env "Refresh: Delta Found" (d_target d) "info"
                  (d_details d) (d_args d) w) as (_ & _ & _ & _ & _ & _ & _ & A8 & _).
    rewrite A8, <- app_assoc. cbn [imap app]. rewrite Nat.add_0_r.
    f_equal. f_equal. apply imap_ext. intros n d' _. unfold compose.
    f_equal. f_equal. lia.
Qed.

Lemma diff_new_user_spec env oldState kv w :
  diff_new_user env oldState kv w = (Ok tt, audit_all env (new_user_drift oldState kv) w).
Proof.
  destruct kv as [eppn newUser]. unfold diff_new_user, new_user_drift. cbn [fst snd].
  destruct (oldState !! eppn) as [oldUser|].
  2:{ by rewrite logAndAudit_spec. }
  unfold mbind, M_bind.
  destruct (decide (u_Status oldUser ≠ u_Status newUser));
    destruct (decide (u_Title oldUser ≠ u_Title newUser));
    destruct (decide (u_Name oldUser ≠ u_Name newUser));
    cbn [mret M_ret app audit_all fold_left];
    rewrite ?logAndAudit_spec by done; cbn [d_target d_details d_args];
    rewrite ?logAndAudit_spec by done; cbn [d_target d_details d_args];
    rewrite ?logAndAudit_spec by done; reflexivity.
Qed.

Lemma diff_old_user_spec env newState kv w :
  diff_old_user env newState kv w = (Ok tt, audit_all env (old_user_drift newState kv) w).
Proof.
  destruct kv as [eppn oldUser]. unfold diff_old_user, old_user_drift. cbn [fst snd].
  destruct (newState !! eppn); [done|]. by rewrite logAndAudit_spec.
Qed.

Lemma diff_new_group_spec env oldState kv w :
  diff_new_group env oldState kv w = (Ok tt, audit_all env (new_group_drift oldState kv) w).
Proof.
  destruct kv as [name newGroup]. unfold diff_new_group, new_group_drift. cbn [fst snd].
  destruct (oldState !! name); [done|]. by rewrite logAndAudit_spec.
Qed.

Lemma diff_old_group_spec env newState kv w :
  diff_old_group env newState kv w = (Ok tt, audit_all env (old_group_drift newState kv) w).
Proof.
  destruct kv as [name oldGroup]. unfold diff_old_group, old_group_drift. cbn [fst snd].
  destruct (newState !! name); [done|]. by rewrite logAndAudit_spec.
Qed.

Lemma for_each_audit {A} env (f : A → M unit) (g : A → list Drift) l w :
  (∀ x w, f x w = (Ok tt, audit_all env (g x) w)) →
  for_each f l w = (Ok tt, audit_all env (l ≫= g) w).
Proof.
  intros Hf. revert w. induction l as [|x l IH]; intros w; [done|].
  cbn [for_each]. unfold mbind at 1, M_bind at 1. rewrite Hf, IH.
  by rewrite bind_cons, audit_all_app.
Qed.

Lemma doRequestWithRetry_frame env c req w :
  ∃ r w', doRequestWithRetry env c req w = (r, w') ∧ same_disk w w' ∧
          (∀ code, r ≠ Exit code) ∧ (∀ msg, r ≠ Panic msg) ∧ r ≠ OutOfFuel.
Proof.
  unfold doRequestWithRetry.
  destruct (retry_loop_spec env maxRetries 0 c None req w) as (r & w' & outs & -> & Hd & _ & Hr).
  exists r, w'. split; [done|]. split; [done|]. by destruct r.
Qed.

(** A list fetch touches nothing but the network. *)
Lemma GetUsers_loop_frame env fuel c acc start w :
  ∃ r w', GetUsers_loop env fuel c acc start w = (r, w') ∧ same_disk w w' ∧
          (∀ code, r ≠ Exit code) ∧ (∀ msg, r ≠ Panic msg).
Proof.
  revert acc start w. induction fuel as [|fuel IH]; intros acc start w.
  - exists OutOfFuel, w. split; [done|]. split; [apply same_disk_refl|done].
  - cbn [GetUsers_loop]. unfold mbind at 1, M_bind at 1, NewRequest.
    destruct (new_request_err env "GET" (page_url c "Users" start 100)).
    { eexists _, w. split; [done|]. split; [apply same_disk_refl|done]. }
    cbn [mret M_ret]. unfold mbind at 1, M_bind at 1.
    match goal with |- context [doRequestWithRetry env c ?req w] =>
      destruct (doRequestWithRetry_frame env c req w) as (r & w1 & -> & Hd & H1 & H2 & H3)
    end.
    destruct r as [body|e|code|msg|];
      [|by eexists (Err e), w1|exfalso; by eapply H1|exfalso; by eapply H2|done].
    destruct (unmarshal_ListResponse env body) as [listResponse|];
      [|by eexists _, w1].
    destruct (decide (length (Resources listResponse) = 0%nat)); [by eexists _, w1|].
    destruct (bool_decide _); [by eexists _, w1|].
    match goal with |- context [GetUsers_loop env fuel c ?acc' ?start' w1] =>
      destruct (IH acc' start' w1) as (r & w' & -> & Hd' & H1' & H2')
    end.
    exists r, w'. split; [done|]. split; [by eapply same_disk_trans|done].
Qed.

Lemma GetGroups_loop_frame env fuel c acc start w :
  ∃ r w', GetGroups_loop env fuel c acc start w = (r, w') ∧ same_disk w w' ∧
          (∀ code, r ≠ Exit code) ∧ (∀ msg, r ≠ Panic msg).
Proof.
  revert acc start w. induction fuel as [|fuel IH]; intros acc start w.
  - exists OutOfFuel, w. split; [done|]. split; [apply same_disk_refl|done].
  - cbn [GetGroups_loop]. unfold mbind at 1, M_bind at 1, NewRequest.
    destruct (new_request_err env "GET" (page_url c "Groups" start 100)).
    { eexists _, w. split; [done|]. split; [apply same_disk_refl|done]. }
    cbn [mret M_ret]. unfold mbind at 1, M_bind at 1.
    match goal with |- context [doRequestWithRetry env c ?req w] =>
      destruct (doRequestWithRetry_frame env c req w) as (r & w1 & -> & Hd & H1 & H2 & H3)
    end.
    destruct r as [body|e|code|msg|];
      [|by eexists (Err e), w1|exfalso; by eapply H1|exfalso; by eapply H2|done].
    destruct (unmarshal_ListResponse env body) as [listResponse|];
      [|by eexists _, w1].
    destruct (decide (length (Resources listResponse) = 0%nat)); [by eexists _, w1|].
    destruct (bool_decide _); [by eexists _, w1|].
    match goal with |- context [GetGroups_loop env fuel c ?acc' ?start' w1] =>
      destruct (IH acc' start' w1) as (r & w' & -> & Hd' & H1' & H2')
    end.
    exists r, w'. split; [done|]. split; [by eapply same_disk_trans|done].
Qed.

Lemma SaveGroups_ok env groups w :
  fs_fault env (fs_ops w) = None →
  SaveGroups env groups w
  = (Ok tt, set_groups_json (Holds groups) (set_fs_ops (S (fs_ops w)) w)).
Proof.
  intros H. unfold SaveGroups, mbind, M_bind, fs_call. simpl. by rewrite H.
Qed.

Lemma bind_perm {A B} (f : A → list B) (l l' : list A) :
  l ≡ₚ l' → l ≫= f ≡ₚ l' ≫= f.
Proof. intros H. by rewrite H. Qed.

(** The run of [reconcileUsers] once the fetch has returned a list in which
    every named user has an address. *)
Lemma reconcileUsers_spec env fuel c w oldState scimUsers w1 newState :
  (∀ n, fs_fault env n = None) →
  LoadUsers w = (Ok oldState, w) →
  GetUsers env fuel c w = (Ok scimUsers, w1) →
  build_user_state scimUsers ∅ = Some newState →
  ∃ w' calls,
    reconcileUsers env fuel c w = (Ok tt, w') ∧
    users_json w' = Holds newState ∧ groups_json w' = groups_json w ∧
    wire w' = wire w1 ∧
    audit_log w' = audit_log w ++
                   imap (λ n d, drift_event (clock env (ticks w + n)) d) calls ∧
    calls ≡ₚ user_drift oldState newState.
Proof.
  intros Hfs Hload Hget Hbuild.
  destruct (GetUsers_loop_frame env fuel c [] 1 w) as (r & w1' & Hget' & Hd & _).
  unfold GetUsers in Hget. rewrite Hget in Hget'. injection Hget' as <- <-.
  destruct Hd as (Hd1 & Hd2 & Hd3 & Hd4 & Hd5 & Hd6 & Hd7 & Hd8).
  unfold reconcileUsers. unfold mbind at 1, M_bind at 1. rewrite Hload.
  unfold mbind at 1, M_bind at 1, GetUsers. rewrite Hget, Hbuild.
  unfold mbind at 1, M_bind at 1, range_map at 1. cbn [fst snd].
  unfold mbind at 1, M_bind at 1.
  rewrite (for_each_audit env _ (new_user_drift oldState))
    by apply diff_new_user_spec.
  unfold mbind at 1, M_bind at 1, range_map at 1. cbn [fst snd].
  unfold mbind at 1, M_bind at 1.
  rewrite (for_each_audit env _ (old_user_drift newState))
    by apply diff_old_user_spec.
  rewrite SaveUsers_ok by apply Hfs.
  set (kvs := range_order env (ranges w1) UserRecord newState).
  set (wa := audit_all env (kvs ≫= new_user_drift oldState) (set_ranges (S (ranges w1)) w1)).
  set (kvs' := range_order env (ranges wa) UserRecord oldState).
  set (wb := audit_all env (kvs' ≫= old_user_drift newState) (set_ranges (S (ranges wa)) wa)).
  pose proof (audit_all_frame env (kvs ≫= new_user_drift oldState)
                (set_ranges (S (ranges w1)) w1)) as (A1 & A2 & A3 & A4 & A5 & A6 & A7 & A8).
  pose proof (audit_all_frame env (kvs' ≫= old_user_drift newState)
                (set_ranges (S (ranges wa)) wa)) as (B1 & B2 & B3 & B4 & B5 & B6 & B7 & B8).
  fold wa in A1, A2, A3, A4, A5, A6, A7, A8. fold wb in B1, B2, B3, B4, B5, B6, B7, B8.
  cbn [users_json groups_json wire ticks set_ranges] in *.
  eexists _, ((kvs ≫= new_user_drift oldState) ++ (kvs' ≫= old_user_drift newState)).
  split; [done|]. cbn [users_json groups_json wire audit_log set_users_json set_fs_ops].
  split; [done|]. split; [congruence|]. split; [congruence|]. split.
  - unfold wb. rewrite audit_all_log by done. cbn [audit_log ticks set_ranges].
    unfold wa at 1. rewrite audit_all_log by done. cbn [audit_log ticks set_ranges].
    rewrite imap_app, <- app_assoc, Hd5, A7, Hd6.
    f_equal. f_equal. apply imap_ext. intros n d _. unfold compose.
    f_equal. f_equal. lia.
  - unfold user_drift. apply Permutation_app; apply bind_perm, range_order_perm.
Qed.

Lemma drift_old_new a b c (ra rb rb' rc : UserRecord) :
  a ≠ b → b ≠ c → a ≠ c →
  u_Status rb = u_Status rb' → u_Title rb = u_Title rb' → u_Name rb = u_Name rb' →
  user_drift (<[a := ra]> {[b := rb]}) (<[b := rb']> {[c := rc]})
  ≡ₚ [created_user c rc; deleted_user a ra].
Proof.
  intros Hab Hbc Hac Hs Ht Hn. unfold user_drift.
  rewrite (map_to_list_insert {[c := rc]} b rb') by (by rewrite lookup_singleton_ne).
  rewrite (map_to_list_insert {[b := rb]} a ra) by (by rewrite lookup_singleton_ne).
  rewrite !map_to_list_singleton. cbn [mbind list_bind app].
  unfold new_user_drift, old_user_drift. cbn [fst snd].
  rewrite (lookup_insert_ne _ a b) by done. rewrite lookup_singleton_eq.
  rewrite (lookup_insert_ne _ a c) by done. rewrite (lookup_singleton_ne b c) by done.
  rewrite (lookup_insert_ne _ b a) by done. rewrite (lookup_singleton_ne c a) by done.
  rewrite lookup_insert_eq.
  rewrite !decide_False by (intros H; by apply H).
  done.
Qed.

(** C5. Diff completeness. When the fetch returns and the disk takes every
    write, a reconciliation of the users ends with users.json holding the
    snapshot built from the fetch, whatever the diff found, and has appended
    to the audit log one event per drift between the old mirror and the
    snapshot (in the order the maps were visited). For an old mirror {A, B}
    and a snapshot {B, C} in which B has the status, title and name the
    mirror had, the drifts are one "created" for C and one "deleted" for A. *)
Theorem diff_completeness env fuel c w oldState scimUsers w1 newState :
  (∀ n, fs_fault env n = None) →
  LoadUsers w = (Ok oldState, w) →
  GetUsers env fuel c w = (Ok scimUsers, w1) →
  build_user_state scimUsers ∅ = Some newState →
  ∃ w' calls,
    reconcileUsers env fuel c w = (Ok tt, w') ∧
    users_json w' = Holds newState ∧
    audit_log w' = audit_log w ++
                   imap (λ n d, drift_event (clock env (ticks w + n)) d) calls ∧
    calls ≡ₚ user_drift oldState newState ∧
    ∀ a b c ra rb rb' rc,
      a ≠ b → b ≠ c → a ≠ c →
      oldState = <[a := ra]> {[b := rb]} →
      newState = <[b := rb']> {[c := rc]} →
      u_Status rb = u_Status rb' → u_Title rb = u_Title rb' → u_Name rb = u_Name rb' →
      calls ≡ₚ [created_user c rc; deleted_user a ra].
Proof.
  intros Hfs Hload Hget Hbuild.
  destruct (reconcileUsers_spec env fuel c w oldState scimUsers w1 newState
              Hfs Hload Hget Hbuild)
    as (w' & calls & Hrun & Hu & _ & _ & Ha & Hcalls).
  exists w', calls. split; [done|]. split; [done|]. split; [done|]. split; [done|].
  intros a b c' ra rb rb' rc Hab Hbc Hac -> -> Hs Ht Hn.
  rewrite Hcalls. by apply drift_old_new.
Qed.

Lemma diff_completeness_witness :
  ∃ w' calls,
    reconcileUsers env_refresh 5 test_client world0 = (Ok tt, w') ∧
    users_json w' = Holds (<["bob@example.org" := bob]> {["carol@example.org" := carol]}) ∧
    length (audit_log w') = 2%nat ∧
    calls ≡ₚ [created_user "carol@example.org" carol;
              deleted_user "alice@example.org" alice].
Proof.
  destruct (diff_completeness env_refresh 5 test_client world0 users0
              [scim_user "def-456" "bob@example.org"; scim_user "ghi-789" "carol@example.org"]
              (GetUsers env_refresh 5 test_client world0).2
              (<["bob@example.org" := bob]> {["carol@example.org" := carol]}))
    as (w' & calls & Hrun & Hu & Ha & _ & Hscen).
  - intros n. reflexivity.
  - reflexivity.
  - vm_compute. reflexivity.
  - vm_compute. reflexivity.
  - exists w', calls. split; [exact Hrun|]. split; [exact Hu|].
    assert (Hcalls : calls ≡ₚ [created_user "carol@example.org" carol;
                               deleted_user "alice@example.org" alice]).
    { apply (Hscen "alice@example.org" "bob@example.org" "carol@example.org"
               alice bob bob carol);
        [discriminate | discriminate | discriminate
        | vm_compute; reflexivity | vm_compute; reflexivity
        | reflexivity | reflexivity | reflexivity]. }
    split; [|exact Hcalls].
    rewrite Ha, length_app, length_imap, (Permutation_length Hcalls). reflexivity.
Defined.

(** ** The refresh command *)

Lemma GetUsers_frame env fuel c w r w' :
  GetUsers env fuel c w = (r, w') → same_disk w w'.
Proof.
  intros Hrun. destruct (GetUsers_loop_frame env fuel c [] 1 w) as (r' & w'' & Hrun' & Hd & _).
  unfold GetUsers in Hrun. rewrite Hrun in Hrun'. by injection Hrun' as <- <-.
Qed.

Lemma GetGroups_frame env fuel c w r w' :
  GetGroups env fuel c w = (r, w') → same_disk w w'.
Proof.
  intros Hrun. destruct (GetGroups_loop_frame env fuel c [] 1 w) as (r' & w'' & Hrun' & Hd & _).
  unfold GetGroups in Hrun. rewrite Hrun in Hrun'. by injection Hrun' as <- <-.
Qed.

(** A reconciliation of the users never writes groups.json. *)
Lemma reconcileUsers_groups env fuel c w r w' :
  reconcileUsers env fuel c w = (r, w') → groups_json w' = groups_json w.
Proof.
  unfold reconcileUsers, mbind at 1, M_bind at 1, LoadUsers.
  destruct (users_json w) as [|msg|oldState]; try (by intros [= <- <-]).
  all: unfold mbind at 1, M_bind at 1.
  all: destruct (GetUsers env fuel c w) as [r1 w1] eqn:Hget.
  all: apply GetUsers_frame in Hget as (_ & Hg & _).
  all: destruct r1 as [scimUsers| | | |]; try (by intros [= <- <-]).
  all: destruct (build_user_state scimUsers ∅) as [newState|];
         [|by intros [= <- <-]].
  all: unfold mbind at 1, M_bind at 1, range_map at 1; cbn [fst snd].
  all: unfold mbind at 1, M_bind at 1.
  all: rewrite (for_each_audit env _ (new_user_drift _)) by apply diff_new_user_spec.
  all: unfold mbind at 1, M_bind at 1, range_map at 1; cbn [fst snd].
  all: unfold mbind at 1, M_bind at 1.
  all: rewrite (for_each_audit env _ (old_user_drift newState)) by apply diff_old_user_spec.
  all: match goal with |- context [audit_all ?e ?ds2 (set_ranges _ (audit_all ?e ?ds1 ?w0))] =>
         pose proof (audit_all_frame e ds1 w0) as (_ & A2 & _);
         pose proof (audit_all_frame e ds2 (set_ranges (S (ranges (audit_all e ds1 w0)))
                                              (audit_all e ds1 w0))) as (_ & B2 & _)
       end.
  all: unfold SaveUsers, mbind, M_bind, fs_call in *; cbn [fst snd].
  all: destruct (fs_fault env _); intros [= <- <-];
         cbn [groups_json set_fs_ops set_users_json set_ranges] in *; congruence.
Qed.

(** C6, as amended. With a valid configuration and a data directory that
    can be created: (1) when the fetch of the users fails, the command ends
    there - it returns on a context error and exits with status 1 on any
    other - with users.json, groups.json and the audit log as they were: the
    groups are not reconciled; (2) when the users were reconciled and the
    fetch of the groups fails, the command ends in the same way with
    groups.json as it was and users.json as the users' reconciliation left it. *)
Theorem reconciler_failure_isolation env fuel w :
  cfg_api_url env ≠ "" → cfg_api_key env ≠ "" →
  fs_fault env (fs_ops w) = None →
  let c := {| BaseURL := cfg_api_url env; APIKey := cfg_api_key env |} in
  let w0 := set_fs_ops (S (fs_ops w)) w in
  (∀ oldState e w1,
     LoadUsers w0 = (Ok oldState, w0) →
     GetUsers env fuel c w0 = (Err e, w1) →
     refreshCmd_Run env fuel w
     = (match e with ErrCtx _ => Ok tt | _ => Exit 1 end, w1) ∧
     users_json w1 = users_json w ∧ groups_json w1 = groups_json w ∧
     audit_log w1 = audit_log w) ∧
  (∀ w1 oldGroups e w2,
     reconcileUsers env fuel c w0 = (Ok tt, w1) →
     LoadGroups w1 = (Ok oldGroups, w1) →
     GetGroups env fuel c w1 = (Err e, w2) →
     refreshCmd_Run env fuel w
     = (match e with ErrCtx _ => Ok tt | _ => Exit 1 end, w2) ∧
     groups_json w2 = groups_json w ∧ users_json w2 = users_json w1).
Proof.
  intros Hurl Hkey Hfs c w0.
  assert (Hstart : ∀ k : Client → M unit,
    (client ← or_exit (NewClient (cfg_api_url env) (cfg_api_key env));
     or_exit (NewStore env (data_dir env)) ;; k client) w = k c w0).
  { intros k. unfold mbind at 1, M_bind at 1, or_exit at 1, NewClient.
    rewrite decide_False by (intros [|]; done). cbn [mret M_ret].
    unfold mbind at 1, M_bind at 1, or_exit at 1, NewStore, mbind at 1, M_bind at 1,
      fs_call at 1. cbn [fst snd]. rewrite Hfs. done. }
  split.
  - intros oldState e w1 Hload Hget.
    pose proof (GetUsers_frame _ _ _ _ _ _ Hget) as (Hd1 & Hd2 & _ & _ & Hd5 & _).
    unfold refreshCmd_Run. rewrite Hstart.
    unfold mbind at 1, M_bind at 1, try at 1, reconcileUsers, mbind at 1, M_bind at 1.
    rewrite Hload. unfold mbind at 1, M_bind at 1. rewrite Hget.
    split; [by destruct e|]. done.
  - intros w1 oldGroups e w2 Husers Hload Hget.
    pose proof (GetGroups_frame _ _ _ _ _ _ Hget) as (Hd1 & Hd2 & _).
    pose proof (reconcileUsers_groups _ _ _ _ _ _ Husers) as Hg.
    unfold refreshCmd_Run. rewrite Hstart.
    unfold mbind at 1, M_bind at 1, try at 1. rewrite Husers.
    unfold mbind at 1, M_bind at 1, try at 1, reconcileGroups, mbind at 1, M_bind at 1.
    rewrite Hload. unfold mbind at 1, M_bind at 1. rewrite Hget.
    split; [by destruct e|]. split; [|done]. rewrite Hd2, Hg. done.
Qed.

Lemma reconciler_failure_isolation_witness :
  (refreshCmd_Run env_users_down 5 world0).1 = Exit 1 ∧
  groups_json (refreshCmd_Run env_users_down 5 world0).2 = Holds groups0.
Proof.
  destruct (reconciler_failure_isolation env_users_down 5 world0) as [H _].
  - discriminate.
  - discriminate.
  - reflexivity.
  - destruct (H users0 (ErrExhausted 4 (Some (ErrHTTP "connection refused")))
                (GetUsers env_users_down 5 test_client
                   (set_fs_ops (S (fs_ops world0)) world0)).2)
      as (Hrun & _ & Hg & _).
    + reflexivity.
    + vm_compute. reflexivity.
    + rewrite Hrun. vm_compute. split; reflexivity.
Defined.

(** C6, as stated, fails when the users cannot be fetched: the command
    exits with status 1 after the four attempts at the users' first page;
    no request for the groups is made and groups.json keeps group "staff",
    although a reconciliation of the groups from that point would have
    fetched group "admins" and written it. *)
Lemma reconciler_failure_isolation_counterexample :
  (refreshCmd_Run env_users_down 5 world0).1 = Exit 1 ∧
  URL <$> (wire (refreshCmd_Run env_users_down 5 world0).2).*1
  = replicate 4 "https://scim.example.org/v2/Users?count=100&startIndex=1" ∧
  groups_json (refreshCmd_Run env_users_down 5 world0).2 = Holds groups0 ∧
  audit_log (refreshCmd_Run env_users_down 5 world0).2 = [] ∧
  groups_json (reconcileGroups env_users_down 5 test_client
                 (refreshCmd_Run env_users_down 5 world0).2).2
  = Holds {[ "admins" := {| g_SCIMID := "grp-2" |} ]}.
Proof. repeat split; vm_compute; reflexivity. Qed.
(** ** The cleanup command *)







Lemma range_order_elem env n V (m : gmap string V) k v :
  (k, v) ∈ range_order env n V m ↔ m !! k = Some v.
Proof. rewrite (range_order_perm env n V m). apply elem_of_map_to_list. Qed.





(** The run of the witness, computed: dora, past the grace period, is
    deleted remotely and leaves the mirror; against a server that answers
    503 she stays, after four attempts. *)
Example cleanup_run_ok :
  (cleanupUsersCmd_Run env_ok world_dora).1 = Ok tt ∧
  users_json (cleanupUsersCmd_Run env_ok world_dora).2 = Holds users0 ∧
  (URL <$> (wire (cleanupUsersCmd_Run env_ok world_dora).2).*1)
  = ["https://scim.example.org/v2/Users/jkl-000"].
Proof. repeat split; vm_compute; reflexivity. Qed.

Example cleanup_run_503 :
  (cleanupUsersCmd_Run env_503 world_dora).1 = Ok tt ∧
  users_json (cleanupUsersCmd_Run env_503 world_dora).2 = Holds users_dora ∧
  length (wire (cleanupUsersCmd_Run env_503 world_dora).2) = 4%nat.
Proof. repeat split; vm_compute; reflexivity. Qed.
(** * Further properties of the transport *)

Lemma after_retry_same_disk env a sent o w : same_disk w (after_retry env a sent o w).
Proof. by destruct o. Qed.

Lemma attempts_S env sent w k o :
  o = http_do env (length (wire w)) sent →
  ∀ w1, wire w1 = wire w ++ [(sent, o)] →
  attempts env sent w (S k) = (sent, o) :: attempts env sent w1 k.
Proof.
  intros -> w1 Hw1. unfold attempts. cbn [seq map].
  rewrite Nat.add_0_r. f_equal.
  rewrite <- seq_shift, map_map. apply map_ext. intros i.
  rewrite Hw1, length_app. cbn [length]. do 2 f_equal. lia.
Qed.

Lemma after_retries_spec env a sent k w :
  let w' := after_retries env a sent k w in
  polls w' = (polls w + k)%nat ∧
  wire w' = wire w ++ attempts env sent w k ∧
  length (slept w') = (length (slept w) + k)%nat ∧
  same_disk w w'.
Proof.
  revert a w. induction k as [|k IH]; intros a w; cbn [after_retries].
  - unfold attempts. cbn. rewrite app_nil_r, !Nat.add_0_r. by auto using same_disk_refl.
  - set (o := http_do env (length (wire w)) sent).
    set (w1 := after_retry env a sent o w).
    destruct (IH (S a) w1) as (Hp & Hw & Hs & Hd).
    assert (Hw1 : wire w1 = wire w ++ [(sent, o)]) by apply after_retry_wire.
    split_and!.
    + rewrite Hp. unfold w1. rewrite after_retry_polls. lia.
    + rewrite Hw, Hw1, <- app_assoc. f_equal.
      by rewrite (attempts_S env sent w k o eq_refl w1 Hw1).
    + rewrite Hs. unfold w1. rewrite after_retry_slept, length_app. cbn. lia.
    + eapply same_disk_trans; [apply after_retry_same_disk|exact Hd].
Qed.

Lemma retry_loop_retries env k n a c lastErr req w :
  (∀ i : nat, (i < k)%nat → ctx_err env (polls w + i) = None) →
  (∀ i : nat, (i < k)%nat →
     retryable (http_do env (length (wire w) + i) (cloneReq c req)) = true) →
  ∃ lastErr',
    retry_loop env (k + n) a c lastErr req w
    = retry_loop env n (a + k) c lastErr' req (after_retries env a (cloneReq c req) k w).
Proof.
  revert a lastErr w. induction k as [|k IH]; intros a lastErr w Hctx Hre.
  - exists lastErr. by rewrite Nat.add_0_r.
  - cbn [Nat.add after_retries].
    set (o := http_do env (length (wire w)) (cloneReq c req)).
    rewrite (retry_loop_retry env (k + n) a c lastErr req w o).
    + destruct (IH (S a) (Some (cause o)) (after_retry env a (cloneReq c req) o w))
        as [lastErr' Hrun].
      * intros i Hi. rewrite after_retry_polls.
        replace (S (polls w) + i)%nat with (polls w + S i)%nat by lia.
        apply Hctx. lia.
      * intros i Hi. rewrite after_retry_wire, length_app. cbn [length].
        replace (length (wire w) + 1 + i)%nat with (length (wire w) + S i)%nat by lia.
        apply Hre. lia.
      * exists lastErr'. rewrite Hrun.
        by replace (a + S k)%nat with (S a + k)%nat by lia.
    + specialize (Hctx 0%nat). rewrite Nat.add_0_r in Hctx. apply Hctx. lia.
    + done.
    + specialize (Hre 0%nat). rewrite Nat.add_0_r in Hre. apply Hre. lia.
Qed.

Lemma doRequestWithRetry_split env c req w (k : nat) :
  (k ≤ 4)%nat →
  doRequestWithRetry env c req w = retry_loop env (k + (4 - k)) 0 c None req w.
Proof.
  intros Hk. unfold doRequestWithRetry, maxRetries.
  by replace (k + (4 - k))%nat with 4%nat by lia.
Qed.

(** X1. Cancellation stops the retries. When the first [k] attempts of a
    call (k below four) end in retryable outcomes and the context is found
    cancelled at the poll that follows, doRequestWithRetry returns the
    context's error: exactly those [k] attempts are on the wire, each
    followed by its sleep, and no further request is made. *)
Theorem cancellation_stops_retries env c req w (k : nat) e :
  (k < 4)%nat →
  (∀ i : nat, (i < k)%nat → ctx_err env (polls w + i) = None) →
  (∀ i : nat, (i < k)%nat →
     retryable (http_do env (length (wire w) + i) (cloneReq c req)) = true) →
  ctx_err env (polls w + k) = Some e →
  ∃ w',
    doRequestWithRetry env c req w = (Err (ErrCtx e), w') ∧
    wire w' = wire w ++ attempts env (cloneReq c req) w k ∧
    length (slept w') = (length (slept w) + k)%nat ∧
    same_disk w w'.
Proof.
  intros Hk Hctx Hre Hstop.
  destruct (retry_loop_retries env k (4 - k) 0 c None req w Hctx Hre) as [lastErr' Hrun].
  rewrite (doRequestWithRetry_split env c req w k) by lia.
  rewrite Hrun.
  destruct (after_retries_spec env 0 (cloneReq c req) k w) as (Hp & Hw & Hs & Hd).
  set (wk := after_retries env 0 (cloneReq c req) k w) in *.
  destruct (4 - k)%nat as [|n] eqn:Hn; [lia|].
  cbn [retry_loop]. unfold mbind, M_bind, ctx_Err. rewrite Hp, Hstop.
  eexists. split; [reflexivity|]. by split_and!.
Qed.

(** X2. Transient failures are absorbed. When the first [k] attempts of a
    call (k below four) end in retryable outcomes and the next one is
    answered 2xx, doRequestWithRetry returns the body of that answer (empty
    for 204) after exactly [k + 1] attempts and [k] sleeps. *)
Theorem transient_failures_recover env c req w (k : nat) status body :
  (k < 4)%nat →
  (∀ i : nat, (i ≤ k)%nat → ctx_err env (polls w + i) = None) →
  (∀ i : nat, (i < k)%nat →
     retryable (http_do env (length (wire w) + i) (cloneReq c req)) = true) →
  http_do env (length (wire w) + k) (cloneReq c req) = Resp status body →
  200 ≤ status < 300 →
  ∃ w',
    doRequestWithRetry env c req w
    = (Ok (if decide (status = 204) then "" else body), w') ∧
    wire w' = wire w ++ attempts env (cloneReq c req) w (S k) ∧
    length (slept w') = (length (slept w) + k)%nat ∧
    same_disk w w'.
Proof.
  intros Hk Hctx Hre Hdo Hok.
  destruct (retry_loop_retries env k (4 - k) 0 c None req w) as [lastErr' Hrun];
    [intros i Hi; apply Hctx; lia | done |].
  rewrite (doRequestWithRetry_split env c req w k) by lia.
  rewrite Hrun.
  destruct (after_retries_spec env 0 (cloneReq c req) k w) as (Hp & Hw & Hs & Hd).
  set (wk := after_retries env 0 (cloneReq c req) k w) in *.
  destruct (4 - k)%nat as [|n] eqn:Hn; [lia|].
  cbn [retry_loop]. unfold mbind, M_bind, ctx_Err. rewrite Hp, (Hctx k) by lia.
  assert (Hdo' : http_do env (length (wire wk)) (cloneReq c req) = Resp status body).
  { rewrite Hw, length_app. unfold attempts. by rewrite length_map, length_seq. }
  unfold HTTPClient_Do. cbn [wire set_polls]. rewrite Hdo'.
  rewrite retryable_status_false by lia.
  unfold StatusNoContent.
  assert (Hwire : wire wk ++ [(cloneReq c req, Resp status body)]
                  = wire w ++ attempts env (cloneReq c req) w (S k)).
  { rewrite Hw, <- app_assoc. f_equal. unfold attempts.
    rewrite seq_S, map_app. cbn. by rewrite Hdo. }
  destruct Hd as (? & ? & ? & ? & ? & ? & ? & ?).
  destruct (decide (status = 204)) as [->|Hne].
  - eexists. split; [reflexivity|]. cbn. by split_and!.
  - rewrite bool_decide_eq_false_2 by done.
    rewrite bool_decide_eq_false_2 by lia.
    eexists. split; [reflexivity|]. cbn. by split_and!.
Qed.

Lemma backoff_ge a : Second ≤ backoff a.
Proof.
  unfold backoff, baseBackoff.
  assert (1 ≤ 2 ^ Z.of_nat a) by (apply Z.pow_le_mono_r with (b := 0); lia).
  unfold Second in *. nia.
Qed.

Lemma total_app ds ds' : total (ds ++ ds') = total ds + total ds'.
Proof. unfold total. induction ds as [|d ds IH]; cbn; lia. Qed.

Lemma retry_loop_bounds env n a c lastErr req w :
  ∃ r w' outs ds,
    retry_loop env n a c lastErr req w = (r, w') ∧
    wire w' = wire w ++ map (λ o, (cloneReq c req, o)) outs ∧
    slept w' = slept w ++ ds ∧
    (length outs ≤ n)%nat ∧ (length ds ≤ length outs)%nat ∧
    Forall (λ d, 0 < d) ds ∧
    total ds ≤ sleep_budget n a.
Proof.
  revert a lastErr w. induction n as [|n IH]; intros a lastErr w.
  - exists (Err (ErrExhausted (Z.of_nat maxRetries) lastErr)), w, [], [].
    cbn. rewrite !app_nil_r. split_and!; try done; lia.
  - cbn [retry_loop sleep_budget]. unfold mbind, M_bind, ctx_Err.
    pose proof (backoff_ge a) as Hb.
    assert (0 ≤ sleep_budget n (S a)) as Hnonneg.
    { clear. generalize (S a). induction n as [|n IHn]; intros b; cbn [sleep_budget]; [lia|].
      pose proof (backoff_pos b). specialize (IHn (S b)). unfold Millisecond. lia. }
    destruct (ctx_err env (polls w)) as [e|].
    { eexists _, _, [], []. split; [reflexivity|]. cbn. rewrite !app_nil_r.
      split_and!; try done; try lia. unfold Millisecond, Second in *. lia. }
    unfold HTTPClient_Do. cbn [wire set_polls].
    set (o := http_do env (length (wire w)) (cloneReq c req)).
    set (w1 := set_wire (wire w ++ [(cloneReq c req, o)]) (set_polls (S (polls w)) w)).
    assert (Hretry : ∀ d lastErr', 0 < d ≤ backoff a + 999 * Millisecond →
      ∃ r w' outs ds,
        retry_loop env n (S a) c lastErr' req (set_slept (slept w ++ [d]) w1) = (r, w') ∧
        wire w' = wire w ++ map (λ o, (cloneReq c req, o)) outs ∧
        slept w' = slept w ++ ds ∧
        (length outs ≤ S n)%nat ∧ (length ds ≤ length outs)%nat ∧
        Forall (λ d, 0 < d) ds ∧
        total ds ≤ backoff a + 999 * Millisecond + sleep_budget n (S a)).
    { intros d lastErr' Hd.
      destruct (IH (S a) lastErr' (set_slept (slept w ++ [d]) w1))
        as (r & w' & outs & ds & Hrun & Hw & Hs & Hlo & Hld & Hpos & Htot).
      exists r, w', (o :: outs), (d :: ds). split; [done|].
      cbn in Hw, Hs. rewrite <- !app_assoc in Hw, Hs.
      split_and!; try done; cbn [length]; try lia.
      - constructor; [lia|done].
      - change (total (d :: ds)) with (d + total ds). lia. }
    assert (Hstop : ∀ r : Res string,
      ∃ r' w' outs ds,
        (r, w1) = (r', w') ∧
        wire w' = wire w ++ map (λ o, (cloneReq c req, o)) outs ∧
        slept w' = slept w ++ ds ∧
        (length outs ≤ S n)%nat ∧ (length ds ≤ length outs)%nat ∧
        Forall (λ d, 0 < d) ds ∧
        total ds ≤ backoff a + 999 * Millisecond + sleep_budget n (S a)).
    { intros r. exists r, w1, [o], []. cbn. rewrite app_nil_r.
      split_and!; try done; try lia. unfold Millisecond, Second in *. lia. }
    assert (Hback : ∀ status,
      ∃ r w' outs ds,
        (jitter ← rand_Intn env 1000;
         time_Sleep (backoff a + jitter * Millisecond) ;;
         retry_loop env n (S a) c (Some (ErrStatus status)) req) w1 = (r, w') ∧
        wire w' = wire w ++ map (λ o, (cloneReq c req, o)) outs ∧
        slept w' = slept w ++ ds ∧
        (length outs ≤ S n)%nat ∧ (length ds ≤ length outs)%nat ∧
        Forall (λ d, 0 < d) ds ∧
        total ds ≤ backoff a + 999 * Millisecond + sleep_budget n (S a)).
    { intros status. unfold mbind, M_bind, rand_Intn, time_Sleep, modify.
      cbn [draws slept set_draws w1 set_wire set_polls].
      pose proof (Z.mod_pos_bound (rand_draw env (draws w)) 1000 ltac:(lia)) as Hj.
      destruct (IH (S a) (Some (ErrStatus status))
                  (set_slept (slept w ++ [backoff a + rand_draw env (draws w) `mod` 1000 * Millisecond])
                     (set_draws (S (draws w)) w1)))
        as (r & w' & outs & ds & Hrun & Hw & Hs & Hlo & Hld & Hpos & Htot).
      exists r, w', (o :: outs),
        (backoff a + rand_draw env (draws w) `mod` 1000 * Millisecond :: ds).
      split; [exact Hrun|].
      cbn in Hw, Hs. rewrite <- !app_assoc in Hw, Hs.
      split_and!; try done; cbn [length]; try lia.
      - constructor; [unfold Millisecond, Second in *; lia|done].
      - match goal with |- total (?d :: ds) ≤ _ => change (total (d :: ds)) with (d + total ds) end.
        unfold Millisecond in *. lia. }
    destruct o as [msg|status body|status msg] eqn:Ho.
    + unfold time_Sleep, modify. apply Hretry. unfold Millisecond, Second in *. lia.
    + destruct (retryable_status status); [apply Hback|].
      destruct (bool_decide (status = StatusNoContent)); [apply Hstop|].
      destruct (bool_decide (status < 200 ∨ 300 ≤ status)); apply Hstop.
    + destruct (retryable_status status); [apply Hback|apply Hstop].
Qed.

(** X3. Bounds of a call. Whatever the network, the cancellation signal
    and the random source do, doRequestWithRetry puts at most four attempts
    on the wire, sleeps at most once per attempt and for less than 19
    seconds in total, and every attempt is the caller's request with the
    headers Authorization (the bearer token of the client), Content-Type
    and Accept set. *)
Theorem transport_attempt_and_sleep_bounds env c req w :
  ∃ r w' outs ds,
    doRequestWithRetry env c req w = (r, w') ∧
    wire w' = wire w ++ map (λ o, (cloneReq c req, o)) outs ∧
    slept w' = slept w ++ ds ∧
    (length outs ≤ 4)%nat ∧ (length ds ≤ length outs)%nat ∧
    Forall (λ d, 0 < d) ds ∧
    total ds < 19 * Second ∧
    Method (cloneReq c req) = Method req ∧
    URL (cloneReq c req) = URL req ∧
    Body (cloneReq c req) = Body req ∧
    Header (cloneReq c req) !! "Authorization" = Some ("Bearer " +:+ APIKey c) ∧
    Header (cloneReq c req) !! "Content-Type" = Some "application/scim+json" ∧
    Header (cloneReq c req) !! "Accept" = Some "application/scim+json".
Proof.
  destruct (retry_loop_bounds env 4 0 c None req w)
    as (r & w' & outs & ds & Hrun & Hw & Hs & Hlo & Hld & Hpos & Htot).
  exists r, w', outs, ds. split; [exact Hrun|].
  split_and!; try done.
  - eapply Z.le_lt_trans; [exact Htot|]. vm_compute. reflexivity.
  - unfold cloneReq. cbn [Header].
    rewrite lookup_insert_ne by done. rewrite lookup_insert_ne by done.
    by rewrite lookup_insert_eq.
  - unfold cloneReq. cbn [Header].
    rewrite lookup_insert_ne by done. by rewrite lookup_insert_eq.
  - unfold cloneReq. cbn [Header]. by rewrite lookup_insert_eq.
Qed.
(** * Pagination *)

Lemma doRequestWithRetry_answered env c req w status body :
  ctx_err env (polls w) = None →
  http_do env (length (wire w)) (cloneReq c req) = Resp status body →
  200 ≤ status < 300 → status ≠ 204 →
  doRequestWithRetry env c req w
  = (Ok body, set_wire (wire w ++ [(cloneReq c req, Resp status body)])
                (set_polls (S (polls w)) w)).
Proof.
  intros Hctx Hdo Hok H204.
  unfold doRequestWithRetry, maxRetries. cbn [retry_loop].
  unfold mbind, M_bind, ctx_Err. rewrite Hctx.
  unfold HTTPClient_Do. cbn [wire set_polls]. rewrite Hdo.
  rewrite retryable_status_false by lia.
  unfold StatusNoContent.
  rewrite bool_decide_eq_false_2 by done.
  by rewrite bool_decide_eq_false_2 by lia.
Qed.

Lemma GetUsers_loop_pages env c pages :
  ∀ fuel acc start w,
    served env c "Users" (length (wire w)) (polls w) start pages →
    paging (λ p, length (page_users env p)) (length acc) pages →
    (length pages ≤ fuel)%nat →
    ∃ w',
      GetUsers_loop env fuel c acc start w
      = (Ok (acc ++ (pages ≫= page_users env)), w') ∧
      (wire w').*1 = (wire w).*1 ++
        ((λ s, cloneReq c (page_request c "Users" s)) <$> page_starts start pages) ∧
      same_disk w w'.
Proof.
  induction pages as [|p ps IH]; intros fuel acc start w Hserved Hpaging Hfuel;
    [done|].
  destruct fuel as [|fuel]; [cbn in Hfuel; lia|].
  destruct Hserved as (Hctx & Hnew & (status & body & Hdo & Hok & H204 & Hunm) & Hrest).
  cbn [GetUsers_loop]. unfold mbind at 1, M_bind at 1, NewRequest. rewrite Hnew.
  unfold mret at 1, M_ret at 1. unfold mbind at 1, M_bind at 1.
  change {| Method := "GET"; URL := page_url c "Users" start 100; Header := ∅; Body := None |}
    with (page_request c "Users" start).
  rewrite (doRequestWithRetry_answered env c _ w status body Hctx Hdo Hok H204).
  rewrite Hunm.
  set (w1 := set_wire _ _).
  assert (Hw1 : (wire w1).*1 = (wire w).*1 ++ [cloneReq c (page_request c "Users" start)]).
  { unfold w1. cbn. by rewrite fmap_app. }
  assert (Hd1 : same_disk w w1) by (unfold w1; by split_and!).
  cbn [page_starts fmap list_fmap].
  rewrite bind_cons.
  destruct ps as [|p' ps'].
  - cbn [mbind list_bind]. rewrite !app_nil_r. cbn [paging] in Hpaging.
    destruct (decide (length (Resources p) = 0%nat)) as [Hz|Hnz].
    + apply length_zero_iff_nil in Hz. unfold page_users. rewrite Hz. cbn.
      rewrite app_nil_r. by exists w1.
    + destruct Hpaging as [Hnil|Htot]; [by rewrite Hnil in Hnz|].
      rewrite bool_decide_eq_true_2.
      * by exists w1.
      * unfold page_users in Htot. by rewrite length_app.
  - cbn [paging] in Hpaging. destruct Hpaging as (Hne & Hlt & Hpaging).
    rewrite decide_False by (by intros ?%length_zero_iff_nil).
    rewrite bool_decide_eq_false_2.
    2:{ unfold page_users in Hlt. rewrite length_app. lia. }
    destruct (IH fuel (acc ++ omap (decode_SCIMUser env) (Resources p))
                (start + Z.of_nat (length (Resources p))) w1) as (w' & Hrun & Hw & Hd).
    + unfold w1. cbn [wire polls set_wire set_polls]. rewrite length_app. cbn [length].
      by rewrite Nat.add_1_r.
    + by rewrite length_app.
    + cbn in Hfuel |- *. lia.
    + exists w'. split; [by rewrite Hrun, <- app_assoc|]. split.
      * rewrite Hw, Hw1, <- app_assoc. done.
      * by eapply same_disk_trans.
Qed.

(** X4. Pagination of GetUsers. When the server answers every page request
    at the first attempt, GetUsers asks for pages of 100 beginning at start
    index 1, moves the start index on by the number of resources of each
    page (decodable or not), stops at the first page that is empty or that
    brings it to the totalResults the page reports, and returns the users it
    could decode from all pages, in order; the data directory is untouched. *)
Theorem GetUsers_pagination env c fuel w pages :
  served env c "Users" (length (wire w)) (polls w) 1 pages →
  paging (λ p, length (page_users env p)) 0 pages →
  (length pages ≤ fuel)%nat →
  ∃ w',
    GetUsers env fuel c w = (Ok (pages ≫= page_users env), w') ∧
    (wire w').*1 = (wire w).*1 ++
      ((λ s, cloneReq c (page_request c "Users" s)) <$> page_starts 1 pages) ∧
    same_disk w w'.
Proof.
  intros Hserved Hpaging Hfuel.
  destruct (GetUsers_loop_pages env c pages fuel [] 1 w Hserved Hpaging Hfuel)
    as (w' & Hrun & Hw & Hd).
  by exists w'.
Qed.

Lemma GetGroups_loop_pages env c pages :
  ∀ fuel acc start w,
    served env c "Groups" (length (wire w)) (polls w) start pages →
    paging (λ p, length (page_groups env p)) (length acc) pages →
    (length pages ≤ fuel)%nat →
    ∃ w',
      GetGroups_loop env fuel c acc start w
      = (Ok (acc ++ (pages ≫= page_groups env)), w') ∧
      (wire w').*1 = (wire w).*1 ++
        ((λ s, cloneReq c (page_request c "Groups" s)) <$> page_starts start pages) ∧
      same_disk w w'.
Proof.
  induction pages as [|p ps IH]; intros fuel acc start w Hserved Hpaging Hfuel;
    [done|].
  destruct fuel as [|fuel]; [cbn in Hfuel; lia|].
  destruct Hserved as (Hctx & Hnew & (status & body & Hdo & Hok & H204 & Hunm) & Hrest).
  cbn [GetGroups_loop]. unfold mbind at 1, M_bind at 1, NewRequest. rewrite Hnew.
  unfold mret at 1, M_ret at 1. unfold mbind at 1, M_bind at 1.
  change {| Method := "GET"; URL := page_url c "Groups" start 100; Header := ∅; Body := None |}
    with (page_request c "Groups" start).
  rewrite (doRequestWithRetry_answered env c _ w status body Hctx Hdo Hok H204).
  rewrite Hunm.
  set (w1 := set_wire _ _).
  assert (Hw1 : (wire w1).*1 = (wire w).*1 ++ [cloneReq c (page_request c "Groups" start)]).
  { unfold w1. cbn. by rewrite fmap_app. }
  assert (Hd1 : same_disk w w1) by (unfold w1; by split_and!).
  cbn [page_starts fmap list_fmap].
  rewrite bind_cons.
  destruct ps as [|p' ps'].
  - cbn [mbind list_bind]. rewrite !app_nil_r. cbn [paging] in Hpaging.
    destruct (decide (length (Resources p) = 0%nat)) as [Hz|Hnz].
    + apply length_zero_iff_nil in Hz. unfold page_groups. rewrite Hz. cbn.
      rewrite app_nil_r. by exists w1.
    + destruct Hpaging as [Hnil|Htot]; [by rewrite Hnil in Hnz|].
      rewrite bool_decide_eq_true_2.
      * by exists w1.
      * unfold page_groups in Htot. by rewrite length_app.
  - cbn [paging] in Hpaging. destruct Hpaging as (Hne & Hlt & Hpaging).
    rewrite decide_False by (by intros ?%length_zero_iff_nil).
    rewrite bool_decide_eq_false_2.
    2:{ unfold page_groups in Hlt. rewrite length_app. lia. }
    destruct (IH fuel (acc ++ omap (decode_SCIMGroup env) (Resources p))
                (start + Z.of_nat (length (Resources p))) w1) as (w' & Hrun & Hw & Hd).
    + unfold w1. cbn [wire polls set_wire set_polls]. rewrite length_app. cbn [length].
      by rewrite Nat.add_1_r.
    + by rewrite length_app.
    + cbn in Hfuel |- *. lia.
    + exists w'. split; [by rewrite Hrun, <- app_assoc|]. split.
      * rewrite Hw, Hw1, <- app_assoc. done.
      * by eapply same_disk_trans.
Qed.

(** X5. Pagination of GetGroups: the same loop over the Groups collection.
    With every page request answered at the first attempt, the start index
    begins at 1 and advances by the resources of each page, the loop stops
    at the first empty page or once the groups held reach the reported
    totalResults, and the decodable groups of all pages are returned in
    order. *)
Theorem GetGroups_pagination env c fuel w pages :
  served env c "Groups" (length (wire w)) (polls w) 1 pages →
  paging (λ p, length (page_groups env p)) 0 pages →
  (length pages ≤ fuel)%nat →
  ∃ w',
    GetGroups env fuel c w = (Ok (pages ≫= page_groups env), w') ∧
    (wire w').*1 = (wire w).*1 ++
      ((λ s, cloneReq c (page_request c "Groups" s)) <$> page_starts 1 pages) ∧
    same_disk w w'.
Proof.
  intros Hserved Hpaging Hfuel.
  destruct (GetGroups_loop_pages env c pages fuel [] 1 w Hserved Hpaging Hfuel)
    as (w' & Hrun & Hw & Hd).
  by exists w'.
Qed.

(** X6. No page limit. The loop of GetUsers is bounded by the server alone:
    against a server that answers every request with the same non-empty page
    from which no user can be decoded and that reports a positive
    totalResults, the client never holds enough users to stop, and whatever
    number of pages it is allowed it asks for all of them without returning. *)
Theorem GetUsers_no_page_limit env c fuel w body p :
  (∀ n, ctx_err env n = None) →
  (∀ url, new_request_err env "GET" url = None) →
  (∀ n req, http_do env n req = Resp 200 body) →
  unmarshal_ListResponse env body = Some p →
  Resources p ≠ [] → page_users env p = [] → 0 < TotalResults p →
  ∃ w',
    GetUsers env fuel c w = (OutOfFuel, w') ∧
    length (wire w') = (length (wire w) + fuel)%nat.
Proof.
  intros Hctx Hnew Hdo Hunm Hne Hnone Htot. unfold GetUsers.
  generalize 1 as start. revert w.
  induction fuel as [|fuel IH]; intros w start.
  - exists w. split; [done|]. lia.
  - cbn [GetUsers_loop]. unfold mbind at 1, M_bind at 1, NewRequest. rewrite Hnew.
    unfold mret at 1, M_ret at 1. unfold mbind at 1, M_bind at 1.
    rewrite (doRequestWithRetry_answered env c _ w 200 body) by (done || lia).
    rewrite Hunm.
    rewrite decide_False by (by intros ?%length_zero_iff_nil).
    unfold page_users in Hnone. rewrite Hnone. cbn [app length].
    rewrite bool_decide_eq_false_2 by lia.
    match goal with |- context [GetUsers_loop env fuel c [] ?s ?w1] =>
      destruct (IH w1 s) as (w' & Hrun & Hlen) end.
    exists w'. split; [done|]. rewrite Hlen. cbn. rewrite length_app. cbn. lia.
Qed.
(** * The mirror built from a snapshot *)

Lemma build_user_state_None scimUsers acc :
  build_user_state scimUsers acc = None ↔
  ∃ u, u ∈ scimUsers ∧ su_UserName u ≠ "" ∧ su_Emails u = [].
Proof.
  revert acc. induction scimUsers as [|u rest IH]; intros acc; cbn [build_user_state].
  - split; [done|]. intros (u & Hin & _). by apply elem_of_nil in Hin.
  - destruct (decide (su_UserName u = "")) as [He|Hn].
    + rewrite IH. split.
      * intros (u' & Hin & H1 & H2). exists u'. split; [by apply list_elem_of_further|done].
      * intros (u' & Hin & H1 & H2). apply elem_of_cons in Hin as [->|Hin]; [done|].
        by exists u'.
    + destruct (su_Emails u) as [|email emails] eqn:Hem.
      * split; [|done]. intros _. exists u. split; [apply list_elem_of_here|done].
      * rewrite IH. split.
        -- intros (u' & Hin & H1 & H2). exists u'.
           split; [by apply list_elem_of_further|done].
        -- intros (u' & Hin & H1 & H2). apply elem_of_cons in Hin as [->|Hin];
             [by rewrite Hem in H2|]. by exists u'.
Qed.

Lemma build_user_state_lookup scimUsers acc newState name :
  build_user_state scimUsers acc = Some newState →
  newState !! name
  = match last (users_named name scimUsers) with
    | Some u => if decide (name = "") then acc !! name else user_record_of u
    | None => acc !! name
    end.
Proof.
  revert acc. induction scimUsers as [|u rest IH]; intros acc; cbn [build_user_state].
  - by intros [= ->].
  - unfold users_named in *. rewrite filter_cons.
    destruct (decide (su_UserName u = "")) as [He|Hn].
    + intros Hb. rewrite (IH _ Hb).
      destruct (decide (su_UserName u = name)) as [<-|Hne]; [|done].
      rewrite last_cons.
      destruct (last (filter _ rest)); by destruct (decide (su_UserName u = "")).
    + destruct (su_Emails u) as [|email emails] eqn:Hem; [done|].
      intros Hb. rewrite (IH _ Hb).
      destruct (decide (su_UserName u = name)) as [<-|Hne].
      * rewrite last_cons.
        destruct (last (filter _ rest)); destruct (decide (su_UserName u = "")); try done.
        rewrite lookup_insert_eq. unfold user_record_of. by rewrite Hem.
      * destruct (last (filter _ rest)); by rewrite lookup_insert_ne.
Qed.

(** X7. The mirror built from a snapshot. The map reconcileUsers builds
    from the fetched list has no entry for the empty userName and, under
    every other name, the record of the last user of the list that carries
    it: SCIM id, first e-mail address, status by the active flag, name,
    title and organization, and no deactivation stamp. *)
Theorem snapshot_last_user_wins scimUsers newState name :
  build_user_state scimUsers ∅ = Some newState →
  newState !! name
  = if decide (name = "") then None
    else last (users_named name scimUsers) ≫= user_record_of.
Proof.
  intros Hb. rewrite (build_user_state_lookup _ _ _ name Hb), lookup_empty.
  destruct (last (users_named name scimUsers)); by destruct (decide (name = "")).
Qed.

(** X8. A user without e-mail address stops the refresh. Building the
    mirror fails exactly when some fetched user has a userName but no e-mail
    address; reconcileUsers then ends in the run-time panic of the index
    expression, after the fetch and before any drift is reported or
    users.json is written. *)
Theorem reconcile_panics_without_email env fuel c w scimUsers w1 u :
  (∀ msg, users_json w ≠ Corrupt msg) →
  GetUsers env fuel c w = (Ok scimUsers, w1) →
  u ∈ scimUsers → su_UserName u ≠ "" → su_Emails u = [] →
  build_user_state scimUsers ∅ = None ∧
  ∃ msg, reconcileUsers env fuel c w = (Panic msg, w1) ∧
         users_json w1 = users_json w ∧ audit_log w1 = audit_log w.
Proof.
  intros Hfile Hget Hin Hname Hem.
  assert (Hnone : build_user_state scimUsers ∅ = None).
  { apply build_user_state_None. by exists u. }
  split; [done|].
  pose proof (GetUsers_frame env fuel c w _ _ Hget) as (Hu & _ & _ & _ & Ha & _).
  exists "index out of range [0] with length 0".
  unfold reconcileUsers. unfold mbind at 1, M_bind at 1, LoadUsers.
  destruct (users_json w) as [|msg|users] eqn:Hf; [| by destruct (Hfile msg) |].
  - unfold mbind at 1, M_bind at 1. by rewrite Hget, Hnone.
  - unfold mbind at 1, M_bind at 1. by rewrite Hget, Hnone.
Qed.

Lemma build_group_state_lookup scimGroups acc name :
  build_group_state scimGroups acc !! name
  = match last (groups_named name scimGroups) with
    | Some g => if decide (name = "") then acc !! name else Some {| g_SCIMID := sg_ID g |}
    | None => acc !! name
    end.
Proof.
  revert acc. induction scimGroups as [|g rest IH]; intros acc; cbn [build_group_state].
  - done.
  - unfold groups_named in *. rewrite filter_cons.
    destruct (decide (sg_DisplayName g = "")) as [He|Hn].
    + rewrite IH.
      destruct (decide (sg_DisplayName g = name)) as [<-|Hne]; [|done].
      rewrite last_cons.
      destruct (last (filter _ rest)); by destruct (decide (sg_DisplayName g = "")).
    + rewrite IH.
      destruct (decide (sg_DisplayName g = name)) as [<-|Hne].
      * rewrite last_cons.
        destruct (last (filter _ rest)); destruct (decide (sg_DisplayName g = "")); try done.
        by rewrite lookup_insert_eq.
      * destruct (last (filter _ rest)); by rewrite lookup_insert_ne.
Qed.

(** X9. The group mirror built from a snapshot. The map reconcileGroups
    builds has no entry for the empty displayName and, under every other
    name, the SCIM id of the last group of the fetched list that carries
    it. *)
Theorem snapshot_last_group_wins scimGroups name :
  build_group_state scimGroups ∅ !! name
  = if decide (name = "") then None
    else (λ g, {| g_SCIMID := sg_ID g |}) <$> last (groups_named name scimGroups).
Proof.
  rewrite build_group_state_lookup, lookup_empty.
  destruct (last (groups_named name scimGroups)); by destruct (decide (name = "")).
Qed.
(** * Further properties of the batch processor *)

(** X10. The request of an update task. For a target of the mirror and a
    data map, handleUpdateTask sends nothing when the map is empty and
    otherwise only attempts of one PATCH to /Users/<SCIM id of the target>,
    whose envelope holds one "replace" operation per attribute of the map,
    with the attribute name as path and the attribute value as value (none
    for a JSON null), in the order in which the map was visited. *)
Theorem update_sends_one_replace_per_attribute env c users task record m w :
  users !! t_Target task = Some record →
  t_Data task = VMap m →
  ∃ users' err w' kvs outs,
    handleUpdateTask env c users task w = (Ok (users', err), w') ∧
    kvs ≡ₚ map_to_list m ∧
    wire w' = wire w ++ user_patch_attempts c record (map replace_op kvs) outs ∧
    (m = ∅ → outs = [] ∧ err = Some (ErrNoOperations (t_Target task))).
Proof.
  intros Hu Hdata. unfold handleUpdateTask. rewrite Hu, Hdata.
  unfold mbind at 1, M_bind at 1, range_map at 1. cbn [fst snd].
  set (kvs := range_order env (ranges w) GoValue m).
  assert (Hperm : kvs ≡ₚ map_to_list m) by apply range_order_perm.
  change (map (λ kv : string * GoValue,
                 {| p_Op := "replace"; p_Path := kv.1; p_Value := iface kv.2 |}) kvs)
    with (map replace_op kvs).
  rewrite length_map.
  destruct (decide (length kvs = 0%nat)) as [Hz|Hnz].
  { eexists users, _, _, kvs, []. split; [done|]. split; [done|].
    cbn. rewrite app_nil_r. done. }
  assert (Hm : m ≠ ∅) by (by rewrite <- (range_order_nil env (ranges w))).
  unfold mbind at 1, M_bind at 1.
  run_client r w1 outs Hrun Hd Hw Hr.
  cbn [wire set_ranges] in Hw.
  destruct r as [e|[]].
  - eexists users, (Some e), w1, kvs, outs. by split_and!.
  - unfold mbind at 1, M_bind at 1, range_map at 1. cbn [fst snd].
    rewrite fold_update_field. cbv beta iota. unfold mbind, M_bind.
    match goal with |- context [try (SaveUsers env ?u) ?w0] =>
      destruct (try_SaveUsers env u w0)
        as (r' & w2 & -> & Hs1 & Hs2 & Hs3 & Hs4 & Hs5 & Hs6 & Hs7)
    end.
    cbn [wire set_ranges] in Hs5.
    eexists _, (err_of r'), w2, kvs, outs. split; [done|]. split; [done|].
    split; [by rewrite Hs5, Hw|done].
Qed.

(** X11. Renaming moves the record. When an update task that carries a new
    userName (a non-empty string other than the target) succeeds, the
    target's key is gone from the mirror and its record - with the title of
    the task, if it has one, and the same SCIM id - is stored under the new
    name, replacing whatever record was there; every other key is
    unchanged. *)
Theorem rename_moves_the_record env c users task record m new w users' w' :
  users !! t_Target task = Some record →
  t_Data task = VMap m →
  m !! "userName" = Some (VString new) →
  new ≠ "" → new ≠ t_Target task →
  handleUpdateTask env c users task w = (Ok (users', None), w') →
  users' !! t_Target task = None ∧
  users' !! new = Some (updated_record m record) ∧
  u_SCIMID (updated_record m record) = u_SCIMID record ∧
  (∀ k, k ≠ t_Target task → k ≠ new → users' !! k = users !! k).
Proof.
  intros Hu Hdata Hname Hne Hnt Hrun.
  destruct (handleUpdateTask_spec env c users task w)
    as (users'' & err & w'' & sent & Hrun' & _ & _ & Hcase).
  rewrite Hrun in Hrun'. injection Hrun' as <- <- <-.
  rewrite Hu, Hdata in Hcase.
  destruct (decide (m = ∅)) as [->|Hm]; [by rewrite lookup_empty in Hname|].
  destruct Hcase as [[[_ Herr]| ->] _]; [done|].
  assert (Hkey : updated_key m (t_Target task) = new).
  { unfold updated_key, updated_name. rewrite Hname. by rewrite decide_True. }
  rewrite Hkey. split_and!.
  - rewrite lookup_insert_ne by done. apply lookup_delete_eq.
  - apply lookup_insert_eq.
  - unfold updated_record. by repeat case_match.
  - intros k Hk1 Hk2. rewrite lookup_insert_ne by done. by rewrite lookup_delete_ne.
Qed.

Lemma marshal_add_member_op user :
  marshal_SCIMPatchOp (add_member_op user)
  = <["value" := VSlice [VMap {[ "value" := VString (u_SCIMID user) ]}]]>
      (<["path" := VString "members"]> {[ "op" := VString "add" ]}).
Proof. done. Qed.

(** X12. The member a group gains. Every request an add-to-group task puts
    on the wire is a PATCH to /Groups/<SCIM id of the group> whose envelope
    holds one operation with op "add", path "members" and as value the list
    of the one object {"value": <SCIM id of the user>}, and no other key. *)
Theorem membership_add_construction env c users groups task user groupName group w :
  users !! t_Target task = Some user →
  t_Data task = VString groupName →
  groups !! groupName = Some group →
  ∃ err w' sent,
    handleGroupMembershipTask env c users groups task "add" w = (Ok err, w') ∧
    wire w' = wire w ++ sent ∧
    ∀ req o, (req, o) ∈ sent →
      Method req = "PATCH" ∧
      URL req = BaseURL c +:+ "/Groups/" +:+ g_SCIMID group ∧
      ∃ operation,
        Body req = Some (VMap
          (<["schemas" := VSlice [VString "urn:ietf:params:scim:api:messages:2.0:PatchOp"]]>
          (<["Operations" := VSlice [VMap operation]]> ∅))) ∧
        operation !! "op" = Some (VString "add") ∧
        operation !! "path" = Some (VString "members") ∧
        operation !! "value"
        = Some (VSlice [VMap {[ "value" := VString (u_SCIMID user) ]}]) ∧
        dom operation = {[ "op"; "path"; "value" ]}.
Proof.
  intros Hu Hdata Hg.
  destruct (handleGroupMembershipTask_spec env c users groups task "add" w)
    as (err & w' & sent & Hrun & _ & Hw & Hcase).
  exists err, w', sent. split; [done|]. split; [done|].
  rewrite Hu, Hdata, Hg in Hcase. rewrite decide_True in Hcase by done.
  destruct Hcase as [[outs ->] _].
  intros req o Hin. unfold group_patch_attempts in Hin.
  apply list_elem_of_fmap in Hin as (o' & [= -> ->] & _).
  split; [done|]. split; [done|].
  exists (marshal_SCIMPatchOp (add_member_op user)).
  split; [done|]. rewrite marshal_add_member_op.
  split_and!.
  - rewrite lookup_insert_ne by done. rewrite lookup_insert_ne by done.
    by rewrite lookup_singleton_eq.
  - rewrite lookup_insert_ne by done. by rewrite lookup_insert_eq.
  - by rewrite lookup_insert_eq.
  - rewrite !dom_insert_L, dom_singleton_L. set_solver.
Qed.

(** X13. A checkpoint every fifth task. Handling one pending task always
    returns, with the count of tasks processed raised by one; the checkpoint
    file is left as it was unless the new count is a multiple of five, and
    then, on a disk without faults, it holds the queue with the task's new
    status. *)
Theorem checkpoint_every_fifth_task env c groups i task st w :
  ∃ st' w',
    process_task env c groups i task st w = (Ok st', w') ∧
    tasksProcessed st' = tasksProcessed st + 1 ∧
    (tasksProcessed st' `mod` 5 ≠ 0 → job_queue_json w' = job_queue_json w) ∧
    (tasksProcessed st' `mod` 5 = 0 → (∀ n, fs_fault env n = None) →
       job_queue_json w' = Holds (jobQueue st')).
Proof.
  destruct (dispatch_spec env c groups (userStore st) task w)
    as (users' & err & w1 & sent & Hrun & (_ & Hq & _) & _).
  unfold process_task, mbind at 1, M_bind at 1. rewrite Hrun. cbv beta iota.
  assert (Haudit : ∃ level details args,
    (match err with
     | Some err0 => logAndAudit env "ProcessBatch" (t_Target task) "error" "Task failed"
                      ["error"; Error_msg err0]
     | None => logAndAudit env "ProcessBatch" (t_Target task) "info"
                 ("Task '" +:+ t_Type task +:+ "' completed successfully.") []
     end) w1 = (Ok tt, after_audit env "ProcessBatch" (t_Target task) level details args w1)).
  { destruct err; eexists _, _, _; by apply logAndAudit_spec. }
  destruct Haudit as (level & details & args & Hlog).
  unfold mbind at 1, M_bind at 1. rewrite Hlog.
  pose proof (after_audit_frame env "ProcessBatch" (t_Target task) level details args w1)
    as (_ & _ & Ha3 & _).
  set (wa := after_audit env "ProcessBatch" (t_Target task) level details args w1) in *.
  match goal with |- context [bool_decide (tasksProcessed ?s `mod` 5 = 0)] =>
    set (st' := s) end.
  destruct (bool_decide (tasksProcessed st' `mod` 5 = 0)) eqn:Hmod.
  - apply bool_decide_eq_true_1 in Hmod.
    destruct (saveQueue_spec env (jobQueue st') wa)
      as (w' & Hsave & _ & _ & _ & _ & _ & _ & _ & _ & Hs).
    unfold mbind, M_bind. rewrite Hsave. exists st', w'.
    split; [done|]. split; [done|]. split; [done|].
    intros _ Hfs. by apply Hs.
  - apply bool_decide_eq_false_1 in Hmod.
    exists st', wa. unfold mbind, M_bind.
    split; [done|]. split; [done|]. split; [|done].
    intros _. congruence.
Qed.
(** * Further properties of the commands *)

(** X14. Shutdown before the first task. When process-batch starts without
    a checkpoint on a non-empty source file and the shutdown signal has
    arrived by the time the first task is reached, the command returns
    normally without sending a request: the checkpoint it leaves holds every
    task of the source with status "pending" (whatever status the source
    gave), the mirror and the audit log are untouched and nothing is
    archived. *)
Theorem shutdown_before_first_task env w source e :
  configured env →
  (∀ n, fs_fault env n = None) →
  job_queue_json w = Missing →
  flag_from_file env = Holds source →
  source ≠ [] →
  (∀ msg, users_json w ≠ Corrupt msg) →
  (∀ msg, groups_json w ≠ Corrupt msg) →
  ctx_err env (polls w) = Some e →
  ∃ w',
    processBatchCmd_Run env w = (Ok tt, w') ∧
    job_queue_json w' = Holds (map (set_Status "pending") source) ∧
    wire w' = wire w ∧
    users_json w' = users_json w ∧ groups_json w' = groups_json w ∧
    audit_log w' = audit_log w ∧ archived w' = archived w.
Proof.
  intros [Hurl Hkey] Hfs Hq Hsrc Hne Hu Hg Hctx.
  unfold processBatchCmd_Run, processBatchCmd_tasks, mbind, M_bind.
  unfold prepare_queue. rewrite Hq, Hsrc.
  unfold or_exit, NewClient.
  rewrite decide_False by (intros [?|?]; done). cbn [mret M_ret].
  unfold NewStore, mbind, M_bind, fs_call. cbn [fst snd]. rewrite Hfs. cbn [mret M_ret].
  destruct source as [|t rest]; [done|]. cbn [map length process_loop].
  unfold LoadUsers. simpl.
  destruct (users_json w) as [|msg|users] eqn:Hue; [|by destruct (Hu msg)|].
  all: unfold LoadGroups; simpl.
  all: destruct (groups_json w) as [|msg'|groups] eqn:Hge; [|by destruct (Hg msg')|].
  all: unfold ctx_Err, mbind, M_bind; simpl; rewrite Hctx.
  all: unfold saveQueue, mbind, M_bind, fs_call, modify; simpl; rewrite Hfs; simpl.
  all: eexists; split; [reflexivity|]; simpl; by rewrite ?Hue, ?Hge.
Qed.

(** X15. What logAndAudit does with a level. At level "fatal" the process
    exits with status 1 and nothing is appended to the audit log; at every
    other level the call returns normally whether or not the append went
    through, the event it appends carries the time of the call and the
    level as its status, and the mirror, the checkpoint and the wire are
    untouched. *)
Theorem fatal_events_are_not_audited env useCase target level details args w :
  ∃ r w',
    logAndAudit env useCase target level details args w = (r, w') ∧
    (level = "fatal" → r = Exit 1 ∧ w' = w) ∧
    (level ≠ "fatal" →
       r = Ok tt ∧
       users_json w' = users_json w ∧ groups_json w' = groups_json w ∧
       job_queue_json w' = job_queue_json w ∧ wire w' = wire w ∧
       (audit_log w' = audit_log w ++
          [{| a_Timestamp := clock env (ticks w); a_UseCase := useCase;
              a_Target := target; a_Status := level;
              a_Details := details +:+ " (" +:+ fmt_v_slice args +:+ ")" |}]
        ∨ fs_fault env (fs_ops w) ≠ None ∧ audit_log w' = audit_log w)).
Proof.
  destruct (decide (level = "fatal")) as [->|Hlevel].
  - exists (Exit 1), w. split; [done|]. split; [done|]. by intros [].
  - eexists _, _. split; [by apply logAndAudit_spec|]. split; [done|]. intros _.
    pose proof (after_audit_frame env useCase target level details args w)
      as (H1 & H2 & H3 & H4 & H5 & _).
    split; [done|]. split_and!; try done.
    unfold after_audit. destruct (fs_fault env (fs_ops w)) eqn:Hf.
    + right. by split.
    + left. done.
Qed.

Lemma collect_none cutoffTime kvs acc :
  (∀ kv, kv ∈ kvs → past_grace cutoffTime kv.2 = false) →
  fold_left (collect_step cutoffTime) kvs acc = acc.
Proof.
  revert acc. induction kvs as [|kv kvs IH]; intros acc Hall; [done|].
  cbn [fold_left]. unfold collect_step at 2.
  rewrite (Hall kv) by apply list_elem_of_here.
  apply IH. intros kv' Hin. apply Hall. by apply list_elem_of_further.
Qed.

(** X16. Nothing due, nothing done. When no record of the mirror carries a
    deactivation stamp older than seven days at the time of the run,
    cleanup-users returns without sending a request, without appending to
    the audit log and without writing users.json: creating the data
    directory is the only call it makes on the file system. *)
Theorem cleanup_nothing_due env w users :
  configured env →
  fs_fault env (fs_ops w) = None →
  users_json w = Holds users →
  (∀ k r t, users !! k = Some r → u_DeactivationTimestamp r = Some t →
     clock env (ticks w) - 7 * 24 * Hour ≤ t) →
  ∃ w',
    cleanupUsersCmd_Run env w = (Ok tt, w') ∧
    wire w' = wire w ∧ audit_log w' = audit_log w ∧
    users_json w' = users_json w ∧ fs_ops w' = S (fs_ops w).
Proof.
  intros [Hurl Hkey] Hfs Hfile Hfresh.
  unfold cleanupUsersCmd_Run, mbind, M_bind.
  unfold or_exit, NewClient.
  rewrite decide_False by (intros [?|?]; done). cbn [mret M_ret].
  unfold NewStore, mbind, M_bind, fs_call. cbn [fst snd]. rewrite Hfs. cbn [mret M_ret].
  unfold LoadUsers. cbn [users_json set_fs_ops]. rewrite Hfile.
  unfold time_Now, range_map. cbn [ticks ranges set_fs_ops set_ticks fst snd].
  rewrite collect_none.
  - rewrite decide_True by apply map_size_empty.
    eexists. split; [reflexivity|]. by cbn.
  - intros [k r] Hin. apply range_order_elem in Hin. cbn [snd].
    unfold past_grace. destruct (u_DeactivationTimestamp r) as [t|] eqn:Ht; [|done].
    apply bool_decide_eq_false_2. specialize (Hfresh k r t Hin Ht).
    unfold gracePeriod. lia.
Qed.
(** * The other calls of the client *)

Lemma call_with_body env c method url body w :
  ∃ r w' outs,
    (req ← NewRequest env method url body; doRequestWithRetry env c req) w = (r, w') ∧
    same_disk w w' ∧
    wire w' = wire w ++
      map (λ o, (cloneReq c {| Method := method; URL := url; Header := ∅; Body := body |}, o))
          outs ∧
    transport_result r outs.
Proof.
  unfold mbind, M_bind, NewRequest.
  destruct (new_request_err env method url) as [msg|].
  - exists (Err (ErrNewRequest msg)), w, []. rewrite app_nil_r.
    split; [done|]. split; [apply same_disk_refl|done].
  - cbn [mret M_ret]. apply retry_loop_spec.
Qed.

Lemma call_answered env c method url body w status answer :
  new_request_err env method url = None →
  ctx_err env (polls w) = None →
  http_do env (length (wire w))
    (cloneReq c {| Method := method; URL := url; Header := ∅; Body := body |})
  = Resp status answer →
  200 ≤ status < 300 → status ≠ 204 →
  (req ← NewRequest env method url body; doRequestWithRetry env c req) w
  = (Ok answer,
     set_wire (wire w ++
                [(cloneReq c {| Method := method; URL := url; Header := ∅; Body := body |},
                  Resp status answer)])
       (set_polls (S (polls w)) w)).
Proof.
  intros Hnew Hctx Hdo Hok H204.
  unfold mbind, M_bind, NewRequest. rewrite Hnew. cbn [mret M_ret].
  by apply doRequestWithRetry_answered.
Qed.

Lemma GetUserByUsername_frame env codec c username w :
  ∃ r w' outs,
    GetUserByUsername env codec c username w = (r, w') ∧
    same_disk w w' ∧
    wire w' = wire w ++ map (λ o, (cloneReq c (filter_request codec c username), o)) outs ∧
    returns r.
Proof.
  destruct (call_with_body env c "GET" (filter_url codec c username) None w)
    as (r & w' & outs & Hrun & Hd & Hw & Hr).
  unfold GetUserByUsername.
  unfold mbind, M_bind in Hrun |- *.
  destruct (NewRequest env "GET" (filter_url codec c username) None w) as [[req| | | |] w0];
    try (injection Hrun as <- <-; eexists _, _, outs; by split_and!).
  rewrite Hrun.
  destruct r as [body|e|code|msg|]; try done;
    [|eexists _, _, outs; by split_and!].
  destruct (unmarshal_ListResponse env body) as [lr|];
    [|eexists _, _, outs; by split_and!].
  destruct (decide (TotalResults lr = 0 ∨ length (Resources lr) = 0%nat)) as [|Hn];
    [eexists _, _, outs; by split_and!|].
  destruct (Resources lr) as [|resource rest]; [by destruct Hn; right|].
  destruct (decode_SCIMUser env resource); eexists _, _, outs; by split_and!.
Qed.

(** X17. What the search returns. When the search request is answered at
    the first attempt with a list response, GetUserByUsername reports "no
    such user" if the response gives totalResults 0 or has no resource,
    whatever the other of the two says; otherwise it returns the first
    resource decoded as a user, without comparing its userName with the one
    asked for, and fails if that resource cannot be decoded. One GET to
    /Users?filter=<escaped: userName eq "name"> is all it sends. *)
Theorem search_returns_first_resource env codec c username w status body listResponse :
  new_request_err env "GET" (filter_url codec c username) = None →
  ctx_err env (polls w) = None →
  http_do env (length (wire w)) (cloneReq c (filter_request codec c username))
  = Resp status body →
  200 ≤ status < 300 → status ≠ 204 →
  unmarshal_ListResponse env body = Some listResponse →
  ∃ w',
    GetUserByUsername env codec c username w
    = (match Resources listResponse with
       | [] => Ok None
       | resource :: _ =>
           if decide (TotalResults listResponse = 0) then Ok None
           else match decode_SCIMUser env resource with
                | Some user => Ok (Some user)
                | None => Err (Errorf "failed to unmarshal found user")
                end
       end, w') ∧
    wire w' = wire w ++ [(cloneReq c (filter_request codec c username), Resp status body)] ∧
    URL (filter_request codec c username)
    = BaseURL c +:+ "/Users?filter=" +:+
      url_QueryEscape codec ("userName eq " +:+ dquote +:+ username +:+ dquote) ∧
    same_disk w w'.
Proof.
  intros Hnew Hctx Hdo Hok H204 Hunm.
  unfold GetUserByUsername, mbind, M_bind, NewRequest. rewrite Hnew. cbn [mret M_ret].
  change {| Method := "GET"; URL := filter_url codec c username; Header := ∅; Body := None |}
    with (filter_request codec c username).
  rewrite (doRequestWithRetry_answered env c _ w status body Hctx Hdo Hok H204), Hunm.
  set (w1 := set_wire _ _). exists w1.
  split; [|split; [reflexivity|split; [done|by split_and!]]].
  destruct (Resources listResponse) as [|resource rest].
  - by rewrite decide_True by (by right).
  - destruct (decide (TotalResults listResponse = 0)) as [Hz|Hnz].
    + by rewrite decide_True by (by left).
    + rewrite decide_False by (intros [?|?]; done).
      by destruct (decode_SCIMUser env resource).
Qed.

Lemma retry_loop_answer env n a c lastErr req w :
  ∃ r w' outs,
    retry_loop env n a c lastErr req w = (r, w') ∧
    same_disk w w' ∧
    wire w' = wire w ++ map (λ o, (cloneReq c req, o)) outs ∧
    transport_answer r outs.
Proof.
  revert a lastErr w. induction n as [|n IH]; intros a lastErr w.
  - exists (Err (ErrExhausted (Z.of_nat maxRetries) lastErr)), w, [].
    cbn. rewrite app_nil_r. by split_and!.
  - cbn [retry_loop]. unfold mbind, M_bind, ctx_Err.
    destruct (ctx_err env (polls w)) as [e|].
    { eexists (Err _), _, []. cbn. rewrite app_nil_r. by split_and!. }
    unfold HTTPClient_Do. cbn [wire set_polls].
    set (o := http_do env (length (wire w)) (cloneReq c req)).
    set (w1 := set_wire (wire w ++ [(cloneReq c req, o)]) (set_polls (S (polls w)) w)).
    assert (Hretry : ∀ lastErr' w2,
      same_disk w w2 → wire w2 = wire w ++ [(cloneReq c req, o)] →
      ∃ r w' outs, retry_loop env n (S a) c lastErr' req w2 = (r, w') ∧
        same_disk w w' ∧ wire w' = wire w ++ map (λ o, (cloneReq c req, o)) outs ∧
        transport_answer r outs).
    { intros lastErr' w2 Hd Hw.
      destruct (IH (S a) lastErr' w2) as (r & w' & outs & -> & Hd' & Hw' & Hr).
      exists r, w', (o :: outs). split; [done|]. split; [by eapply same_disk_trans|].
      split; [rewrite Hw', Hw, <- app_assoc; done|].
      destruct r as [body| | | |]; cbn in *; try done.
      destruct Hr as (o' & Hlast & Hans). exists o'. split; [|done].
      rewrite last_cons, Hlast. done. }
    assert (Hstop : ∀ r : Res string, transport_answer r [o] →
      ∃ r' w' outs, (r, w1) = (r', w') ∧
        same_disk w w' ∧ wire w' = wire w ++ map (λ o, (cloneReq c req, o)) outs ∧
        transport_answer r' outs).
    { intros r Hr. exists r, w1, [o]. by split_and!. }
    destruct o as [msg|status body|status msg] eqn:Ho.
    + unfold time_Sleep, modify. apply Hretry; [by repeat split|done].
    + destruct (retryable_status status) eqn:Hrs.
      { unfold mbind, M_bind, rand_Intn, time_Sleep, modify. apply Hretry; [by repeat split|done]. }
      unfold retryable_status in Hrs. apply orb_false_iff in Hrs as [H429 H500].
      apply bool_decide_eq_false_1 in H500.
      destruct (bool_decide (status = StatusNoContent)) eqn:H204.
      { apply bool_decide_eq_true_1 in H204. unfold StatusNoContent in H204. subst status.
        apply Hstop. cbn. exists (Resp 204 body). by split. }
      apply bool_decide_eq_false_1 in H204. unfold StatusNoContent in H204.
      destruct (bool_decide (status < 200 ∨ 300 ≤ status)) eqn:Hout.
      { by apply Hstop. }
      apply bool_decide_eq_false_1 in Hout.
      apply Hstop. cbn. exists (Resp status body). split; [done|].
      cbn. rewrite bool_decide_eq_true_2 by lia. by rewrite decide_False.
    + destruct (retryable_status status) eqn:Hrs.
      { unfold mbind, M_bind, rand_Intn, time_Sleep, modify. apply Hretry; [by repeat split|done]. }
      by apply Hstop.
Qed.

Lemma call_answer env c method url body w :
  ∃ r w' outs,
    (req ← NewRequest env method url body; doRequestWithRetry env c req) w = (r, w') ∧
    same_disk w w' ∧
    wire w' = wire w ++
      map (λ o, (cloneReq c {| Method := method; URL := url; Header := ∅; Body := body |}, o))
          outs ∧
    transport_answer r outs.
Proof.
  unfold mbind, M_bind, NewRequest.
  destruct (new_request_err env method url) as [msg|].
  - exists (Err (ErrNewRequest msg)), w, []. rewrite app_nil_r.
    split; [done|]. split; [apply same_disk_refl|done].
  - cbn [mret M_ret]. apply retry_loop_answer.
Qed.

Lemma GetUserByUsername_answer env codec c username w :
  ∃ r w' outs,
    GetUserByUsername env codec c username w = (r, w') ∧
    same_disk w w' ∧
    wire w' = wire w ++ map (λ o, (cloneReq c (filter_request codec c username), o)) outs ∧
    returns r ∧
    (r = Ok None →
     ∃ o body listResponse,
       last outs = Some o ∧ answer o = Some body ∧
       unmarshal_ListResponse env body = Some listResponse ∧ no_match listResponse).
Proof.
  destruct (call_answer env c "GET" (filter_url codec c username) None w)
    as (r & w' & outs & Hrun & Hd & Hw & Hr).
  unfold GetUserByUsername.
  unfold mbind, M_bind in Hrun |- *.
  destruct (NewRequest env "GET" (filter_url codec c username) None w) as [[req| | | |] w0];
    try (injection Hrun as <- <-; eexists _, _, outs; by split_and!).
  rewrite Hrun.
  destruct r as [body|e|code|msg|]; try done;
    [|eexists _, _, outs; by split_and!].
  destruct Hr as (o & Hlast & Hans).
  destruct (unmarshal_ListResponse env body) as [lr|] eqn:Hunm;
    [|eexists _, _, outs; by split_and!].
  destruct (decide (TotalResults lr = 0 ∨ length (Resources lr) = 0%nat)) as [Hy|Hn].
  { eexists _, _, outs. split_and!; try done. intros _.
    exists o, body, lr. split_and!; try done.
    destruct Hy as [Hy|Hy]; [by left|right]. by apply length_zero_iff_nil. }
  destruct (Resources lr) as [|resource rest]; [by destruct Hn; right|].
  destruct (decode_SCIMUser env resource); eexists _, _, outs; by split_and!.
Qed.

Lemma CreateUser_frame env codec c user w :
  ∃ r w' outs,
    CreateUser env codec c user w = (r, w') ∧
    same_disk w w' ∧
    wire w' = wire w ++ map (λ o, (cloneReq c (create_user_request codec c user), o)) outs ∧
    returns r.
Proof.
  unfold CreateUser. cbv zeta.
  match goal with |- context [NewRequest env ?m ?u ?b] =>
    destruct (call_answer env c m u b w) as (r & w' & outs & Hrun & Hd & Hw & Hr) end.
  unfold mbind, M_bind in Hrun |- *.
  match goal with |- context [NewRequest env ?m ?u ?b w] =>
    destruct (NewRequest env m u b w) as [[req| | | |] w0] end;
    try (injection Hrun as <- <-; eexists _, _, outs; by split_and!).
  rewrite Hrun.
  destruct r as [body|e|code|msg|]; try done;
    [|eexists _, _, outs; by split_and!].
  destruct (unmarshal_SCIMUser codec body); eexists _, _, outs; by split_and!.
Qed.

Lemma CreateGroup_frame env codec c group w :
  ∃ r w' outs,
    CreateGroup env codec c group w = (r, w') ∧
    same_disk w w' ∧
    wire w' = wire w ++ map (λ o, (cloneReq c (create_group_request c group), o)) outs ∧
    returns r.
Proof.
  unfold CreateGroup.
  match goal with |- context [NewRequest env ?m ?u ?b] =>
    destruct (call_answer env c m u b w) as (r & w' & outs & Hrun & Hd & Hw & Hr) end.
  unfold mbind, M_bind in Hrun |- *.
  match goal with |- context [NewRequest env ?m ?u ?b w] =>
    destruct (NewRequest env m u b w) as [[req| | | |] w0] end;
    try (injection Hrun as <- <-; eexists _, _, outs; by split_and!).
  rewrite Hrun.
  destruct r as [body|e|code|msg|]; try done;
    [|eexists _, _, outs; by split_and!].
  destruct (unmarshal_SCIMGroup codec body); eexists _, _, outs; by split_and!.
Qed.
(** * The other commands *)

Lemma LoadUsers_cases w :
  (∃ users, LoadUsers w = (Ok users, w) ∧
            (users_json w = Holds users ∨ users_json w = Missing ∧ users = ∅)) ∨
  (∃ e, LoadUsers w = (Err e, w)).
Proof.
  unfold LoadUsers. destruct (users_json w) as [|msg|users].
  - left. exists ∅. auto.
  - right. by eexists.
  - left. exists users. auto.
Qed.

Lemma LoadGroups_cases w :
  (∃ groups, LoadGroups w = (Ok groups, w) ∧
             (groups_json w = Holds groups ∨ groups_json w = Missing ∧ groups = ∅)) ∨
  (∃ e, LoadGroups w = (Err e, w)).
Proof.
  unfold LoadGroups. destruct (groups_json w) as [|msg|groups].
  - left. exists ∅. auto.
  - right. by eexists.
  - left. exists groups. auto.
Qed.

Lemma logAndAudit_fatal env useCase target details args w :
  logAndAudit env useCase target "fatal" details args w = (Exit 1, w).
Proof. done. Qed.

(** X18. Search before insert. Whatever the environment does, the only
    requests create-user makes are the attempts of one search for the
    userName of the input followed by the attempts of one creation request
    for the input, and it sends a creation request only if the userName is
    not empty, the last search attempt was answered with a list response
    that reports no match, and the mirror has no record under that name. *)
Theorem create_user_searches_before_insert env codec newUser w :
  ∃ r w' searches posts,
    createUserCmd_Run env codec (Holds newUser) w = (r, w') ∧
    wire w' = wire w ++
      map (λ o, (cloneReq (client_of env)
                   (filter_request codec (client_of env) (su_UserName newUser)), o))
          searches ++
      map (λ o, (cloneReq (client_of env)
                   (create_user_request codec (client_of env) newUser), o))
          posts ∧
    groups_json w' = groups_json w ∧
    (posts ≠ [] →
       su_UserName newUser ≠ "" ∧
       (∃ o body listResponse,
          last searches = Some o ∧ answer o = Some body ∧
          unmarshal_ListResponse env body = Some listResponse ∧ no_match listResponse) ∧
       (∀ users, users_json w = Holds users → users !! su_UserName newUser = None)).
Proof.
  unfold createUserCmd_Run.
  unfold mbind at 1, M_bind at 1, or_exit at 1, NewClient.
  destruct (decide (cfg_api_url env = "" ∨ cfg_api_key env = "")).
  { exists (Exit 1), w, [], []. cbn. rewrite app_nil_r. by split_and!. }
  cbn [mret M_ret]. fold (client_of env).
  unfold mbind at 1, M_bind at 1, or_exit at 1, NewStore, mbind at 1, M_bind at 1,
    fs_call at 1. cbn [fst snd].
  destruct (fs_fault env (fs_ops w)).
  { eexists (Exit 1), _, [], []. split; [reflexivity|]. cbn. rewrite app_nil_r. by split_and!. }
  cbn [mret M_ret]. set (w0 := set_fs_ops (S (fs_ops w)) w).
  destruct (decide (su_UserName newUser = "")) as [|Hname].
  { exists (Exit 1), w0, [], []. cbn. rewrite app_nil_r. by split_and!. }
  unfold mbind at 1, M_bind at 1, or_exit at 1.
  destruct (GetUserByUsername_answer env codec (client_of env) (su_UserName newUser) w0)
    as (r1 & w1 & searches & Hrun1 & Hd1 & Hw1 & Hret1 & Hnone).
  rewrite Hrun1. cbn [wire w0 set_fs_ops] in Hw1.
  destruct Hd1 as (Hu1 & Hg1 & _). cbn [users_json groups_json w0 set_fs_ops] in Hu1, Hg1.
  destruct r1 as [[existing|]|e| | |]; try done.
  { exists (Exit 1), w1, searches, []. cbn. rewrite app_nil_r. by split_and!. }
  2:{ exists (Exit 1), w1, searches, []. cbn. rewrite app_nil_r. by split_and!. }
  specialize (Hnone eq_refl).
  unfold mbind at 1, M_bind at 1, or_exit at 1.
  destruct (LoadUsers_cases w1) as [(users & -> & Hfile)|(e & ->)].
  2:{ exists (Exit 1), w1, searches, []. cbn. rewrite app_nil_r. by split_and!. }
  destruct (users !! su_UserName newUser) as [record|] eqn:Hlocal.
  { exists (Exit 1), w1, searches, []. cbn. rewrite app_nil_r. by split_and!. }
  assert (Hmirror : ∀ users', users_json w = Holds users' →
                              users' !! su_UserName newUser = None).
  { intros users' Hw. rewrite <- Hu1 in Hw.
    destruct Hfile as [Hf|[Hf _]]; rewrite Hf in Hw; [by injection Hw as <-|done]. }
  unfold mbind at 1, M_bind at 1. rewrite logAndAudit_spec by done.
  pose proof (after_audit_frame env "CreateUser" (su_UserName newUser) "info"
                "Attempting to create user..." [] w1) as (_ & Ha2 & _ & _ & Ha5 & _).
  set (wa := after_audit _ _ _ _ _ _ w1) in *.
  unfold mbind at 1, M_bind at 1, try at 1.
  destruct (CreateUser_frame env codec (client_of env) newUser wa)
    as (r2 & w2 & posts & Hrun2 & (_ & Hg2 & _) & Hw2 & Hret2).
  rewrite Hrun2.
  assert (Hwire : wire w2 = wire w ++
      map (λ o, (cloneReq (client_of env)
                   (filter_request codec (client_of env) (su_UserName newUser)), o))
          searches ++
      map (λ o, (cloneReq (client_of env)
                   (create_user_request codec (client_of env) newUser), o))
          posts).
  { by rewrite Hw2, Ha5, Hw1, <- app_assoc. }
  assert (Hgroups : groups_json w2 = groups_json w) by congruence.
  destruct r2 as [createdUser|err| | |]; try done.
  - destruct (su_Emails createdUser) as [|email emails].
    { eexists (Panic _), w2, searches, posts. by split_and!. }
    cbv zeta. unfold mbind at 1, M_bind at 1.
    match goal with |- context [try (SaveUsers env ?u) ?w0] =>
      destruct (try_SaveUsers env u w0) as (r' & w3 & -> & Hs1 & _ & _ & _ & Hs5 & _)
    end.
    destruct r' as [err|[]].
    + unfold mbind at 1, M_bind at 1. rewrite logAndAudit_fatal.
      exists (Exit 1), w3, searches, posts. split; [done|].
      split; [congruence|]. split; [congruence|done].
    + unfold mbind at 1, M_bind at 1. cbn [mret M_ret].
      rewrite logAndAudit_spec by done.
      match goal with |- context [after_audit env ?a ?b ?l ?d ?g w3] =>
        pose proof (after_audit_frame env a b l d g w3) as (_ & Hb2 & _ & _ & Hb5 & _) end.
      eexists (Ok tt), _, searches, posts. split; [done|].
      split; [congruence|]. split; [congruence|done].
  - unfold mbind at 1, M_bind at 1. rewrite logAndAudit_fatal.
    exists (Exit 1), w2, searches, posts. by split_and!.
Qed.


(** The run of create-user up to the answer to its creation request, when
    the search reports no match and both requests are answered at the first
    attempt. *)
Ltac create_user_steps env w Hurl Hkey Hdir Hname Hfile Hlocal Hnew Hctx Hdo1 Hok1 H1 Hunm1 Hno
                       Hdo2 Hok2 H2 Hunm2 :=
  unfold createUserCmd_Run;
  unfold mbind at 1, M_bind at 1, or_exit at 1, NewClient;
  rewrite decide_False by (intros [?|?]; done);
  cbn [mret M_ret]; fold (client_of env);
  unfold mbind at 1, M_bind at 1, or_exit at 1, NewStore, mbind at 1, M_bind at 1,
    fs_call at 1; cbn [fst snd]; rewrite Hdir; cbn [mret M_ret];
  rewrite decide_False by done;
  unfold mbind at 1, M_bind at 1, or_exit at 1;
  unfold GetUserByUsername, mbind at 1, M_bind at 1, NewRequest; rewrite Hnew;
  cbn [mret M_ret]; unfold mbind at 1, M_bind at 1;
  match goal with |- context [doRequestWithRetry ?e ?c ?req ?w0] =>
    rewrite (doRequestWithRetry_answered e c req w0 _ _ (Hctx _) Hdo1 Hok1 H1) end;
  rewrite Hunm1;
  rewrite decide_True by (destruct Hno as [Hno|Hno]; [by left|right; by rewrite Hno]);
  cbn [mret M_ret];
  unfold mbind at 1, M_bind at 1, or_exit at 1, LoadUsers;
  cbn [users_json set_wire set_polls set_fs_ops]; rewrite Hfile, Hlocal;
  unfold mbind at 1, M_bind at 1; rewrite logAndAudit_spec by done;
  unfold mbind at 1, M_bind at 1, try at 1;
  unfold CreateUser; cbv zeta; unfold mbind at 1, M_bind at 1, NewRequest; rewrite Hnew;
  cbn [mret M_ret]; unfold mbind at 1, M_bind at 1;
  match goal with |- context [doRequestWithRetry ?e ?c ?req ?w0] =>
    let Hlen := fresh "Hlen" in
    assert (Hlen : length (wire w0) = S (length (wire w)));
    [ match w0 with
      | after_audit ?e' ?a ?b ?l ?d ?g ?w1 =>
          destruct (after_audit_frame e' a b l d g w1) as (_ & _ & _ & _ & -> & _)
      end;
      cbn [wire set_wire set_polls set_fs_ops]; rewrite length_app; cbn [length]; lia
    | rewrite (doRequestWithRetry_answered e c req w0 _ _ (Hctx _)
                 ltac:(rewrite Hlen; exact Hdo2) Hok2 H2) ]
  end;
  rewrite Hunm2.

(** X19. The record create-user stores. When the search reports no match,
    the mirror has no record under the userName of the input and the
    creation request is answered 2xx with a user that has an e-mail address,
    create-user returns normally having sent exactly these two requests: the
    mirror gains, under the userName of the user the server returned, a
    record with that user's SCIM id, first e-mail address, name, title and
    organization and with status "active" whatever the user's active flag,
    and the audit log gains the events of the attempt and of the success. *)
Theorem create_user_updates_the_mirror env codec newUser w users
    status1 body1 listResponse status2 body2 createdUser email emails :
  configured env →
  (∀ n, fs_fault env n = None) →
  (∀ n, ctx_err env n = None) →
  (∀ method url, new_request_err env method url = None) →
  su_UserName newUser ≠ "" →
  users_json w = Holds users →
  users !! su_UserName newUser = None →
  http_do env (length (wire w))
    (cloneReq (client_of env) (filter_request codec (client_of env) (su_UserName newUser)))
  = Resp status1 body1 →
  200 ≤ status1 < 300 → status1 ≠ 204 →
  unmarshal_ListResponse env body1 = Some listResponse →
  no_match listResponse →
  http_do env (S (length (wire w)))
    (cloneReq (client_of env) (create_user_request codec (client_of env) newUser))
  = Resp status2 body2 →
  200 ≤ status2 < 300 → status2 ≠ 204 →
  unmarshal_SCIMUser codec body2 = Some createdUser →
  su_Emails createdUser = email :: emails →
  ∃ w',
    createUserCmd_Run env codec (Holds newUser) w = (Ok tt, w') ∧
    users_json w'
    = Holds (<[su_UserName createdUser := created_record createdUser email]> users) ∧
    audit_log w' = audit_log w ++
      [audit_event (clock env (ticks w)) "CreateUser" (su_UserName newUser) "info"
         "Attempting to create user..." [];
       audit_event (clock env (S (ticks w))) "CreateUser" (su_UserName newUser) "info"
         "Successfully created user." ["scim_id"; su_ID createdUser]] ∧
    wire w' = wire w ++
      [(cloneReq (client_of env)
          (filter_request codec (client_of env) (su_UserName newUser)), Resp status1 body1);
       (cloneReq (client_of env)
          (create_user_request codec (client_of env) newUser), Resp status2 body2)].
Proof.
  intros [Hurl Hkey] Hfs Hctx Hnew Hname Hfile Hlocal Hdo1 Hok1 H1 Hunm1 Hno
    Hdo2 Hok2 H2 Hunm2 Hemail.
  pose proof (Hfs (fs_ops w)) as Hdir.
  create_user_steps env w Hurl Hkey Hdir Hname Hfile Hlocal Hnew Hctx Hdo1 Hok1 H1 Hunm1 Hno
                    Hdo2 Hok2 H2 Hunm2.
  cbn [mret M_ret]. rewrite Hemail. cbv zeta.
  unfold mbind at 1, M_bind at 1, try at 1. rewrite SaveUsers_ok by apply Hfs.
  unfold mbind at 1, M_bind at 1. cbn [mret M_ret].
  rewrite logAndAudit_spec by done.
  eexists. split; [reflexivity|].
  unfold after_audit. cbn [fs_ops set_wire set_polls set_fs_ops set_ticks set_users_json
                            set_audit_log ticks audit_log users_json wire].
  rewrite !Hfs.
  cbn [fs_ops set_wire set_polls set_fs_ops set_ticks set_users_json
       set_audit_log ticks audit_log users_json wire].
  split; [done|]. split; [by rewrite <- app_assoc|].
  by rewrite <- app_assoc.
Qed.


Lemma set_polls_id w : set_polls (polls w) w = w.
Proof. by destruct w. Qed.

Lemma populate_users_spec env scimUsers :
  ∀ acc w,
    (∀ i : nat, (i < length scimUsers)%nat → ctx_err env (polls w + i) = None) →
    ∃ n, populate_users env scimUsers acc w
         = (match build_user_state scimUsers acc with
            | Some userStore => Ok (Some userStore)
            | None => Panic "index out of range [0] with length 0"
            end, set_polls n w).
Proof.
  induction scimUsers as [|u rest IH]; intros acc w Hctx.
  - exists (polls w). by rewrite set_polls_id.
  - cbn [populate_users build_user_state]. unfold mbind, M_bind, ctx_Err.
    pose proof (Hctx 0%nat ltac:(cbn; lia)) as H0. rewrite Nat.add_0_r in H0. rewrite H0.
    assert (Hrest : ∀ acc', ∃ n,
      populate_users env rest acc' (set_polls (S (polls w)) w)
      = (match build_user_state rest acc' with
         | Some userStore => Ok (Some userStore)
         | None => Panic "index out of range [0] with length 0"
         end, set_polls n w)).
    { intros acc'. destruct (IH acc' (set_polls (S (polls w)) w)) as [n Hn].
      - intros i Hi. cbn [polls set_polls].
        replace (S (polls w) + i)%nat with (polls w + S i)%nat by lia.
        apply Hctx. cbn. lia.
      - exists n. by rewrite Hn. }
    destruct (decide (su_UserName u = "")); [apply Hrest|].
    destruct (su_Emails u) as [|email emails]; [|apply Hrest].
    by exists (S (polls w)).
Qed.

Lemma populate_users_halts env scimUsers :
  ∀ acc w (i : nat) e,
    (i < length scimUsers)%nat →
    (∀ j : nat, (j < i)%nat → ctx_err env (polls w + j) = None) →
    ctx_err env (polls w + i) = Some e →
    (∀ u, u ∈ take i scimUsers → su_UserName u ≠ "" → su_Emails u ≠ []) →
    populate_users env scimUsers acc w = (Ok None, set_polls (S (polls w + i)) w).
Proof.
  induction scimUsers as [|u rest IH]; intros acc w i e Hi Hctx Hstop Hmail;
    [cbn in Hi; lia|].
  cbn [populate_users]. unfold mbind, M_bind, ctx_Err.
  destruct i as [|i].
  - rewrite Nat.add_0_r in Hstop. rewrite Hstop. by rewrite Nat.add_0_r.
  - pose proof (Hctx 0%nat ltac:(lia)) as H0. rewrite Nat.add_0_r in H0. rewrite H0.
    assert (Hrest : ∀ acc',
      populate_users env rest acc' (set_polls (S (polls w)) w)
      = (Ok None, set_polls (S (polls w + S i)) w)).
    { intros acc'. rewrite (IH acc' (set_polls (S (polls w)) w) i e).
      - cbn [polls set_polls]. by replace (S (polls w) + i)%nat with (polls w + S i)%nat by lia.
      - cbn in Hi. lia.
      - intros j Hj. cbn [polls set_polls].
        replace (S (polls w) + j)%nat with (polls w + S j)%nat by lia. apply Hctx. lia.
      - cbn [polls set_polls].
        by replace (S (polls w) + i)%nat with (polls w + S i)%nat by lia.
      - intros u' Hin. apply Hmail. cbn [take]. by apply list_elem_of_further. }
    destruct (decide (su_UserName u = "")) as [|Hname]; [apply Hrest|].
    destruct (su_Emails u) as [|email emails] eqn:Hem; [|apply Hrest].
    destruct (Hmail u); [cbn [take]; apply list_elem_of_here|done|done].
Qed.

(** X21. populate and refresh build the same mirror. From the same fetched
    list, with every named user carrying an e-mail address and no shutdown
    signal, the "Populate Users" block of populate and reconcileUsers both
    return and write the same map to users.json; populate does so without
    reading the old mirror and without appending to the audit log. *)
Theorem populate_agrees_with_refresh env fuel c w scimUsers w1 newState :
  (∀ n, fs_fault env n = None) →
  (∀ i : nat, (i < length scimUsers)%nat → ctx_err env (polls w1 + i) = None) →
  (∀ msg, users_json w ≠ Corrupt msg) →
  GetUsers env fuel c w = (Ok scimUsers, w1) →
  build_user_state scimUsers ∅ = Some newState →
  ∃ wp wr,
    populate_users_block env fuel c w = (Ok true, wp) ∧
    reconcileUsers env fuel c w = (Ok tt, wr) ∧
    users_json wp = Holds newState ∧ users_json wr = Holds newState ∧
    audit_log wp = audit_log w ∧ wire wp = wire w1 ∧ wire wr = wire w1.
Proof.
  intros Hfs Hctx Hfile Hget Hbuild.
  pose proof (GetUsers_frame env fuel c w _ _ Hget) as (_ & _ & _ & _ & Ha & _).
  destruct (populate_users_spec env scimUsers ∅ w1 Hctx) as [n Hpop].
  rewrite Hbuild in Hpop.
  destruct (LoadUsers_cases w) as [(oldState & Hload & _)|(e & Hload)].
  2:{ unfold LoadUsers in Hload. destruct (users_json w) as [|msg|] eqn:Hu; try done.
      by destruct (Hfile msg). }
  destruct (reconcileUsers_spec env fuel c w oldState scimUsers w1 newState
              Hfs Hload Hget Hbuild) as (wr & calls & Hrec & Hur & _ & Hwr & _).
  eexists _, wr. split; [|split; [exact Hrec|]].
  - unfold populate_users_block, mbind at 1, M_bind at 1, or_exit at 1. rewrite Hget.
    unfold mbind at 1, M_bind at 1. rewrite Hpop.
    unfold mbind, M_bind, or_exit. rewrite SaveUsers_ok by apply Hfs. reflexivity.
  - cbn. by split_and!.
Qed.

(** X22. populate halts without writing. When the shutdown signal arrives
    while the "Populate Users" block goes through a fetched list, at its
    user number [i] and before any user without e-mail address was met, the
    block returns for the command to end: nothing is written, users.json
    and groups.json are as they were and no further request is sent. *)
Theorem populate_halts_without_writing env fuel c w scimUsers w1 (i : nat) e :
  GetUsers env fuel c w = (Ok scimUsers, w1) →
  (i < length scimUsers)%nat →
  (∀ j : nat, (j < i)%nat → ctx_err env (polls w1 + j) = None) →
  ctx_err env (polls w1 + i) = Some e →
  (∀ u, u ∈ take i scimUsers → su_UserName u ≠ "" → su_Emails u ≠ []) →
  ∃ w',
    populate_users_block env fuel c w = (Ok false, w') ∧
    users_json w' = users_json w ∧ groups_json w' = groups_json w ∧
    audit_log w' = audit_log w ∧ fs_ops w' = fs_ops w ∧ wire w' = wire w1.
Proof.
  intros Hget Hi Hctx Hstop Hmail.
  pose proof (GetUsers_frame env fuel c w _ _ Hget)
    as (Hu & Hg & _ & _ & Ha & _ & Hf & _).
  unfold populate_users_block, mbind at 1, M_bind at 1, or_exit at 1. rewrite Hget.
  unfold mbind at 1, M_bind at 1.
  rewrite (populate_users_halts env scimUsers ∅ w1 i e Hi Hctx Hstop Hmail).
  eexists. split; [reflexivity|]. cbn. by split_and!.
Qed.

Lemma member_ops_spec mk users members operations :
  member_ops mk users members operations
  = operations ++ omap (λ eppn, mk <$> users !! eppn) members.
Proof.
  revert operations. induction members as [|eppn rest IH]; intros operations;
    cbn [member_ops omap list_omap].
  - by rewrite app_nil_r.
  - destruct (users !! eppn) as [user|]; cbn [fmap option_fmap option_map].
    + by rewrite IH, <- app_assoc.
    + apply IH.
Qed.

(** X23. One PATCH for all members. With a group the mirror knows,
    manage-group-members sends nothing but the attempts of one PATCH to
    /Groups/<SCIM id> whose operations are one "add" per name of --add
    found in the mirror followed by one "remove" per name of --remove found
    in the mirror, in the order of the command line; unknown names are
    skipped, and when no name is known no request is sent and no audit event
    written. The command returns normally only after a 2xx answer, the
    mirror files are never written. *)
Theorem manage_members_sends_one_patch env groupName addMembers removeMembers w
    users groups group :
  configured env →
  fs_fault env (fs_ops w) = None →
  users_json w = Holds users →
  groups_json w = Holds groups →
  groups !! groupName = Some group →
  ∃ r w' outs,
    manageGroupMembersCmd_Run env groupName addMembers removeMembers w = (r, w') ∧
    wire w' = wire w ++
      group_patch_wire (client_of env) group
        (membership_ops users addMembers removeMembers) outs ∧
    users_json w' = users_json w ∧ groups_json w' = groups_json w ∧
    (r = Ok tt ∨ r = Exit 1) ∧
    (membership_ops users addMembers removeMembers = [] →
       r = Ok tt ∧ outs = [] ∧ audit_log w' = audit_log w) ∧
    (membership_ops users addMembers removeMembers ≠ [] → r = Ok tt →
       ∃ outs' o, outs = outs' ++ [o] ∧ success o = true).
Proof.
  intros [Hurl Hkey] Hdir Hu Hg Hgroup.
  unfold manageGroupMembersCmd_Run.
  unfold mbind at 1, M_bind at 1, or_exit at 1, NewClient.
  rewrite decide_False by (intros [?|?]; done).
  cbn [mret M_ret]. fold (client_of env).
  unfold mbind at 1, M_bind at 1, or_exit at 1, NewStore, mbind at 1, M_bind at 1,
    fs_call at 1. cbn [fst snd]. rewrite Hdir. cbn [mret M_ret].
  unfold mbind at 1, M_bind at 1, or_exit at 1, LoadUsers.
  cbn [users_json set_fs_ops]. rewrite Hu.
  unfold mbind at 1, M_bind at 1, or_exit at 1, LoadGroups.
  cbn [groups_json set_fs_ops]. rewrite Hg, Hgroup. cbv zeta.
  rewrite !member_ops_spec. cbn [app].
  change (omap _ addMembers ++ omap _ removeMembers)
    with (membership_ops users addMembers removeMembers).
  set (ops := membership_ops users addMembers removeMembers).
  set (w0 := set_fs_ops (S (fs_ops w)) w).
  destruct (decide (length ops = 0%nat)) as [Hz|Hnz].
  { apply length_zero_iff_nil in Hz. exists (Ok tt), w0, [].
    cbn. rewrite app_nil_r. split_and!; try done; auto. }
  assert (Hne : ops ≠ []) by (by intros ?%length_zero_iff_nil).
  unfold mbind at 1, M_bind at 1. rewrite logAndAudit_spec by done.
  match goal with |- context [after_audit env ?a ?b ?l ?d ?g w0] =>
    pose proof (after_audit_frame env a b l d g w0) as (Ha1 & Ha2 & _ & _ & Ha5 & _);
    set (wa := after_audit env a b l d g w0) in *
  end.
  cbn [users_json groups_json wire w0 set_fs_ops] in Ha1, Ha2, Ha5.
  unfold mbind at 1, M_bind at 1.
  run_client r w1 outs Hrun Hd Hw Hr.
  destruct Hd as (Hd1 & Hd2 & _).
  destruct r as [err|[]].
  - unfold mbind at 1, M_bind at 1. rewrite logAndAudit_fatal.
    exists (Exit 1), w1, outs. split; [done|].
    split; [by rewrite Hw, Ha5|]. split; [congruence|]. split; [congruence|].
    split; [by right|]. split; [done|]. by intros _ [=].
  - unfold mbind at 1, M_bind at 1. cbn [mret M_ret].
    rewrite logAndAudit_spec by done.
    match goal with |- context [after_audit env ?a ?b ?l ?d ?g w1] =>
      pose proof (after_audit_frame env a b l d g w1) as (Hb1 & Hb2 & _ & _ & Hb5 & _)
    end.
    eexists (Ok tt), _, outs. split; [done|].
    split; [by rewrite Hb5, Hw, Ha5|]. split; [congruence|]. split; [congruence|].
    split; [by left|]. split; [done|]. intros _ _. by apply Hr.
Qed.

Lemma SaveGroups_try env groups w :
  ∃ r w', try (SaveGroups env groups) w = (Ok r, w') ∧
    users_json w' = users_json w ∧ audit_log w' = audit_log w ∧ wire w' = wire w ∧
    (groups_json w' = groups_json w ∨ groups_json w' = Holds groups).
Proof.
  unfold try, SaveGroups, mbind, M_bind, fs_call, modify. cbn [fst snd].
  destruct (fs_fault env (fs_ops w)); eexists _, _; (split; [reflexivity|]); cbn; auto.
Qed.

(** X24. create-group checks the mirror only. Whatever the environment
    does, the only requests create-group makes are the attempts of one
    creation request, whose body holds the group schema and the displayName
    of the input and nothing else; no search precedes it, and it is sent
    only if the displayName is not empty and groups.json has no record under
    that name. users.json is never written. *)
Theorem create_group_checks_the_mirror_only env codec newGroup w :
  ∃ r w' posts,
    createGroupCmd_Run env codec (Holds newGroup) w = (r, w') ∧
    wire w' = wire w ++
      map (λ o, (cloneReq (client_of env) (create_group_request (client_of env) newGroup), o))
          posts ∧
    users_json w' = users_json w ∧
    (posts ≠ [] →
       sg_DisplayName newGroup ≠ "" ∧
       ∀ groups, groups_json w = Holds groups → groups !! sg_DisplayName newGroup = None) ∧
    Body (create_group_request (client_of env) newGroup)
    = Some (VMap (<["schemas" := VSlice [VString "urn:ietf:params:scim:schemas:core:2.0:Group"]]>
                 (<["displayName" := VString (sg_DisplayName newGroup)]> ∅))).
Proof.
  unfold createGroupCmd_Run.
  unfold mbind at 1, M_bind at 1, or_exit at 1, NewClient.
  destruct (decide (cfg_api_url env = "" ∨ cfg_api_key env = "")).
  { exists (Exit 1), w, []. cbn. rewrite app_nil_r. by split_and!. }
  cbn [mret M_ret]. fold (client_of env).
  unfold mbind at 1, M_bind at 1, or_exit at 1, NewStore, mbind at 1, M_bind at 1,
    fs_call at 1. cbn [fst snd].
  destruct (fs_fault env (fs_ops w)).
  { eexists (Exit 1), _, []. split; [reflexivity|]. cbn. rewrite app_nil_r. by split_and!. }
  cbn [mret M_ret]. set (w0 := set_fs_ops (S (fs_ops w)) w).
  destruct (decide (sg_DisplayName newGroup = "")) as [|Hname].
  { exists (Exit 1), w0, []. cbn. rewrite app_nil_r. by split_and!. }
  unfold mbind at 1, M_bind at 1, or_exit at 1.
  destruct (LoadGroups_cases w0) as [(groups & -> & Hfile)|(e & ->)].
  2:{ exists (Exit 1), w0, []. cbn. rewrite app_nil_r. by split_and!. }
  cbn [groups_json w0 set_fs_ops] in Hfile.
  destruct (groups !! sg_DisplayName newGroup) as [record|] eqn:Hlocal.
  { exists (Exit 1), w0, []. cbn. rewrite app_nil_r. by split_and!. }
  assert (Hmirror : ∀ groups', groups_json w = Holds groups' →
                               groups' !! sg_DisplayName newGroup = None).
  { intros groups' Hw.
    destruct Hfile as [Hf|[Hf _]]; rewrite Hf in Hw; [by injection Hw as <-|done]. }
  unfold mbind at 1, M_bind at 1. rewrite logAndAudit_spec by done.
  match goal with |- context [after_audit env ?a ?b ?l ?d ?g w0] =>
    pose proof (after_audit_frame env a b l d g w0) as (Ha1 & _ & _ & _ & Ha5 & _);
    set (wa := after_audit env a b l d g w0) in *
  end.
  cbn [users_json wire w0 set_fs_ops] in Ha1, Ha5.
  unfold mbind at 1, M_bind at 1, try at 1.
  destruct (CreateGroup_frame env codec (client_of env) newGroup wa)
    as (r2 & w2 & posts & Hrun2 & (Hu2 & _) & Hw2 & Hret2).
  rewrite Hrun2.
  destruct r2 as [createdGroup|err| | |]; try done.
  - cbv zeta. unfold mbind at 1, M_bind at 1.
    match goal with |- context [try (SaveGroups env ?g) ?w3] =>
      destruct (SaveGroups_try env g w3) as (r' & w4 & -> & Hs1 & _ & Hs3 & _)
    end.
    destruct r' as [err|[]].
    + unfold mbind at 1, M_bind at 1. rewrite logAndAudit_fatal.
      exists (Exit 1), w4, posts. split; [done|].
      split; [by rewrite Hs3, Hw2, Ha5|]. split; [congruence|done].
    + unfold mbind at 1, M_bind at 1. cbn [mret M_ret].
      rewrite logAndAudit_spec by done.
      match goal with |- context [after_audit env ?a ?b ?l ?d ?g w4] =>
        pose proof (after_audit_frame env a b l d g w4) as (Hb1 & _ & _ & _ & Hb5 & _) end.
      eexists (Ok tt), _, posts. split; [done|].
      split; [by rewrite Hb5, Hs3, Hw2, Ha5|]. split; [congruence|done].
  - unfold mbind at 1, M_bind at 1. rewrite logAndAudit_fatal.
    exists (Exit 1), w2, posts. split; [done|].
    split; [by rewrite Hw2, Ha5|]. split; [congruence|done].
Qed.

(** X25. The record create-group stores. When groups.json has no record
    under the displayName of the input and the creation request is answered
    2xx at the first attempt with a group, create-group returns normally
    having sent that one request: groups.json gains the SCIM id of the
    returned group under the displayName the server returned, and the audit
    log gains the events of the attempt and of the success. *)
Theorem create_group_updates_the_mirror env codec newGroup w groups
    status body createdGroup :
  configured env →
  (∀ n, fs_fault env n = None) →
  ctx_err env (polls w) = None →
  new_request_err env "POST" (cfg_api_url env +:+ "/Groups") = None →
  sg_DisplayName newGroup ≠ "" →
  groups_json w = Holds groups →
  groups !! sg_DisplayName newGroup = None →
  http_do env (length (wire w))
    (cloneReq (client_of env) (create_group_request (client_of env) newGroup))
  = Resp status body →
  200 ≤ status < 300 → status ≠ 204 →
  unmarshal_SCIMGroup codec body = Some createdGroup →
  ∃ w',
    createGroupCmd_Run env codec (Holds newGroup) w = (Ok tt, w') ∧
    groups_json w'
    = Holds (<[sg_DisplayName createdGroup := {| g_SCIMID := sg_ID createdGroup |}]> groups) ∧
    users_json w' = users_json w ∧
    audit_log w' = audit_log w ++
      [audit_event (clock env (ticks w)) "CreateGroup" (sg_DisplayName newGroup) "info"
         "Attempting to create group..." [];
       audit_event (clock env (S (ticks w))) "CreateGroup" (sg_DisplayName newGroup) "info"
         "Successfully created group." ["scim_id"; sg_ID createdGroup]] ∧
    wire w' = wire w ++
      [(cloneReq (client_of env) (create_group_request (client_of env) newGroup),
        Resp status body)].
Proof.
  intros [Hurl Hkey] Hfs Hctx Hnew Hname Hfile Hlocal Hdo Hok H204 Hunm.
  unfold createGroupCmd_Run.
  unfold mbind at 1, M_bind at 1, or_exit at 1, NewClient.
  rewrite decide_False by (intros [?|?]; done).
  cbn [mret M_ret]. fold (client_of env).
  unfold mbind at 1, M_bind at 1, or_exit at 1, NewStore, mbind at 1, M_bind at 1,
    fs_call at 1. cbn [fst snd]. rewrite Hfs. cbn [mret M_ret].
  rewrite decide_False by done.
  unfold mbind at 1, M_bind at 1, or_exit at 1, LoadGroups.
  cbn [groups_json set_fs_ops]. rewrite Hfile, Hlocal.
  unfold mbind at 1, M_bind at 1. rewrite logAndAudit_spec by done.
  unfold mbind at 1, M_bind at 1, try at 1.
  unfold CreateGroup, mbind at 1, M_bind at 1, NewRequest.
  change (BaseURL (client_of env)) with (cfg_api_url env). rewrite Hnew.
  cbn [mret M_ret]. unfold mbind at 1, M_bind at 1.
  match goal with |- context [doRequestWithRetry ?e ?c ?req ?w0] =>
    assert (Hlen : length (wire w0) = length (wire w));
    [ match w0 with
      | after_audit ?e' ?a ?b ?l ?d ?g ?w1 =>
          by destruct (after_audit_frame e' a b l d g w1) as (_ & _ & _ & _ & -> & _)
      end
    | assert (Hpoll : polls w0 = polls w);
      [ match w0 with
        | after_audit ?e' ?a ?b ?l ?d ?g ?w1 =>
            by destruct (after_audit_frame e' a b l d g w1)
              as (_ & _ & _ & _ & _ & _ & -> & _)
        end
      | rewrite (doRequestWithRetry_answered e c req w0 status body
                   ltac:(rewrite Hpoll; exact Hctx)
                   ltac:(rewrite Hlen; exact Hdo) Hok H204) ] ]
  end.
  rewrite Hunm. cbn [mret M_ret]. cbv zeta.
  unfold mbind at 1, M_bind at 1, try at 1. rewrite SaveGroups_ok by apply Hfs.
  unfold mbind at 1, M_bind at 1. cbn [mret M_ret].
  rewrite logAndAudit_spec by done.
  eexists. split; [reflexivity|].
  unfold after_audit.
  cbn [fs_ops set_wire set_polls set_fs_ops set_ticks set_groups_json
       set_audit_log ticks audit_log users_json groups_json wire].
  rewrite !Hfs.
  cbn [fs_ops set_wire set_polls set_fs_ops set_ticks set_groups_json
       set_audit_log ticks audit_log users_json groups_json wire].
  split; [done|]. split; [done|]. split; [by rewrite <- app_assoc|done].
Qed.

(** X26. No command runs without its configuration. When the API URL or
    the API key is empty, each of the seven commands exits with status 1
    before it touches the network, the data directory or the audit log: the
    world is exactly as it was. *)
Theorem commands_require_configuration env codec fuel w
    inputUser inputGroup groupName addMembers removeMembers :
  cfg_api_url env = "" ∨ cfg_api_key env = "" →
  refreshCmd_Run env fuel w = (Exit 1, w) ∧
  cleanupUsersCmd_Run env w = (Exit 1, w) ∧
  processBatchCmd_Run env w = (Exit 1, w) ∧
  populateCmd_Run env fuel w = (Exit 1, w) ∧
  createUserCmd_Run env codec inputUser w = (Exit 1, w) ∧
  createGroupCmd_Run env codec inputGroup w = (Exit 1, w) ∧
  manageGroupMembersCmd_Run env groupName addMembers removeMembers w = (Exit 1, w).
Proof.
  intros Hcfg.
  assert (Hclient : or_exit (NewClient (cfg_api_url env) (cfg_api_key env)) w = (Exit 1, w)).
  { unfold or_exit, NewClient. by rewrite decide_True. }
  split_and!.
  - unfold refreshCmd_Run, mbind at 1, M_bind at 1. by rewrite Hclient.
  - unfold cleanupUsersCmd_Run, mbind at 1, M_bind at 1. by rewrite Hclient.
  - unfold processBatchCmd_Run, processBatchCmd_tasks.
    unfold mbind at 1, M_bind at 1. unfold mbind at 1, M_bind at 1.
    unfold prepare_queue.
    destruct (job_queue_json w) as [|msg|queue]; [|done|].
    + destruct (flag_from_file env) as [|msg|source]; try done.
      unfold mbind at 1, M_bind at 1. by rewrite Hclient.
    + unfold mbind at 1, M_bind at 1. by rewrite Hclient.
  - unfold populateCmd_Run, mbind at 1, M_bind at 1. by rewrite Hclient.
  - unfold createUserCmd_Run, mbind at 1, M_bind at 1. by rewrite Hclient.
  - unfold createGroupCmd_Run, mbind at 1, M_bind at 1. by rewrite Hclient.
  - unfold manageGroupMembersCmd_Run, mbind at 1, M_bind at 1. by rewrite Hclient.
Qed.
(** * Deactivation requests and the last write of cleanup-users *)


(** X27. The request of a deactivate task. For a target of the mirror,
    handleDeactivateTask sends only attempts of one PATCH to
    /Users/<SCIM id of the target> whose single operation serialises to
    op "replace", path "active", value false; when it reports no error the
    last attempt was answered 2xx and the record it hands back for the
    target is inactive and stamped. *)
Theorem deactivate_request_construction env c users task record w :
  users !! t_Target task = Some record →
  ∃ users' err w' outs,
    handleDeactivateTask env c users task w = (Ok (users', err), w') ∧
    wire w' = wire w ++
      user_patch_attempts c record
        [{| p_Op := "replace"; p_Path := "active"; p_Value := Some (VBool false) |}] outs ∧
    marshal_SCIMPatchOp
      {| p_Op := "replace"; p_Path := "active"; p_Value := Some (VBool false) |}
    = <["value" := VBool false]>
        (<["path" := VString "active"]> {[ "op" := VString "replace" ]}) ∧
    (err = None →
       (∃ outs' o, outs = outs' ++ [o] ∧ success o = true) ∧
       ∃ record', users' !! t_Target task = Some record' ∧
                  u_Status record' = "inactive" ∧
                  u_DeactivationTimestamp record' ≠ None ∧
                  u_SCIMID record' = u_SCIMID record).
Proof.
  intros Hu. unfold handleDeactivateTask. rewrite Hu. cbv zeta.
  unfold mbind at 1, M_bind at 1.
  run_client r w1 outs Hrun Hd Hw Hr.
  destruct r as [e|[]].
  - eexists users, (Some e), w1, outs. by split_and!.
  - unfold mbind at 1, M_bind at 1, time_Now at 1. cbn [fst snd].
    unfold mbind, M_bind.
    match goal with |- context [try (SaveUsers env ?u) ?w0] =>
      destruct (try_SaveUsers env u w0)
        as (r' & w2 & -> & _ & _ & _ & _ & Hs5 & _)
    end.
    cbn [wire set_ticks] in Hs5.
    eexists _, (err_of r'), w2, outs. split; [done|].
    split; [by rewrite Hs5, Hw|]. split; [done|].
    intros _. split; [by apply Hr|].
    eexists. split; [apply lookup_insert_eq|]. by split_and!.
Qed.


(** * The further statements at concrete inputs *)

Lemma cancellation_stops_retries_witness :
  ∃ w',
    doRequestWithRetry env_interrupted test_client get_req empty_world
    = (Err (ErrCtx Canceled), w') ∧
    length (wire w') = 2%nat ∧ length (slept w') = 2%nat.
Proof.
  destruct (cancellation_stops_retries env_interrupted test_client get_req empty_world
              2 Canceled) as (w' & Hrun & Hw & Hs & _).
  - lia.
  - intros i Hi. destruct i as [|[|i]]; [reflexivity|reflexivity|lia].
  - intros i Hi. reflexivity.
  - reflexivity.
  - exists w'. split; [exact Hrun|]. split; [rewrite Hw; reflexivity|exact Hs].
Defined.

Lemma transient_failures_recover_witness :
  ∃ w',
    doRequestWithRetry env_flaky test_client get_req empty_world = (Ok "users-page", w') ∧
    length (wire w') = 3%nat ∧ length (slept w') = 2%nat.
Proof.
  destruct (transient_failures_recover env_flaky test_client get_req empty_world
              2 200 "users-page") as (w' & Hrun & Hw & Hs & _).
  - lia.
  - intros i Hi. reflexivity.
  - intros i Hi. destruct i as [|[|i]]; [reflexivity|reflexivity|lia].
  - reflexivity.
  - lia.
  - exists w'. split; [exact Hrun|]. split; [rewrite Hw; reflexivity|exact Hs].
Defined.

Lemma GetUsers_pagination_witness :
  ∃ w',
    GetUsers env_two_pages 5 test_client empty_world
    = (Ok [scim_user "def-456" "bob@example.org"; scim_user "ghi-789" "carol@example.org";
           scim_user "abc-123" "alice@example.org"], w') ∧
    URL <$> (wire w').*1
    = ["https://scim.example.org/v2/Users?count=100&startIndex=1";
       "https://scim.example.org/v2/Users?count=100&startIndex=3"].
Proof.
  destruct (GetUsers_pagination env_two_pages test_client 5 empty_world [page_1; page_2])
    as (w' & Hrun & Hw & _).
  - split; [reflexivity|]. split; [reflexivity|]. split.
    { exists 200, "page-1". split; [reflexivity|]. split; [lia|]. split; [lia|].
      vm_compute. reflexivity. }
    split; [reflexivity|]. split; [reflexivity|]. split; [|exact I].
    exists 200, "page-2". split; [reflexivity|]. split; [lia|]. split; [lia|].
    vm_compute. reflexivity.
  - split; [discriminate|]. split; [vm_compute; reflexivity|].
    right. vm_compute. discriminate.
  - cbn. lia.
  - exists w'. split.
    + rewrite Hrun. reflexivity.
    + rewrite Hw. vm_compute. reflexivity.
Defined.

Lemma GetGroups_pagination_witness :
  ∃ w',
    GetGroups env_two_group_pages 5 test_client empty_world
    = (Ok [{| sg_ID := "grp-1"; sg_DisplayName := "staff" |};
           {| sg_ID := "grp-2"; sg_DisplayName := "admins" |}], w') ∧
    URL <$> (wire w').*1
    = ["https://scim.example.org/v2/Groups?count=100&startIndex=1";
       "https://scim.example.org/v2/Groups?count=100&startIndex=2"].
Proof.
  destruct (GetGroups_pagination env_two_group_pages test_client 5 empty_world
              [group_page_1; group_page_2]) as (w' & Hrun & Hw & _).
  - split; [reflexivity|]. split; [reflexivity|]. split.
    { exists 200, "group-page-1". split; [reflexivity|]. split; [lia|]. split; [lia|].
      vm_compute. reflexivity. }
    split; [reflexivity|]. split; [reflexivity|]. split; [|exact I].
    exists 200, "group-page-2". split; [reflexivity|]. split; [lia|]. split; [lia|].
    vm_compute. reflexivity.
  - split; [discriminate|]. split; [vm_compute; reflexivity|].
    right. vm_compute. discriminate.
  - cbn. lia.
  - exists w'. split.
    + rewrite Hrun. reflexivity.
    + rewrite Hw. vm_compute. reflexivity.
Defined.

Lemma GetUsers_no_page_limit_witness :
  ∃ w',
    GetUsers env_odd 50 test_client empty_world = (OutOfFuel, w') ∧
    length (wire w') = 50%nat.
Proof.
  destruct (GetUsers_no_page_limit env_odd test_client 50 empty_world "odd-page" odd_page)
    as (w' & Hrun & Hlen).
  - intros n. reflexivity.
  - intros url. reflexivity.
  - intros n req. reflexivity.
  - vm_compute. reflexivity.
  - discriminate.
  - reflexivity.
  - reflexivity.
  - exists w'. split; [exact Hrun|exact Hlen].
Defined.

Lemma snapshot_last_user_wins_witness :
  build_user_state [scim_user "old-1" "bob@example.org"; scim_user "xyz-000" "";
                    scim_user "def-456" "bob@example.org"] ∅
  = Some {[ "bob@example.org" := bob ]} ∧
  ({[ "bob@example.org" := bob ]} : gmap string UserRecord) !! "bob@example.org"
  = user_record_of (scim_user "def-456" "bob@example.org").
Proof.
  assert (Hb : build_user_state [scim_user "old-1" "bob@example.org"; scim_user "xyz-000" "";
                                 scim_user "def-456" "bob@example.org"] ∅
               = Some {[ "bob@example.org" := bob ]}) by (vm_compute; reflexivity).
  split; [exact Hb|].
  rewrite (snapshot_last_user_wins _ _ "bob@example.org" Hb). reflexivity.
Defined.

Lemma reconcile_panics_without_email_witness :
  ∃ msg, (reconcileUsers env_nomail 5 test_client world0).1 = Panic msg ∧
         users_json (reconcileUsers env_nomail 5 test_client world0).2 = Holds users0.
Proof.
  destruct (reconcile_panics_without_email env_nomail 5 test_client world0 [frank_nomail]
              (GetUsers env_nomail 5 test_client world0).2 frank_nomail)
    as (_ & msg & Hrun & Hu & _).
  - intros msg. discriminate.
  - vm_compute. reflexivity.
  - apply list_elem_of_here.
  - discriminate.
  - reflexivity.
  - exists msg. rewrite Hrun. split; [reflexivity|exact Hu].
Defined.

Lemma update_sends_one_replace_per_attribute_witness :
  ∃ users' err w' outs,
    handleUpdateTask env_ok test_client users0 promote_alice world0 = (Ok (users', err), w') ∧
    wire w' = user_patch_attempts test_client alice
                [{| p_Op := "replace"; p_Path := "title";
                    p_Value := Some (VString "Engineer") |}] outs.
Proof.
  destruct (update_sends_one_replace_per_attribute env_ok test_client users0 promote_alice
              alice {[ "title" := VString "Engineer" ]} world0)
    as (users' & err & w' & kvs & outs & Hrun & Hperm & Hw & _).
  - reflexivity.
  - reflexivity.
  - exists users', err, w', outs. split; [exact Hrun|].
    rewrite map_to_list_singleton in Hperm. apply Permutation_singleton_r in Hperm.
    rewrite Hperm in Hw. exact Hw.
Defined.

Lemma rename_moves_the_record_witness :
  let users' : gmap string UserRecord := {[ "bob@example.org" := alice ]} in
  users' !! "alice@example.org" = None ∧
  users' !! "bob@example.org" = Some alice ∧
  size users' = 1%nat ∧ size users0 = 2%nat.
Proof.
  destruct (rename_moves_the_record env_ok test_client users0 rename_alice alice
              {[ "userName" := VString "bob@example.org" ]} "bob@example.org" world0
              {[ "bob@example.org" := alice ]}
              (handleUpdateTask env_ok test_client users0 rename_alice world0).2)
    as (Hgone & Hnew & _ & _).
  - reflexivity.
  - reflexivity.
  - reflexivity.
  - discriminate.
  - discriminate.
  - vm_compute. reflexivity.
  - split; [exact Hgone|]. split; [exact Hnew|]. split; vm_compute; reflexivity.
Defined.

Lemma membership_add_construction_witness :
  ∃ req o operation,
    wire (handleGroupMembershipTask env_ok test_client users0 groups0 add_alice
            "add" world0).2 = [(req, o)] ∧
    URL req = "https://scim.example.org/v2/Groups/grp-1" ∧
    Body req = Some (VMap
      (<["schemas" := VSlice [VString "urn:ietf:params:scim:api:messages:2.0:PatchOp"]]>
      (<["Operations" := VSlice [VMap operation]]> ∅))) ∧
    operation !! "value" = Some (VSlice [VMap {[ "value" := VString "abc-123" ]}]).
Proof.
  destruct (membership_add_construction env_ok test_client users0 groups0 add_alice
              alice "staff" {| g_SCIMID := "grp-1" |} world0)
    as (err & w' & sent & Hrun & Hw & Hall).
  - reflexivity.
  - reflexivity.
  - reflexivity.
  - rewrite Hrun. cbn [snd].
    assert (Hsent : ∃ req o, sent = [(req, o)]).
    { vm_compute in Hrun. injection Hrun as _ <-. cbn [wire] in Hw.
      eexists _, _. symmetry. exact Hw. }
    destruct Hsent as (req & o & ->).
    destruct (Hall req o) as (_ & Hurl & operation & Hbody & _ & _ & Hvalue & _).
    { apply list_elem_of_here. }
    exists req, o, operation. rewrite Hw. split; [reflexivity|].
    split; [exact Hurl|]. split; [exact Hbody|exact Hvalue].
Defined.

Lemma shutdown_before_first_task_witness :
  ∃ w',
    processBatchCmd_Run env_stopped world0 = (Ok tt, w') ∧
    job_queue_json w'
    = Holds [task "deactivate" "alice@example.org" VNil "pending";
             task "add-to-group" "bob@example.org" (VString "staff") "pending"] ∧
    wire w' = [].
Proof.
  destruct (shutdown_before_first_task env_stopped world0 done_queue Canceled)
    as (w' & Hrun & Hq & Hw & _).
  - split; discriminate.
  - intros n. reflexivity.
  - reflexivity.
  - reflexivity.
  - discriminate.
  - intros msg. discriminate.
  - intros msg. discriminate.
  - reflexivity.
  - exists w'. split; [exact Hrun|]. split; [exact Hq|exact Hw].
Defined.

Lemma cleanup_nothing_due_witness :
  ∃ w',
    cleanupUsersCmd_Run env_ok world_recent = (Ok tt, w') ∧
    wire w' = [] ∧ users_json w' = Holds users_recent.
Proof.
  destruct (cleanup_nothing_due env_ok world_recent users_recent)
    as (w' & Hrun & Hw & _ & Hu & _).
  - split; discriminate.
  - reflexivity.
  - reflexivity.
  - intros k r t Hk Ht. unfold users_recent, users0 in Hk.
    apply lookup_insert_Some in Hk as [[_ <-]|[_ Hk]].
    { injection Ht as <-. vm_compute. discriminate. }
    apply lookup_insert_Some in Hk as [[_ <-]|[_ Hk]]; [discriminate|].
    apply lookup_insert_Some in Hk as [[_ <-]|[_ Hk]]; [discriminate|].
    by rewrite lookup_empty in Hk.
  - exists w'. split; [exact Hrun|]. split; [exact Hw|exact Hu].
Defined.

Lemma search_returns_first_resource_witness :
  ∃ user w',
    GetUserByUsername env_dora test_codec test_client "dora@example.org" empty_world
    = (Ok (Some user), w') ∧
    su_ID user = "jkl-000" ∧
    URL <$> (wire w').*1
    = ["https://scim.example.org/v2/Users?filter=userName+eq+%22dora%40example.org%22"].
Proof.
  destruct (search_returns_first_resource env_dora test_codec test_client "dora@example.org"
              empty_world 200 "dora-page" dora_page)
    as (w' & Hrun & Hw & _).
  - reflexivity.
  - reflexivity.
  - reflexivity.
  - lia.
  - lia.
  - vm_compute. reflexivity.
  - eexists _, w'. split; [exact Hrun|]. split; [reflexivity|].
    rewrite Hw. vm_compute. reflexivity.
Defined.

Lemma create_user_updates_the_mirror_witness :
  ∃ w',
    createUserCmd_Run (env_create "created-erin") test_codec (Holds erin_input) world0
    = (Ok tt, w') ∧
    users_json w'
    = Holds (<["erin@example.org" :=
                 {| u_SCIMID := "mno-111"; u_Email := "erin@example.org";
                    u_Status := "active";
                    u_Name := {| Formatted := "Erin Example"; FamilyName := "Example";
                                 GivenName := "Erin" |};
                    u_Title := "Analyst"; u_Organization := "Research";
                    u_DeactivationTimestamp := None |}]> users0) ∧
    length (audit_log w') = 2%nat ∧
    Method <$> (wire w').*1 = ["GET"; "POST"].
Proof.
  destruct (create_user_updates_the_mirror (env_create "created-erin") test_codec erin_input
              world0 users0 200 "no-match" no_match_page 201 "created-erin" erin_created
              {| e_Value := "erin@example.org"; e_Type := "work"; e_Primary := true |} [])
    as (w' & Hrun & Hu & Ha & Hw).
  - split; discriminate.
  - intros n. reflexivity.
  - intros n. reflexivity.
  - intros method url. reflexivity.
  - discriminate.
  - reflexivity.
  - vm_compute. reflexivity.
  - reflexivity.
  - lia.
  - lia.
  - vm_compute. reflexivity.
  - left. reflexivity.
  - reflexivity.
  - lia.
  - lia.
  - vm_compute. reflexivity.
  - reflexivity.
  - exists w'. split; [exact Hrun|]. split; [exact Hu|].
    split; [rewrite Ha; reflexivity|]. rewrite Hw. reflexivity.
Defined.


Lemma populate_agrees_with_refresh_witness :
  ∃ wp wr,
    populate_users_block env_refresh 5 test_client world0 = (Ok true, wp) ∧
    reconcileUsers env_refresh 5 test_client world0 = (Ok tt, wr) ∧
    users_json wp = users_json wr ∧
    audit_log wp = [].
Proof.
  destruct (populate_agrees_with_refresh env_refresh 5 test_client world0
              [scim_user "def-456" "bob@example.org"; scim_user "ghi-789" "carol@example.org"]
              (GetUsers env_refresh 5 test_client world0).2
              (<["bob@example.org" := bob]> {["carol@example.org" := carol]}))
    as (wp & wr & Hpop & Hrec & Hup & Hur & Ha & _).
  - intros n. reflexivity.
  - intros i Hi. reflexivity.
  - intros msg. discriminate.
  - vm_compute. reflexivity.
  - vm_compute. reflexivity.
  - exists wp, wr. split; [exact Hpop|]. split; [exact Hrec|].
    split; [by rewrite Hup, Hur|exact Ha].
Defined.

Lemma populate_halts_without_writing_witness :
  ∃ w',
    populate_users_block env_refresh_stopped 5 test_client world0 = (Ok false, w') ∧
    users_json w' = Holds users0 ∧ fs_ops w' = 0%nat.
Proof.
  destruct (populate_halts_without_writing env_refresh_stopped 5 test_client world0
              [scim_user "def-456" "bob@example.org"; scim_user "ghi-789" "carol@example.org"]
              (GetUsers env_refresh_stopped 5 test_client world0).2 0 Canceled)
    as (w' & Hrun & Hu & _ & _ & Hf & _).
  - vm_compute. reflexivity.
  - cbn. lia.
  - intros j Hj. lia.
  - reflexivity.
  - intros u Hin. cbn in Hin. by apply elem_of_nil in Hin.
  - exists w'. split; [exact Hrun|]. split; [exact Hu|exact Hf].
Defined.

Lemma manage_members_sends_one_patch_witness :
  ∃ r w' outs,
    manageGroupMembersCmd_Run env_ok "staff" ["alice@example.org"; "ghost@example.org"]
      ["bob@example.org"] world0 = (r, w') ∧
    wire w' = group_patch_wire test_client {| g_SCIMID := "grp-1" |}
                [add_member_op alice; remove_member_op bob] outs ∧
    (r = Ok tt ∨ r = Exit 1).
Proof.
  destruct (manage_members_sends_one_patch env_ok "staff"
              ["alice@example.org"; "ghost@example.org"] ["bob@example.org"] world0
              users0 groups0 {| g_SCIMID := "grp-1" |})
    as (r & w' & outs & Hrun & Hw & _ & _ & Hr & _).
  - split; discriminate.
  - reflexivity.
  - reflexivity.
  - reflexivity.
  - reflexivity.
  - exists r, w', outs. split; [exact Hrun|]. split; [exact Hw|exact Hr].
Defined.

Lemma create_group_updates_the_mirror_witness :
  ∃ w',
    createGroupCmd_Run env_create_group test_codec (Holds auditors_input) world0
    = (Ok tt, w') ∧
    groups_json w' = Holds (<["auditors" := {| g_SCIMID := "grp-9" |}]> groups0) ∧
    length (audit_log w') = 2%nat.
Proof.
  destruct (create_group_updates_the_mirror env_create_group test_codec auditors_input
              world0 groups0 201 "created-group"
              {| sg_ID := "grp-9"; sg_DisplayName := "auditors" |})
    as (w' & Hrun & Hg & _ & Ha & _).
  - split; discriminate.
  - intros n. reflexivity.
  - reflexivity.
  - reflexivity.
  - discriminate.
  - reflexivity.
  - vm_compute. reflexivity.
  - reflexivity.
  - lia.
  - lia.
  - vm_compute. reflexivity.
  - exists w'. split; [exact Hrun|]. split; [exact Hg|]. rewrite Ha. reflexivity.
Defined.

Lemma commands_require_configuration_witness :
  refreshCmd_Run env_unconfigured 5 world0 = (Exit 1, world0) ∧
  processBatchCmd_Run env_unconfigured world0 = (Exit 1, world0) ∧
  createUserCmd_Run env_unconfigured test_codec (Holds erin_input) world0 = (Exit 1, world0).
Proof.
  destruct (commands_require_configuration env_unconfigured test_codec 5 world0
              (Holds erin_input) (Holds auditors_input) "staff" [] [])
    as (H1 & _ & H3 & _ & H5 & _).
  - right. reflexivity.
  - split; [exact H1|]. split; [exact H3|exact H5].
Defined.

Lemma deactivate_request_construction_witness :
  ∃ users' w' outs,
    handleDeactivateTask env_ok test_client users0 deactivate_alice world0
    = (Ok (users', None), w') ∧
    wire w' = user_patch_attempts test_client alice
                [{| p_Op := "replace"; p_Path := "active"; p_Value := Some (VBool false) |}]
                outs ∧
    u_Status <$> users' !! "alice@example.org" = Some "inactive".
Proof.
  destruct (deactivate_request_construction env_ok test_client users0 deactivate_alice
              alice world0)
    as (users' & err & w' & outs & Hrun & Hw & _ & Hok).
  - reflexivity.
  - assert (He : err = None).
    { pose proof (f_equal (λ p : Res (gmap string UserRecord * option Error) * World,
                             match p.1 with Ok (_, e) => e | _ => None end) Hrun) as He.
      vm_compute in He. symmetry. exact He. }
    subst err. destruct (Hok eq_refl) as (_ & record' & Hl & Hs & _).
    exists users', w', outs. split; [exact Hrun|]. split; [exact Hw|].
    change (t_Target deactivate_alice) with "alice@example.org" in Hl.
    rewrite Hl. cbn. by rewrite Hs.
Defined.

